(** * Community preset API: submission lifecycle

    A shallow embedding of the preset service, the moderation service, the
    vote ledger, the daily rate limit and the submission handler, with the
    properties of the design document checked against them.

    Conventions of the embedding.
    - A D1 table is the list of its rows; a query is a filter, a sort and a
      slice of that list, an update a map over it.
    - An [async] function that touches the store takes the store and returns
      its result with the store it leaves behind.
    - What a request cannot know beforehand (the clock, the fresh UUID, the
      reply of the remote classifier, whether the store commits a batch) is an
      explicit input.
    - Text is a sequence of code units. The text primitives of JavaScript
      (case mapping, white space, word characters, length) are modelled on
      ASCII text, where they are exact; a property that depends on one of them
      is stated for ASCII text.
    - Ids of dyes and vote counts are integers, printed in plain decimal as
      JavaScript prints the integers it represents exactly; the scores of the
      classifier are binary64 numbers.
    - A request body is either not JSON or a JSON object of the declared type
      [PresetSubmission]; a request whose handling throws (a body of another
      shape, a store that refuses the insert) is answered by the framework
      and is not modelled.
    - A timestamp column holds an ISO-8601 UTC string written by
      [toISOString]; such strings have one width and order like the instants
      they denote, so the model keeps the instant, in milliseconds since the
      epoch. *)

From Stdlib Require Import ZArith List String Ascii Bool Lia.
From Stdlib Require Import Permutation Sorted.
From Stdlib Require Import DecimalString DecimalZ DecimalPos DecimalFacts.
From Stdlib Require Import PrimFloat FloatOps SpecFloat.
Import ListNotations.

Local Open Scope string_scope.
Local Open Scope Z_scope.

(* ================================================================== *)
(** * JavaScript primitives used by the services *)
(* ================================================================== *)

(** A stable sort by a three-way comparator, shared by
    [Array.prototype.sort] and by [ORDER BY]: an element goes in front of the
    first element of the sorted rest that the comparator does not put before
    it, so elements that compare equal keep their order. *)
Module Stable.
Section Sort.
Context {A : Type} (cmp : A -> A -> Z).

Fixpoint insert (x : A) (l : list A) : list A :=
  match l with
  | [] => [x]
  | y :: l' => if cmp x y <=? 0 then x :: l else y :: insert x l'
  end.

Fixpoint sort (l : list A) : list A :=
  match l with
  | [] => []
  | x :: l' => insert x (sort l')
  end.

End Sort.
End Stable.

Module Js.

(** [x || d] on a numeric column: [0] is the only falsy integer. *)
Definition or_int (x d : Z) : Z := if x =? 0 then d else x.

(** [row?.field || d] where the row may be missing. *)
Definition field_or {A} (row : option A) (field : A -> Z) (d : Z) : Z :=
  match row with
  | Some r => or_int (field r) d
  | None => d
  end.

(** Truthiness of an optional string: [undefined] and the empty string are
    falsy. *)
Definition truthy (s : option string) : bool :=
  match s with
  | Some s' => negb (s' =? EmptyString)%string
  | None => false
  end.

(** [s || d] on an optional string. *)
Definition or_string (s : option string) (d : string) : string :=
  match s with
  | Some s' => if (s' =? EmptyString)%string then d else s'
  | None => d
  end.

(** ** [Array.prototype.sort] with a comparator: a stable sort. *)
Definition sort {A} (cmp : A -> A -> Z) (l : list A) : list A :=
  Stable.sort cmp l.

(** ** Number to string, for integers

    Plain decimal digits: what JavaScript prints for an integer it holds
    exactly (up to [MAX_SAFE_INTEGER], far below the 10^21 where it changes to
    exponent notation). *)
Definition MAX_SAFE_INTEGER : Z := 9007199254740991.

Definition number_toString (z : Z) : string :=
  NilZero.string_of_int (Z.to_int z).

(** ** [Array.prototype.join] *)
Fixpoint join (sep : string) (parts : list string) : string :=
  match parts with
  | [] => EmptyString
  | [p] => p
  | p :: rest => p ++ sep ++ join sep rest
  end.

(** ** [JSON.stringify] of an array of integers *)
Definition JSON_stringify_numbers (l : list Z) : string :=
  "[" ++ join "," (map number_toString l) ++ "]".

(** ** Text

    The primitives of this part are those of JavaScript on ASCII text: on a
    unit below 128 [toLowerCase] and the canonicalisation of flag [i] are the
    ASCII case mappings and [\w] is the ASCII class. Text with other units is
    outside what they model. *)

Definition is_ascii (c : ascii) : bool := (nat_of_ascii c <? 128)%nat.

Fixpoint ascii_text (s : string) : bool :=
  match s with
  | EmptyString => true
  | String c s' => is_ascii c && ascii_text s'
  end.

Definition is_upper (c : ascii) : bool := ("A" <=? c)%char && (c <=? "Z")%char.
Definition is_lower (c : ascii) : bool := ("a" <=? c)%char && (c <=? "z")%char.
Definition is_digit (c : ascii) : bool := ("0" <=? c)%char && (c <=? "9")%char.

Definition char_toLowerCase (c : ascii) : ascii :=
  if is_upper c then ascii_of_nat (nat_of_ascii c + 32) else c.

Definition char_toUpperCase (c : ascii) : ascii :=
  if is_lower c then ascii_of_nat (nat_of_ascii c - 32) else c.

(** [String.prototype.toLowerCase], on ASCII text. *)
Fixpoint toLowerCase (s : string) : string :=
  match s with
  | EmptyString => EmptyString
  | String c s' => String (char_toLowerCase c) (toLowerCase s')
  end.

(** ** Regular expressions of the shape [\b<literal>\b] with flag [i]

    [escapeRegex] puts a backslash before every metacharacter of the word, so
    the pattern built from a word matches that word literally between two
    word-boundary assertions. *)
Record RegExp := { literal : string }.

(** [\w] *)
Definition is_word_char (c : ascii) : bool :=
  is_upper c || is_lower c || is_digit c || (c =? "_")%char.

Definition is_word (c : option ascii) : bool :=
  match c with
  | Some c' => is_word_char c'
  | None => false
  end.

(** [\b] between the unit before and the unit after a position. *)
Definition word_boundary (prev next : option ascii) : bool :=
  xorb (is_word prev) (is_word next).

Definition head (s : string) : option ascii :=
  match s with
  | String c _ => Some c
  | EmptyString => None
  end.

(** The literal at the front of [s], units compared after canonicalisation
    (flag [i]); gives the last unit consumed and what is left. *)
Fixpoint literal_at (w s : string) (prev : option ascii)
  : option (option ascii * string) :=
  match w with
  | EmptyString => Some (prev, s)
  | String a w' =>
      match s with
      | String c s' =>
          if (char_toUpperCase a =? char_toUpperCase c)%char
          then literal_at w' s' (Some c)
          else None
      | EmptyString => None
      end
  end.

Definition match_at (w : string) (prev : option ascii) (s : string) : bool :=
  word_boundary prev (head s) &&
  match literal_at w s prev with
  | Some (last, rest) => word_boundary last (head rest)
  | None => false
  end.

Fixpoint search (w : string) (prev : option ascii) (s : string) : bool :=
  match_at w prev s ||
  match s with
  | String c s' => search w (Some c) s'
  | EmptyString => false
  end.

(** [RegExp.prototype.test] (no [g] flag: every call starts at index 0). *)
Definition test (re : RegExp) (s : string) : bool :=
  search (literal re) None s.

(** ** Numbers (binary64) *)

(** [v || 0] on an optional number: [undefined], [0], [-0] and [NaN] are
    falsy. *)
Definition or_zero (v : option float) : float :=
  match v with
  | Some x => if (x =? 0)%float || is_nan x then 0%float else x
  | None => 0%float
  end.

(** [Math.round] of a finite number, as an integer: the integer nearest to
    it, the larger one on a tie. *)
Definition Math_round (x : float) : option Z :=
  match Prim2SF x with
  | S754_zero _ => Some 0
  | S754_finite s m e =>
      let n := if s then Z.neg m else Z.pos m in
      Some (if 0 <=? e then n * 2 ^ e
            else (2 * n + 2 ^ (- e)) / 2 ^ (1 - e))
  | S754_infinity _ | S754_nan => None
  end.

(** [`${Math.round(x)}`]. Integers print in plain decimal (JavaScript does
    so below 10^21, far above a percentage). *)
Definition Math_round_toString (x : float) : string :=
  match Math_round x with
  | Some n => number_toString n
  | None =>
      if is_nan x then "NaN"
      else if (x <? 0)%float then "-Infinity" else "Infinity"
  end.

(** ** [JSON.stringify] of an array of strings *)

Definition hex_digit (n : nat) : ascii :=
  if (n <? 10)%nat then ascii_of_nat (48 + n) else ascii_of_nat (87 + n).

Definition backslash : ascii := "092"%char.
Definition dquote : ascii := "034"%char.

Definition escape (c : ascii) : string :=
  String backslash (String c EmptyString).

Definition quote_char (c : ascii) : string :=
  if (c =? dquote)%char then escape dquote
  else if (c =? backslash)%char then escape backslash
  else if (c =? "008")%char then escape "b"
  else if (c =? "009")%char then escape "t"
  else if (c =? "010")%char then escape "n"
  else if (c =? "012")%char then escape "f"
  else if (c =? "013")%char then escape "r"
  else if (nat_of_ascii c <? 32)%nat then
    escape "u" ++ "00" ++
    String (hex_digit (nat_of_ascii c / 16))
      (String (hex_digit (Nat.modulo (nat_of_ascii c) 16)) EmptyString)
  else String c EmptyString.

Fixpoint quote_body (s : string) : string :=
  match s with
  | EmptyString => EmptyString
  | String c s' => quote_char c ++ quote_body s'
  end.

Definition JSON_stringify_string (s : string) : string :=
  String dquote (quote_body s ++ String dquote EmptyString).

Definition JSON_stringify_strings (l : list string) : string :=
  "[" ++ join "," (map JSON_stringify_string l) ++ "]".

End Js.

(* ================================================================== *)
(** * The SQL the services send to the store *)
(* ================================================================== *)

Module Sql.

(** [LIKE]: [%] is any run of units, [_] any one unit, letters of the ASCII
    range compare without case. *)
Fixpoint like (p : string) : string -> bool :=
  match p with
  | EmptyString =>
      fun s => match s with EmptyString => true | String _ _ => false end
  | String c p' =>
      if (c =? "%")%char then
        fix any (s : string) : bool :=
          like p' s ||
          match s with
          | String _ s' => any s'
          | EmptyString => false
          end
      else if (c =? "_")%char then
        fun s =>
          match s with
          | String _ s' => like p' s'
          | EmptyString => false
          end
      else
        fun s =>
          match s with
          | String d s' =>
              (Js.char_toUpperCase c =? Js.char_toUpperCase d)%char
              && like p' s'
          | EmptyString => false
          end
  end.

(** [ORDER BY]: a stable sort by the comparator of the clause. *)
Definition order_by {A} (cmp : A -> A -> Z) (rows : list A) : list A :=
  Stable.sort cmp rows.

(** [LIMIT ? OFFSET ?]: a negative limit is no limit, a negative offset is
    no offset. *)
Definition limit_offset {A} (limit offset : Z) (rows : list A) : list A :=
  let rest := skipn (Z.to_nat offset) rows in
  if limit <? 0 then rest else firstn (Z.to_nat limit) rest.

(** Three-way comparison of integers and of text (binary collation). *)
Definition cmp_int (a b : Z) : Z :=
  match a ?= b with Lt => -1 | Eq => 0 | Gt => 1 end.

Definition cmp_text (a b : string) : Z :=
  match String.compare a b with Lt => -1 | Eq => 0 | Gt => 1 end.

(** [k1, k2]: the second key decides where the first ties. *)
Definition then_by (c1 c2 : Z) : Z := if c1 =? 0 then c2 else c1.

End Sql.

(* ================================================================== *)
(** * Data model *)
(* ================================================================== *)

(** The values of the [status] column ([hidden] is the status the ban
    migration gives the presets of a banned user). *)
Inductive PresetStatus := pending | approved | rejected | flagged | hidden.

Definition PresetStatus_eqb (a b : PresetStatus) : bool :=
  match a, b with
  | pending, pending | approved, approved | rejected, rejected
  | flagged, flagged | hidden, hidden => true
  | _, _ => false
  end.

(** A row of [presets]. The [dyes] and [tags] columns hold JSON text; the
    model keeps the value that text denotes, and serialises it where the
    text itself is used. *)
Record PresetRow := {
  row_id : string;
  row_name : string;
  row_description : string;
  row_category_id : string;
  row_dyes : list Z;
  row_tags : list string;
  row_author_discord_id : option string;
  row_author_name : option string;
  row_vote_count : Z;
  row_status : PresetStatus;
  row_is_curated : Z;
  row_created_at : Z;
  row_updated_at : Z;
  row_dye_signature : option string
}.

(** A row of [votes]. *)
Record VoteRow := {
  vote_preset_id : string;
  vote_user_discord_id : string;
  vote_created_at : Z
}.

Record D1Database := {
  presets : list PresetRow;
  votes : list VoteRow
}.

Record CommunityPreset := {
  preset_id : string;
  preset_name : string;
  preset_description : string;
  preset_category_id : string;
  preset_dyes : list Z;
  preset_tags : list string;
  preset_author_discord_id : option string;
  preset_author_name : option string;
  preset_vote_count : Z;
  preset_status : PresetStatus;
  preset_is_curated : bool;
  preset_created_at : Z;
  preset_updated_at : Z;
  preset_dye_signature : option string
}.

(** A submission of the declared type; dye ids are the integer ids of the
    game's dyes. *)
Record PresetSubmission := {
  sub_name : string;
  sub_description : string;
  sub_category_id : string;
  sub_dyes : list Z;
  sub_tags : list string
}.

Inductive SortKey := popular | recent | by_name.

Record PresetFilters := {
  filter_category : option string;
  filter_search : option string;
  filter_status : option PresetStatus;
  filter_sort : option SortKey;
  filter_page : option Z;
  filter_limit : option Z;
  filter_is_curated : option bool
}.

Record PresetListResponse := {
  list_presets : list CommunityPreset;
  list_total : Z;
  list_page : Z;
  list_limit : Z;
  list_has_more : bool
}.

Record VoteResponse := {
  success : bool;
  new_vote_count : Z;
  already_voted : option bool;
  error : option string
}.

Inductive FlaggedField := field_name | field_description | field_content.

Inductive ModerationMethod := method_local | method_perspective | method_all.

(** The text of a method tag, as the service writes it. *)
Definition method_text (m : ModerationMethod) : string :=
  match m with
  | method_local => "local"
  | method_perspective => "perspective"
  | method_all => "all"
  end.

Record ModerationResult := {
  passed : bool;
  flaggedField : option FlaggedField;
  flaggedReason : option string;
  method : ModerationMethod;
  scores : option (list (string * float))
}.

Record RateLimitResult := {
  allowed : bool;
  remaining : Z;
  resetAt : Z
}.

Record AuthContext := {
  isAuthenticated : bool;
  isModerator : bool;
  userDiscordId : option string;
  userName : option string
}.

Record Env := {
  PERSPECTIVE_API_KEY : option string
}.

(** The reply of the remote classifier, as far as the service looks at it:
    the interface [PerspectiveResponse] with every attribute optional, inside
    a body that may fail to parse or may lack [attributeScores]. A missing
    attribute, [summaryScore] or [value] is an absent score. *)
Record AttributeScores := {
  TOXICITY : option float;
  SEVERE_TOXICITY : option float;
  IDENTITY_ATTACK : option float;
  INSULT : option float;
  PROFANITY : option float
}.

Inductive ResponseBody :=
| body_not_json
| body_json (attributeScores : option AttributeScores).

Inductive FetchOutcome :=
| fetch_rejects
| fetch_response (ok : bool) (body : ResponseBody).

(** One POST to the classifier. *)
Record PerspectiveRequest := {
  request_key : string;
  request_text : string
}.

(** What a submission request carries once the authentication middleware has
    run; [None] is a body that is not JSON, [Some] a JSON object of the
    declared type [PresetSubmission]. *)
Record Request := {
  auth : AuthContext;
  body : option PresetSubmission
}.

(** What the handler reads from outside the store while it serves one
    request: the fresh UUID, the clock at the insert and at the vote, the
    classifier, and whether the store commits the vote batch. *)
Record Runtime := {
  randomUUID : string;
  createdAt : Z;
  votedAt : Z;
  fetch : PerspectiveRequest -> FetchOutcome;
  commits : bool
}.

Inductive Response :=
| json_error (code : Z) (error message : string)
| json_duplicate (duplicate : CommunityPreset) (vote_added : bool)
| json_created (preset : CommunityPreset) (moderation_status : PresetStatus).

Definition status_code (r : Response) : Z :=
  match r with
  | json_error code _ _ => code
  | json_duplicate _ _ => 200
  | json_created _ _ => 201
  end.

(* ================================================================== *)
(** * Duplicate detection: the dye signature *)
(* ================================================================== *)

(** The comparator [(a, b) => a - b]. *)
Definition numeric_ascending (a b : Z) : Z := a - b.

(** [generateDyeSignature]: sort a copy ascending, serialise as JSON. *)
Definition generateDyeSignature (dyes : list Z) : string :=
  let sorted := Js.sort numeric_ascending dyes in
  Js.JSON_stringify_numbers sorted.

(** Two lists with the same elements, multiplicity and order forgotten. *)
Definition same_set (a b : list Z) : Prop :=
  forall x, In x a <-> In x b.

(* ================================================================== *)
(** * Preset service *)
(* ================================================================== *)

(** [row.dye_signature || undefined] *)
Definition signature_or_undefined (s : option string) : option string :=
  match s with
  | Some t => if (t =? EmptyString)%string then None else Some t
  | None => None
  end.

Definition rowToPreset (row : PresetRow) : CommunityPreset :=
  {| preset_id := row_id row;
     preset_name := row_name row;
     preset_description := row_description row;
     preset_category_id := row_category_id row;
     preset_dyes := row_dyes row;
     preset_tags := row_tags row;
     preset_author_discord_id := row_author_discord_id row;
     preset_author_name := row_author_name row;
     preset_vote_count := row_vote_count row;
     preset_status := row_status row;
     preset_is_curated := (row_is_curated row =? 1);
     preset_created_at := row_created_at row;
     preset_updated_at := row_updated_at row;
     preset_dye_signature := signature_or_undefined (row_dye_signature row) |}.

(** The [WHERE] clause [getPresets] builds: the status always, the other
    conditions when their filter is truthy (or, for the curated flag,
    defined). *)
Definition where_clause (status : PresetStatus) (filters : PresetFilters)
  (row : PresetRow) : bool :=
  PresetStatus_eqb (row_status row) status
  && match filter_category filters with
     | Some c =>
         if (c =? EmptyString)%string then true
         else (row_category_id row =? c)%string
     | None => true
     end
  && match filter_search filters with
     | Some q =>
         if (q =? EmptyString)%string then true
         else
           let searchPattern := "%" ++ q ++ "%" in
           Sql.like searchPattern (row_name row)
           || Sql.like searchPattern (row_description row)
           || Sql.like searchPattern (Js.JSON_stringify_strings (row_tags row))
     | None => true
     end
  && match filter_is_curated filters with
     | Some b => row_is_curated row =? (if b then 1 else 0)
     | None => true
     end.

(** The [ORDER BY] clauses. *)
Definition by_votes_then_recent (a b : PresetRow) : Z :=
  Sql.then_by (Sql.cmp_int (row_vote_count b) (row_vote_count a))
              (Sql.cmp_int (row_created_at b) (row_created_at a)).

Definition orderBy (sort : SortKey) (a b : PresetRow) : Z :=
  match sort with
  | recent => Sql.cmp_int (row_created_at b) (row_created_at a)
  | by_name => Sql.cmp_text (row_name a) (row_name b)
  | popular => by_votes_then_recent a b
  end.

Definition default {A} (v : option A) (d : A) : A :=
  match v with
  | Some x => x
  | None => d
  end.

Definition getPresets (db : D1Database) (filters : PresetFilters)
  : PresetListResponse :=
  let status := default (filter_status filters) approved in
  let sort := default (filter_sort filters) popular in
  let page := default (filter_page filters) 1 in
  let limit := default (filter_limit filters) 20 in
  let matching := filter (where_clause status filters) (presets db) in
  let total := Js.or_int (Z.of_nat (List.length matching)) 0 in
  let offset := (page - 1) * limit in
  let rows := Sql.limit_offset limit offset
                (Sql.order_by (orderBy sort) matching) in
  let presets := map rowToPreset rows in
  {| list_presets := presets;
     list_total := total;
     list_page := page;
     list_limit := limit;
     list_has_more := offset + Z.of_nat (List.length presets) <? total |}.

Definition getFeaturedPresets (db : D1Database) : list CommunityPreset :=
  let matching :=
    filter (fun row => PresetStatus_eqb (row_status row) approved)
           (presets db) in
  map rowToPreset
    (Sql.limit_offset 10 0 (Sql.order_by by_votes_then_recent matching)).

Definition first_row (db : D1Database) (id : string) : option PresetRow :=
  find (fun row => (row_id row =? id)%string) (presets db).

Definition getPresetById (db : D1Database) (id : string)
  : option CommunityPreset :=
  option_map rowToPreset (first_row db id).

(** [status IN ('approved', 'pending')] *)
Definition duplicate_target (s : PresetStatus) : bool :=
  match s with
  | approved | pending => true
  | rejected | flagged | hidden => false
  end.

Definition signature_is (signature : string) (row : PresetRow) : bool :=
  match row_dye_signature row with
  | Some t => (t =? signature)%string
  | None => false
  end.

Definition findDuplicatePreset (db : D1Database) (dyes : list Z)
  : option CommunityPreset :=
  let signature := generateDyeSignature dyes in
  option_map rowToPreset
    (find (fun row => signature_is signature row
                      && duplicate_target (row_status row))
          (presets db)).

(** [createPreset]; [id] is the fresh UUID and [now] the clock reading. The
    type of [status] in the source admits only approved and pending. *)
Definition createPreset (db : D1Database) (submission : PresetSubmission)
  (authorDiscordId authorName : string) (status : PresetStatus)
  (id : string) (now : Z) : CommunityPreset * D1Database :=
  let dyeSignature := generateDyeSignature (sub_dyes submission) in
  let row :=
    {| row_id := id;
       row_name := sub_name submission;
       row_description := sub_description submission;
       row_category_id := sub_category_id submission;
       row_dyes := sub_dyes submission;
       row_tags := sub_tags submission;
       row_author_discord_id := Some authorDiscordId;
       row_author_name := Some authorName;
       row_vote_count := 0;
       row_status := status;
       row_is_curated := 0;
       row_created_at := now;
       row_updated_at := now;
       row_dye_signature := Some dyeSignature |} in
  ({| preset_id := id;
      preset_name := sub_name submission;
      preset_description := sub_description submission;
      preset_category_id := sub_category_id submission;
      preset_dyes := sub_dyes submission;
      preset_tags := sub_tags submission;
      preset_author_discord_id := Some authorDiscordId;
      preset_author_name := Some authorName;
      preset_vote_count := 0;
      preset_status := status;
      preset_is_curated := false;
      preset_created_at := now;
      preset_updated_at := now;
      preset_dye_signature := Some dyeSignature |},
   {| presets := (presets db ++ [row])%list; votes := votes db |}).

Definition set_status (id : string) (status : PresetStatus) (now : Z)
  (row : PresetRow) : PresetRow :=
  if (row_id row =? id)%string then
    {| row_id := row_id row;
       row_name := row_name row;
       row_description := row_description row;
       row_category_id := row_category_id row;
       row_dyes := row_dyes row;
       row_tags := row_tags row;
       row_author_discord_id := row_author_discord_id row;
       row_author_name := row_author_name row;
       row_vote_count := row_vote_count row;
       row_status := status;
       row_is_curated := row_is_curated row;
       row_created_at := row_created_at row;
       row_updated_at := now;
       row_dye_signature := row_dye_signature row |}
  else row.

(** [updatePresetStatus]: one [UPDATE ... WHERE id = ?], then a read back. *)
Definition updatePresetStatus (db : D1Database) (id : string)
  (status : PresetStatus) (now : Z) : option CommunityPreset * D1Database :=
  let db' := {| presets := map (set_status id status now) (presets db);
                votes := votes db |} in
  (getPresetById db' id, db').

Definition getPendingPresets (db : D1Database) : list CommunityPreset :=
  let matching :=
    filter (fun row => PresetStatus_eqb (row_status row) pending)
           (presets db) in
  map rowToPreset
    (Sql.order_by
       (fun a b => Sql.cmp_int (row_created_at a) (row_created_at b))
       matching).

(* ================================================================== *)
(** * Vote ledger *)
(* ================================================================== *)

Definition is_vote (presetId userDiscordId : string) (v : VoteRow) : bool :=
  (vote_preset_id v =? presetId)%string
  && (vote_user_discord_id v =? userDiscordId)%string.

(** [SELECT 1 FROM votes WHERE preset_id = ? AND user_discord_id = ?] *)
Definition existingVote (db : D1Database) (presetId userDiscordId : string)
  : bool :=
  existsb (is_vote presetId userDiscordId) (votes db).

(** [UPDATE presets SET vote_count = <f vote_count>, updated_at = ?
    WHERE id = ?] *)
Definition set_vote_count (id : string) (f : Z -> Z) (now : Z)
  (row : PresetRow) : PresetRow :=
  if (row_id row =? id)%string then
    {| row_id := row_id row;
       row_name := row_name row;
       row_description := row_description row;
       row_category_id := row_category_id row;
       row_dyes := row_dyes row;
       row_tags := row_tags row;
       row_author_discord_id := row_author_discord_id row;
       row_author_name := row_author_name row;
       row_vote_count := f (row_vote_count row);
       row_status := row_status row;
       row_is_curated := row_is_curated row;
       row_created_at := row_created_at row;
       row_updated_at := now;
       row_dye_signature := row_dye_signature row |}
  else row.

(** [addVote]. [batch_commits] says whether the store commits the batch;
    when it does not, [db.batch] throws and nothing is written. *)
Definition addVote (db : D1Database) (presetId userDiscordId : string)
  (now : Z) (batch_commits : bool) : VoteResponse * D1Database :=
  if existingVote db presetId userDiscordId then
    ({| success := false;
        already_voted := Some true;
        new_vote_count := Js.field_or (first_row db presetId) row_vote_count 0;
        error := None |}, db)
  else if batch_commits then
    let db' :=
      {| presets :=
           map (set_vote_count presetId (fun n => n + 1) now) (presets db);
         votes :=
           (votes db ++ [{| vote_preset_id := presetId;
                            vote_user_discord_id := userDiscordId;
                            vote_created_at := now |}])%list |} in
    ({| success := true;
        new_vote_count := Js.field_or (first_row db' presetId) row_vote_count 1;
        already_voted := None;
        error := None |}, db')
  else
    ({| success := false;
        new_vote_count := 0;
        already_voted := None;
        error := Some "Failed to add vote" |}, db).

(** [removeVote] *)
Definition removeVote (db : D1Database) (presetId userDiscordId : string)
  (now : Z) (batch_commits : bool) : VoteResponse * D1Database :=
  if negb (existingVote db presetId userDiscordId) then
    ({| success := false;
        already_voted := Some false;
        new_vote_count := Js.field_or (first_row db presetId) row_vote_count 0;
        error := None |}, db)
  else if batch_commits then
    let db' :=
      {| presets :=
           map (set_vote_count presetId (fun n => Z.max 0 (n - 1)) now)
               (presets db);
         votes :=
           filter (fun v => negb (is_vote presetId userDiscordId v))
                  (votes db) |} in
    ({| success := true;
        new_vote_count := Js.field_or (first_row db' presetId) row_vote_count 0;
        already_voted := None;
        error := None |}, db')
  else
    ({| success := false;
        new_vote_count := 0;
        already_voted := None;
        error := Some "Failed to remove vote" |}, db).

(* ================================================================== *)
(** * Rate limit service *)
(* ================================================================== *)

Definition DAILY_SUBMISSION_LIMIT : Z := 10.

(** [Date.UTC(year, month, date)] of the instant [now]. *)
Definition getStartOfDayUTC (now : Z) : Z :=
  (24 * 60 * 60 * 1000) * (now / (24 * 60 * 60 * 1000)).

Definition submitted_between (userDiscordId : string) (from to : Z)
  (row : PresetRow) : bool :=
  match row_author_discord_id row with
  | Some a => (a =? userDiscordId)%string
  | None => false
  end
  && (from <=? row_created_at row) && (row_created_at row <? to).

Definition checkSubmissionRateLimit (db : D1Database) (userDiscordId : string)
  (now : Z) : RateLimitResult :=
  let today := getStartOfDayUTC now in
  let tomorrow := today + 24 * 60 * 60 * 1000 in
  let count :=
    Z.of_nat (List.length
      (filter (submitted_between userDiscordId today tomorrow) (presets db))) in
  let submissionsToday := Js.or_int count 0 in
  let remaining := Z.max 0 (DAILY_SUBMISSION_LIMIT - submissionsToday) in
  {| allowed := submissionsToday <? DAILY_SUBMISSION_LIMIT;
     remaining := remaining;
     resetAt := tomorrow |}.

(* ================================================================== *)
(** * Moderation service *)
(* ================================================================== *)

Section Moderation.

(** The English word list is data of the deployment. *)
Variable enProfanity : list string.

Definition profanityLists : list (string * list string) :=
  [("en", enProfanity); ("ja", []); ("de", []);
   ("fr", []); ("ko", []); ("zh", [])].

Definition compiledProfanityPatterns : list Js.RegExp :=
  flat_map
    (fun entry =>
       map (fun word => {| Js.literal := Js.toLowerCase word |}) (snd entry))
    profanityLists.

Definition checkLocalFilter (name description : string)
  : option ModerationResult :=
  let textToCheck := Js.toLowerCase (name ++ " " ++ description) in
  let nameLower := Js.toLowerCase name in
  match find (fun regex => Js.test regex textToCheck)
             compiledProfanityPatterns with
  | Some regex =>
      let flagged :=
        if Js.test regex nameLower then field_name else field_description in
      Some {| passed := false;
              flaggedField := Some flagged;
              flaggedReason := Some "Contains prohibited content";
              method := method_local;
              scores := None |}
  | None => None
  end.

(** 0.7 as a binary64 number. *)
Definition threshold : float := 0x1.6666666666666p-1%float.

Definition scores_of (a : AttributeScores) : list (string * float) :=
  [("toxicity", Js.or_zero (TOXICITY a));
   ("severeToxicity", Js.or_zero (SEVERE_TOXICITY a));
   ("identityAttack", Js.or_zero (IDENTITY_ATTACK a));
   ("insult", Js.or_zero (INSULT a));
   ("profanity", Js.or_zero (PROFANITY a))].

Definition at_threshold (entry : string * float) : bool :=
  (threshold <=? snd entry)%float.

Definition high_score_reason (entry : string * float) : string :=
  "High " ++ fst entry ++ " score detected ("
  ++ Js.Math_round_toString (snd entry * 100)%float ++ "%)".

(** [checkWithPerspective]: the verdict, or [None] where the source returns
    [null], with the requests it sent. *)
Definition checkWithPerspective (text : string) (env : Env)
  (fetch : PerspectiveRequest -> FetchOutcome)
  : option ModerationResult * list PerspectiveRequest :=
  if negb (Js.truthy (PERSPECTIVE_API_KEY env)) then (None, [])
  else
    let request :=
      {| request_key := Js.or_string (PERSPECTIVE_API_KEY env) EmptyString;
         request_text := text |} in
    let verdict :=
      match fetch request with
      | fetch_rejects => None
      | fetch_response false _ => None
      | fetch_response true body_not_json => None
      | fetch_response true (body_json None) => None
      | fetch_response true (body_json (Some a)) =>
          let scores := scores_of a in
          match find at_threshold scores with
          | Some entry =>
              Some {| passed := false;
                      flaggedField := Some field_content;
                      flaggedReason := Some (high_score_reason entry);
                      method := method_perspective;
                      scores := Some scores |}
          | None =>
              Some {| passed := true;
                      flaggedField := None;
                      flaggedReason := None;
                      method := method_perspective;
                      scores := Some scores |}
          end
      end in
    (verdict, [request]).

Definition moderateContent (name description : string) (env : Env)
  (fetch : PerspectiveRequest -> FetchOutcome)
  : ModerationResult * list PerspectiveRequest :=
  match checkLocalFilter name description with
  | Some localResult => (localResult, [])
  | None =>
      let (perspectiveResult, sent) :=
        checkWithPerspective (name ++ " " ++ description) env fetch in
      match perspectiveResult with
      | Some r =>
          if negb (passed r) then (r, sent)
          else ({| passed := true;
                   flaggedField := None;
                   flaggedReason := None;
                   method := method_all;
                   scores := scores r |}, sent)
      | None =>
          ({| passed := true;
              flaggedField := None;
              flaggedReason := None;
              method := method_local;
              scores := None |}, sent)
      end
  end.

(* ================================================================== *)
(** * Submission handler *)
(* ================================================================== *)

Definition validCategories : list string :=
  ["jobs"; "grand-companies"; "seasons"; "events"; "aesthetics"; "community"].

Definition between (lo hi : nat) (n : nat) : bool :=
  (lo <=? n)%nat && (n <=? hi)%nat.

(** [validateSubmission]: the message of the first rule broken, for a body
    of the declared type. The checks of the source that only test the
    JavaScript type of a field hold of every [PresetSubmission]; the source
    itself does not test that the name and the description are strings, and
    a body where they are not is outside the model. The lengths are those of
    JavaScript on ASCII text. *)
Definition validateSubmission (body : PresetSubmission) : option string :=
  if negb (between 2 50 (String.length (sub_name body))) then
    Some "Name must be 2-50 characters"
  else if negb (between 10 200 (String.length (sub_description body))) then
    Some "Description must be 10-200 characters"
  else if negb (existsb (String.eqb (sub_category_id body)) validCategories)
  then
    Some "Invalid category"
  else if negb (between 2 5 (List.length (sub_dyes body))) then
    Some "Must include 2-5 dyes"
  else if negb (forallb (fun id => 0 <? id) (sub_dyes body)) then
    Some "Invalid dye IDs"
  else if (10 <? List.length (sub_tags body))%nat then
    Some "Maximum 10 tags allowed"
  else if existsb (fun tag => (30 <? String.length tag)%nat) (sub_tags body)
  then
    Some "Each tag must be a string of max 30 characters"
  else None.

Definition requireAuth (a : AuthContext) : option Response :=
  if negb (isAuthenticated a) then
    Some (json_error 401 "Unauthorized" "Valid authentication required")
  else None.

Definition requireUserContext (a : AuthContext) : option Response :=
  if negb (Js.truthy (userDiscordId a)) then
    Some (json_error 400 "Bad Request" "X-User-Discord-ID header required")
  else None.

(** [presetsRouter.post('/')]: the response, the store afterwards and the
    requests sent to the classifier, for a body that is not JSON or is of the
    declared type, and a store that accepts the insert. The handler catches
    nothing but the parse error: where a step throws, the framework answers
    500, which is not modelled. *)
Definition presetsRouter_post (env : Env) (rt : Runtime) (db : D1Database)
  (req : Request) : Response * D1Database * list PerspectiveRequest :=
  match requireAuth (auth req) with
  | Some authError => (authError, db, [])
  | None =>
  match requireUserContext (auth req) with
  | Some userError => (userError, db, [])
  | None =>
  let user := Js.or_string (userDiscordId (auth req)) EmptyString in
  match body req with
  | None => (json_error 400 "Bad Request" "Invalid JSON body", db, [])
  | Some body =>
  match validateSubmission body with
  | Some validationError =>
      (json_error 400 "Validation Error" validationError, db, [])
  | None =>
  match findDuplicatePreset db (sub_dyes body) with
  | Some duplicate =>
      let (voteResult, db') :=
        addVote db (preset_id duplicate) user (votedAt rt) (commits rt) in
      (json_duplicate duplicate
         (success voteResult
          && negb (default (already_voted voteResult) false)),
       db', [])
  | None =>
      let (moderationResult, sent) :=
        moderateContent (sub_name body) (sub_description body) env (fetch rt) in
      let status := if passed moderationResult then approved else pending in
      let (preset, db1) :=
        createPreset db body user
          (Js.or_string (userName (auth req)) "Unknown User")
          status (randomUUID rt) (createdAt rt) in
      let (_, db2) :=
        addVote db1 (preset_id preset) user (votedAt rt) (commits rt) in
      (json_created preset status, db2, sent)
  end end end end end.

End Moderation.

(* ================================================================== *)
(** * Notions used to state the properties *)
(* ================================================================== *)

(** The transition table of the design document. No function of the source
    consults it; it is here to say what the status update does not check. *)
Definition spec_transition (from to : PresetStatus) : bool :=
  match from, to with
  | pending, (approved | rejected | flagged) => true
  | flagged, (approved | rejected) => true
  | approved, (flagged | hidden) => true
  | hidden, approved => true
  | _, _ => false
  end.

(** Two rows that agree on every column but [status] and [updated_at]. *)
Definition same_but_status (r r' : PresetRow) : Prop :=
  row_id r' = row_id r
  /\ row_name r' = row_name r
  /\ row_description r' = row_description r
  /\ row_category_id r' = row_category_id r
  /\ row_dyes r' = row_dyes r
  /\ row_tags r' = row_tags r
  /\ row_author_discord_id r' = row_author_discord_id r
  /\ row_author_name r' = row_author_name r
  /\ row_vote_count r' = row_vote_count r
  /\ row_is_curated r' = row_is_curated r
  /\ row_created_at r' = row_created_at r
  /\ row_dye_signature r' = row_dye_signature r.

(** The stored count of a preset, 0 when there is no such preset. *)
Definition stored_vote_count (db : D1Database) (presetId : string) : Z :=
  match first_row db presetId with
  | Some row => row_vote_count row
  | None => 0
  end.

Definition counts_nonnegative (db : D1Database) : Prop :=
  Forall (fun row => 0 <= row_vote_count row) (presets db).

(** The presets a user has created in the UTC day of [now]. *)
Definition submissionsToday (db : D1Database) (userDiscordId : string)
  (now : Z) : Z :=
  let today := getStartOfDayUTC now in
  let tomorrow := today + 24 * 60 * 60 * 1000 in
  Z.of_nat (List.length
    (filter (submitted_between userDiscordId today tomorrow) (presets db))).

(** The classifier gives no verdict: it is not configured, the call fails,
    the response is not a success, or the payload is not JSON or lacks
    [attributeScores]. A payload that has [attributeScores] is not among
    these, however little it holds: the service reads every score it does not
    find as 0. *)
Definition classifier_unavailable (env : Env)
  (fetch : PerspectiveRequest -> FetchOutcome) (text : string) : Prop :=
  Js.truthy (PERSPECTIVE_API_KEY env) = false
  \/ let request :=
       {| request_key := Js.or_string (PERSPECTIVE_API_KEY env) EmptyString;
          request_text := text |} in
     fetch request = fetch_rejects
     \/ (exists b, fetch request = fetch_response false b)
     \/ fetch request = fetch_response true body_not_json
     \/ fetch request = fetch_response true (body_json None).

(** ** A word of the list occurring in a text

    [s] holds [w] as a word, case ignored: [s] splits into a prefix, a middle
    that equals [w] once both are canonicalised, and a suffix, with a word
    boundary on both sides of the middle. [prev] is the unit before [s]. *)
Fixpoint canonical (s : string) : string :=
  match s with
  | EmptyString => EmptyString
  | String c s' => String (Js.char_toUpperCase c) (canonical s')
  end.

Fixpoint last_unit (prev : option ascii) (s : string) : option ascii :=
  match s with
  | EmptyString => prev
  | String c s' => last_unit (Some c) s'
  end.

Definition occurs_after (prev : option ascii) (w s : string) : Prop :=
  exists pre mid post,
    s = pre ++ mid ++ post
    /\ canonical mid = canonical w
    /\ Js.word_boundary (last_unit prev pre) (Js.head (mid ++ post)) = true
    /\ Js.word_boundary (last_unit prev (pre ++ mid)) (Js.head post) = true.

Definition occurs_as_word (w s : string) : Prop := occurs_after None w s.


(** ** Sample data *)

(** 2025-12-01T12:00:00Z *)
Definition noon : Z := 1764590400000.

Definition sample_row (id author : string) (dyes : list Z)
  (status : PresetStatus) (voteCount created : Z) : PresetRow :=
  {| row_id := id;
     row_name := "Sunset Bloom";
     row_description := "Warm tones for autumn glamours";
     row_category_id := "aesthetics";
     row_dyes := dyes;
     row_tags := ["warm"];
     row_author_discord_id := Some author;
     row_author_name := Some "Author";
     row_vote_count := voteCount;
     row_status := status;
     row_is_curated := 0;
     row_created_at := created;
     row_updated_at := created;
     row_dye_signature := Some (generateDyeSignature dyes) |}.

Definition sample_vote (presetId user : string) : VoteRow :=
  {| vote_preset_id := presetId;
     vote_user_discord_id := user;
     vote_created_at := noon |}.

(** One rejected preset. *)
Definition db_rejected : D1Database :=
  {| presets := [sample_row "p1" "u1" [9; 5; 3] rejected 1 noon];
     votes := [sample_vote "p1" "u1"] |}.

(** One approved preset with the vote of its author. *)
Definition db_approved : D1Database :=
  {| presets := [sample_row "p1" "u1" [9; 5; 3] approved 1 noon];
     votes := [sample_vote "p1" "u1"] |}.

(** One approved preset with dyes 1 and 2. *)
Definition db_one_two : D1Database :=
  {| presets := [sample_row "p1" "u1" [1; 2] approved 1 noon];
     votes := [sample_vote "p1" "u1"] |}.

(** One approved preset with dyes 9, 5 and 3 whose [dye_signature] column is
    NULL. *)
Definition db_unsigned : D1Database :=
  {| presets :=
       [{| row_id := "p1";
           row_name := "Sunset Bloom";
           row_description := "Warm tones for autumn glamours";
           row_category_id := "aesthetics";
           row_dyes := [9; 5; 3];
           row_tags := ["warm"];
           row_author_discord_id := Some "u1";
           row_author_name := Some "Author";
           row_vote_count := 1;
           row_status := approved;
           row_is_curated := 0;
           row_created_at := noon;
           row_updated_at := noon;
           row_dye_signature := None |}];
     votes := [sample_vote "p1" "u1"] |}.

(** Two presets with the same dyes, the first approved, the second
    pending. *)
Definition db_twins : D1Database :=
  {| presets := [sample_row "p1" "u1" [9; 5; 3] approved 1 noon;
                 sample_row "p2" "u2" [3; 5; 9] pending 1 noon];
     votes := [sample_vote "p1" "u1"; sample_vote "p2" "u2"] |}.

(** One preset of each status. *)
Definition db_mixed : D1Database :=
  {| presets := [sample_row "p1" "u1" [9; 5; 3] approved 4 noon;
                 sample_row "p2" "u2" [1; 2] pending 1 noon;
                 sample_row "p3" "u2" [1; 3] rejected 1 noon;
                 sample_row "p4" "u3" [1; 4] flagged 7 noon;
                 sample_row "p5" "u3" [1; 5] hidden 9 noon;
                 sample_row "p6" "u1" [1; 6] approved 6 noon];
     votes := [] |}.

Definition no_filters : PresetFilters :=
  {| filter_category := None;
     filter_search := None;
     filter_status := None;
     filter_sort := None;
     filter_page := None;
     filter_limit := None;
     filter_is_curated := None |}.

(** Ten presets that user u1 created today. *)
Definition db_ten : D1Database :=
  {| presets :=
       map (fun k => sample_row ("p" ++ Js.number_toString k) "u1" [1; k]
                                approved 1 noon)
           [2; 3; 4; 5; 6; 7; 8; 9; 10; 11];
     votes := [] |}.

Definition request_from (user : string) (submission : PresetSubmission)
  : Request :=
  {| auth := {| isAuthenticated := true;
                isModerator := false;
                userDiscordId := Some user;
                userName := Some "Some User" |};
     body := Some submission |}.

Definition submission_of (dyes : list Z) : PresetSubmission :=
  {| sub_name := "Evening Tide";
     sub_description := "Cool blues for the coast";
     sub_category_id := "aesthetics";
     sub_dyes := dyes;
     sub_tags := ["cool"] |}.

Definition env_unconfigured : Env := {| PERSPECTIVE_API_KEY := None |}.

Definition env_configured : Env := {| PERSPECTIVE_API_KEY := Some "key" |}.

(** A request served a minute after noon, with the classifier answering
    [reply]. *)
Definition runtime_with (reply : FetchOutcome) : Runtime :=
  {| randomUUID := "new";
     createdAt := noon + 60000;
     votedAt := noon + 60001;
     fetch := fun _ => reply;
     commits := true |}.

(** The same request when the store refuses the vote batch. *)
Definition runtime_refusing (reply : FetchOutcome) : Runtime :=
  {| randomUUID := "new";
     createdAt := noon + 60000;
     votedAt := noon + 60001;
     fetch := fun _ => reply;
     commits := false |}.

(** Classifier scores: toxicity 0.85, the rest 0.1; and all 0.1. *)
Definition scores_toxic : AttributeScores :=
  {| TOXICITY := Some 0x1.b333333333333p-1%float;
     SEVERE_TOXICITY := Some 0x1.999999999999ap-4%float;
     IDENTITY_ATTACK := Some 0x1.999999999999ap-4%float;
     INSULT := Some 0x1.999999999999ap-4%float;
     PROFANITY := None |}.


(** The payload [{attributeScores: {}}]: no attribute carries a score. *)
Definition no_scores : AttributeScores :=
  {| TOXICITY := None;
     SEVERE_TOXICITY := None;
     IDENTITY_ATTACK := None;
     INSULT := None;
     PROFANITY := None |}.

Definition reply_scores (a : AttributeScores) : FetchOutcome :=
  fetch_response true (body_json (Some a)).

(** The request the service sends for a name and a description. *)
Definition request_for (env : Env) (name description : string)
  : PerspectiveRequest :=
  {| request_key := Js.or_string (PERSPECTIVE_API_KEY env) EmptyString;
     request_text := name ++ " " ++ description |}.

(** Text of the JSON array of integers, for the injectivity of the
    signature. *)
Definition is_number_char (c : ascii) : bool :=
  Js.is_digit c || (c =? "-")%char.

Fixpoint number_text (s : string) : bool :=
  match s with
  | EmptyString => true
  | String c s' => is_number_char c && number_text s'
  end.

(** What follows an element inside the brackets. *)
Fixpoint rest_text (parts : list string) : string :=
  match parts with
  | [] => "]"
  | p :: rest => "," ++ p ++ rest_text rest
  end.

Definition starts_with_delimiter (s : string) : Prop :=
  exists c s', s = String c s' /\ is_number_char c = false.

(* ================================================================== *)
(** * Authentication middleware *)
(* ================================================================== *)

Module JsText.

(** [String.prototype.startsWith] *)
Fixpoint startsWith (p s : string) : bool :=
  match p with
  | EmptyString => true
  | String a p' =>
      match s with
      | String c s' => (a =? c)%char && startsWith p' s'
      | EmptyString => false
      end
  end.

(** [String.prototype.slice(n)] *)
Fixpoint slice (n : nat) (s : string) : string :=
  match n with
  | O => s
  | S n' =>
      match s with
      | String _ s' => slice n' s'
      | EmptyString => EmptyString
      end
  end.

(** [String.prototype.split(sep)] for a separator of one unit: the pieces
    between the separators, one more than there are separators. *)
Fixpoint split (sep : ascii) (s : string) : list string :=
  match s with
  | EmptyString => [EmptyString]
  | String c s' =>
      if (c =? sep)%char then EmptyString :: split sep s'
      else
        match split sep s' with
        | piece :: pieces => String c piece :: pieces
        | [] => [String c EmptyString]
        end
  end.

(** White space of the ASCII range: tab, line feed, vertical tab, form feed,
    carriage return and space. *)
Definition is_space (c : ascii) : bool :=
  (c =? "009")%char || (c =? "010")%char || (c =? "011")%char
  || (c =? "012")%char || (c =? "013")%char || (c =? " ")%char.

Fixpoint trimStart (s : string) : string :=
  match s with
  | EmptyString => EmptyString
  | String c s' => if is_space c then trimStart s' else s
  end.

Fixpoint trimEnd (s : string) : string :=
  match s with
  | EmptyString => EmptyString
  | String c s' =>
      match trimEnd s' with
      | EmptyString => if is_space c then EmptyString else String c EmptyString
      | rest => String c rest
      end
  end.

(** [String.prototype.trim], on ASCII text: the white space JavaScript
    strips outside the ASCII range is not modelled. *)
Definition trim (s : string) : string := trimEnd (trimStart s).

(** [Array.prototype.includes] on strings. *)
Definition includes (l : list string) (x : string) : bool :=
  existsb (String.eqb x) l.

(** [s || undefined] *)
Definition or_undefined (s : option string) : option string :=
  if Js.truthy s then s else None.

End JsText.

(** The bindings the middleware reads. *)
Record AuthEnv := {
  BOT_API_SECRET : string;
  MODERATOR_IDS : option string
}.

(** The request headers the middleware reads. *)
Record AuthHeaders := {
  Authorization : option string;
  X_User_Discord_ID : option string;
  X_User_Discord_Name : option string
}.

Definition unauthenticated : AuthContext :=
  {| isAuthenticated := false;
     isModerator := false;
     userDiscordId := None;
     userName := None |}.

(** [authMiddleware]: the context it sets for the handlers. *)
Definition authMiddleware (env : AuthEnv) (headers : AuthHeaders)
  : AuthContext :=
  match Authorization headers with
  | Some authHeader =>
      if JsText.startsWith "Bearer " authHeader then
        let token := JsText.slice 7 authHeader in
        if (token =? BOT_API_SECRET env)%string then
          {| isAuthenticated := true;
             isModerator :=
               match X_User_Discord_ID headers, MODERATOR_IDS env with
               | Some userDiscordId, Some ids =>
                   if Js.truthy (Some userDiscordId) && Js.truthy (Some ids)
                   then
                     let moderatorIds :=
                       map JsText.trim (JsText.split "," ids) in
                     JsText.includes moderatorIds userDiscordId
                   else false
               | _, _ => false
               end;
             userDiscordId := JsText.or_undefined (X_User_Discord_ID headers);
             userName := JsText.or_undefined (X_User_Discord_Name headers) |}
        else unauthenticated
      else unauthenticated
  | None => unauthenticated
  end.

Definition requireModerator (a : AuthContext) : option Response :=
  if negb (isAuthenticated a) then
    Some (json_error 401 "Unauthorized" "Valid authentication required")
  else if negb (isModerator a) then
    Some (json_error 403 "Forbidden" "Moderator privileges required")
  else None.

(* ================================================================== *)
(** * Remaining submissions *)
(* ================================================================== *)

Definition getRemainingSubmissions (db : D1Database) (userDiscordId : string)
  (now : Z) : Z * Z :=
  let result := checkSubmissionRateLimit db userDiscordId now in
  (remaining result, resetAt result).

(* ================================================================== *)
(** * Vote routes *)
(* ================================================================== *)

Inductive VoteRouteResponse :=
| vote_refused (response : Response)
| vote_json (code : Z) (result : VoteResponse)
| vote_has_voted (has_voted : bool).

Definition vote_status_code (r : VoteRouteResponse) : Z :=
  match r with
  | vote_refused response => status_code response
  | vote_json code _ => code
  | vote_has_voted _ => 200
  end.

Definition preset_not_found : Response :=
  json_error 404 "Not Found" "Preset not found".

(** [votesRouter.post('/:presetId')] *)
Definition votesRouter_post (db : D1Database) (a : AuthContext)
  (presetId : string) (now : Z) (batch_commits : bool)
  : VoteRouteResponse * D1Database :=
  match requireAuth a with
  | Some authError => (vote_refused authError, db)
  | None =>
  match requireUserContext a with
  | Some userError => (vote_refused userError, db)
  | None =>
  match first_row db presetId with
  | None => (vote_refused preset_not_found, db)
  | Some _ =>
      let (result, db') :=
        addVote db presetId (Js.or_string (userDiscordId a) EmptyString)
                now batch_commits in
      if default (already_voted result) false
      then (vote_json 409 result, db')
      else (vote_json 200 result, db')
  end end end.

(** [votesRouter.delete('/:presetId')] *)
Definition votesRouter_delete (db : D1Database) (a : AuthContext)
  (presetId : string) (now : Z) (batch_commits : bool)
  : VoteRouteResponse * D1Database :=
  match requireAuth a with
  | Some authError => (vote_refused authError, db)
  | None =>
  match requireUserContext a with
  | Some userError => (vote_refused userError, db)
  | None =>
  match first_row db presetId with
  | None => (vote_refused preset_not_found, db)
  | Some _ =>
      let (result, db') :=
        removeVote db presetId (Js.or_string (userDiscordId a) EmptyString)
                   now batch_commits in
      (vote_json 200 result, db')
  end end end.

(** [votesRouter.get('/:presetId/check')] *)
Definition votesRouter_check (db : D1Database) (a : AuthContext)
  (presetId : string) : VoteRouteResponse :=
  match requireAuth a with
  | Some authError => vote_refused authError
  | None =>
  match requireUserContext a with
  | Some userError => vote_refused userError
  | None =>
      vote_has_voted
        (existingVote db presetId
           (Js.or_string (userDiscordId a) EmptyString))
  end end.

(* ================================================================== *)
(** * Further notions used to state the properties *)
(* ================================================================== *)

(** The vote rows of a preset. *)
Definition votes_for (db : D1Database) (presetId : string) : Z :=
  Z.of_nat (List.length
    (filter (fun v => (vote_preset_id v =? presetId)%string) (votes db))).

(** Every stored count is the number of vote rows of its preset. *)
Definition ledger_consistent (db : D1Database) : Prop :=
  Forall (fun row => row_vote_count row = votes_for db (row_id row))
         (presets db).

(** No voter has two vote rows on one preset. *)
Definition votes_unique (db : D1Database) : Prop :=
  forall presetId userDiscordId,
    (List.length (filter (is_vote presetId userDiscordId) (votes db)) <= 1)%nat.

(** [p] is listed before [q] by popularity: more votes, or as many and not
    older. *)
Definition popular_before (p q : CommunityPreset) : Prop :=
  preset_vote_count q < preset_vote_count p
  \/ (preset_vote_count q = preset_vote_count p
      /\ preset_created_at q <= preset_created_at p).

(** A text holds [q] somewhere, case ignored. *)
Definition holds_text (q s : string) : Prop :=
  exists pre mid post, s = pre ++ mid ++ post /\ canonical mid = canonical q.

(** An authenticated context with a user id. *)
Definition context_of (user : string) : AuthContext :=
  {| isAuthenticated := true;
     isModerator := false;
     userDiscordId := Some user;
     userName := Some "Some User" |}.

Definition only_search (q : string) : PresetFilters :=
  {| filter_category := None;
     filter_search := Some q;
     filter_status := None;
     filter_sort := None;
     filter_page := None;
     filter_limit := None;
     filter_is_curated := None |}.

Definition page_of (page limit : Z) : PresetFilters :=
  {| filter_category := None;
     filter_search := None;
     filter_status := None;
     filter_sort := None;
     filter_page := Some page;
     filter_limit := Some limit;
     filter_is_curated := None |}.

Definition sample_auth_env : AuthEnv :=
  {| BOT_API_SECRET := "secret";
     MODERATOR_IDS := Some "111, 222 ,333" |}.

Definition sample_headers (token user : string) : AuthHeaders :=
  {| Authorization := Some ("Bearer " ++ token);
     X_User_Discord_ID := Some user;
     X_User_Discord_Name := Some "Some User" |}.

(* ================================================================== *)
(** * Notification of the moderators *)
(* ================================================================== *)

Record ModerationAlert := {
  alert_presetId : string;
  alert_presetName : string;
  alert_description : string;
  alert_dyes : list Z;
  alert_authorName : string;
  alert_authorId : string;
  alert_flagReason : string
}.

Record NotifyEnv := {
  MODERATION_WEBHOOK_URL : option string;
  OWNER_DISCORD_ID : option string;
  DISCORD_BOT_TOKEN : option string
}.

Record EmbedField := {
  embed_field_name : string;
  embed_field_value : string;
  embed_field_inline : bool
}.

Record Embed := {
  embed_title : string;
  embed_color : Z;
  embed_fields : list EmbedField;
  embed_footer_text : string;
  embed_timestamp : Z
}.

(** The requests the notifier sends: the embed to the webhook, the opening
    of a direct-message channel with the owner, the embed into that
    channel. *)
Inductive Notification :=
| webhook_post (url : string) (embed : Embed)
| dm_channel_post (token recipient_id : string)
| dm_message_post (token channel_id : string) (embed : Embed).

(** The answer to the opening of the channel, as far as the notifier looks
    at it; a body without an id renders as the text undefined in the
    address of the message request. *)
Inductive DmChannelBody :=
| dm_not_json
| dm_json (id : option string).

Inductive DmChannelOutcome :=
| dm_rejects
| dm_response (ok : bool) (body : DmChannelBody).

Definition moderation_embed (alert : ModerationAlert) (now : Z) : Embed :=
  {| embed_title := "⚠️ Palette Pending Review";
     embed_color := 16753920;
     embed_fields :=
       [{| embed_field_name := "Name";
           embed_field_value := alert_presetName alert;
           embed_field_inline := true |};
        {| embed_field_name := "Submitted by";
           embed_field_value := alert_authorName alert;
           embed_field_inline := true |};
        {| embed_field_name := "Flagged Reason";
           embed_field_value := alert_flagReason alert;
           embed_field_inline := false |};
        {| embed_field_name := "Description";
           embed_field_value :=
             String.substring 0 200 (alert_description alert);
           embed_field_inline := false |};
        {| embed_field_name := "Preset ID";
           embed_field_value := "`" ++ alert_presetId alert ++ "`";
           embed_field_inline := false |}];
     embed_footer_text :=
       "Use /preset moderate approve <id> or /preset moderate reject <id> <reason>";
     embed_timestamp := now |}.

(** [notifyModerators]: the requests it sends, in order. A request that
    fails is caught and logged; only the answer to the opening of the
    channel decides anything. *)
Definition notifyModerators (alert : ModerationAlert) (env : NotifyEnv)
  (now : Z) (dmChannelResponse : DmChannelOutcome) : list Notification :=
  let embed := moderation_embed alert now in
  let toWebhook :=
    match MODERATION_WEBHOOK_URL env with
    | Some url =>
        if Js.truthy (Some url) then [webhook_post url embed] else []
    | None => []
    end in
  let toOwner :=
    match OWNER_DISCORD_ID env, DISCORD_BOT_TOKEN env with
    | Some owner, Some token =>
        if Js.truthy (Some owner) && Js.truthy (Some token) then
          dm_channel_post token owner ::
          match dmChannelResponse with
          | dm_response true (dm_json id) =>
              [dm_message_post token (default id "undefined") embed]
          | _ => []
          end
        else []
    | _, _ => []
    end in
  (toWebhook ++ toOwner)%list.

Definition embed_of (n : Notification) : option Embed :=
  match n with
  | webhook_post _ embed => Some embed
  | dm_channel_post _ _ => None
  | dm_message_post _ _ embed => Some embed
  end.

Definition is_dm_message (n : Notification) : bool :=
  match n with
  | dm_message_post _ _ _ => true
  | _ => false
  end.

Definition sample_alert : ModerationAlert :=
  {| alert_presetId := "new";
     alert_presetName := "Evening Tide";
     alert_description := "Cool blues for the coast";
     alert_dyes := [20; 21];
     alert_authorName := "Some User";
     alert_authorId := "u2";
     alert_flagReason := "High toxicity score detected (85%)" |}.

Definition notify_owner_only : NotifyEnv :=
  {| MODERATION_WEBHOOK_URL := None;
     OWNER_DISCORD_ID := Some "owner";
     DISCORD_BOT_TOKEN := Some "token" |}.

(* ================================================================== *)
(** * Properties *)
(* ================================================================== *)

(** ** The primitives on small inputs *)

Example signature_sorts : generateDyeSignature [5; 3; 9] = "[3,5,9]".
Proof. reflexivity. Qed.

Example signature_keeps_repeats : generateDyeSignature [2; 1; 1] = "[1,1,2]".
Proof. reflexivity. Qed.

Example pattern_whole_word :
  Js.test {| Js.literal := "bad" |} "a bad word" = true.
Proof. reflexivity. Qed.

Example pattern_inside_word :
  Js.test {| Js.literal := "bad" |} "badly done" = false.
Proof. reflexivity. Qed.

Example pattern_ignores_case :
  Js.test {| Js.literal := "bad" |} "So BAD!" = true.
Proof. reflexivity. Qed.

Example like_ignores_case : Sql.like "%sun%" "Sunset Bloom" = true.
Proof. reflexivity. Qed.

Example like_no_match : Sql.like "%moon%" "Sunset Bloom" = false.
Proof. reflexivity. Qed.

Example tags_text :
  Js.JSON_stringify_strings ["warm"; "a b"]
  = "[" ++ String Js.dquote "warm" ++ String Js.dquote ","
    ++ String Js.dquote "a b" ++ String Js.dquote "]".
Proof. reflexivity. Qed.

Example percent_of_threshold :
  Js.Math_round_toString (threshold * 100)%float = "70".
Proof. reflexivity. Qed.

Example percent_tie_rounds_up :
  Js.Math_round_toString 0x1.52p+6%float = "85".
Proof. reflexivity. Qed.

Example start_of_day : getStartOfDayUTC noon = 1764547200000.
Proof. reflexivity. Qed.

Example featured_order :
  map preset_id (getFeaturedPresets db_mixed) = ["p6"; "p1"].
Proof. reflexivity. Qed.

(** ** The stable sort *)

Section StableFacts.
Context {A : Type} (cmp : A -> A -> Z).

Lemma insert_perm (x : A) (l : list A) :
  Permutation (Stable.insert cmp x l) (x :: l).
Proof.
  induction l as [|y l IH]; simpl.
  - apply Permutation_refl.
  - destruct (cmp x y <=? 0).
    + apply Permutation_refl.
    + eapply perm_trans; [apply perm_skip, IH | apply perm_swap].
Qed.

Lemma sort_perm (l : list A) : Permutation (Stable.sort cmp l) l.
Proof.
  induction l as [|x l IH]; simpl.
  - constructor.
  - eapply perm_trans; [apply insert_perm | now apply perm_skip].
Qed.

Lemma sort_In (l : list A) (x : A) : In x (Stable.sort cmp l) <-> In x l.
Proof.
  split; apply Permutation_in;
    [apply sort_perm | apply Permutation_sym, sort_perm].
Qed.

Lemma sort_length (l : list A) :
  List.length (Stable.sort cmp l) = List.length l.
Proof. apply Permutation_length, sort_perm. Qed.

End StableFacts.

(** ** Ascending numeric order *)

Lemma insert_ascending_comm (x y : Z) (l : list Z) :
  Stable.insert numeric_ascending x (Stable.insert numeric_ascending y l)
  = Stable.insert numeric_ascending y (Stable.insert numeric_ascending x l).
Proof.
  induction l as [|z l IH]; unfold numeric_ascending in *; simpl.
  - destruct (Z.leb_spec (x - y) 0), (Z.leb_spec (y - x) 0);
      try reflexivity; try lia.
    now replace y with x by lia.
  - destruct (Z.leb_spec (y - z) 0), (Z.leb_spec (x - z) 0); simpl;
      repeat match goal with
             | |- context [?a - ?b <=? 0] =>
                 destruct (Z.leb_spec (a - b) 0)
             end;
      try reflexivity; try lia.
    + now replace y with x by lia.
    + now rewrite IH.
Qed.

Lemma sort_ascending_perm (a b : list Z) :
  Permutation a b ->
  Stable.sort numeric_ascending a = Stable.sort numeric_ascending b.
Proof.
  induction 1 as [| x a b _ IH | x y a | a b c _ IH1 _ IH2]; simpl.
  - reflexivity.
  - now rewrite IH.
  - apply insert_ascending_comm.
  - now rewrite IH1.
Qed.

Lemma insert_ascending_sorted (x : Z) (l : list Z) :
  StronglySorted Z.le l ->
  StronglySorted Z.le (Stable.insert numeric_ascending x l).
Proof.
  induction 1 as [|y l Hs IH Hy]; simpl.
  - repeat constructor.
  - unfold numeric_ascending at 1.
    destruct (Z.leb_spec (x - y) 0).
    + constructor; [now constructor|].
      constructor; [lia|].
      eapply Forall_impl; [|exact Hy]. simpl. intros; lia.
    + constructor; [exact IH|].
      eapply Permutation_Forall;
        [apply Permutation_sym, insert_perm|].
      constructor; [lia | exact Hy].
Qed.

Lemma sort_ascending_sorted (l : list Z) :
  StronglySorted Z.le (Stable.sort numeric_ascending l).
Proof.
  induction l; simpl; [constructor | now apply insert_ascending_sorted].
Qed.

(** ** The JSON text of an integer array determines the array *)

Lemma uint_number_text (d : Decimal.uint) :
  number_text (NilEmpty.string_of_uint d) = true.
Proof. induction d; simpl; auto. Qed.

Lemma number_toString_text (z : Z) : number_text (Js.number_toString z) = true.
Proof.
  unfold Js.number_toString.
  destruct (Z.to_int z) as [d|d]; simpl;
    destruct d; simpl; auto using uint_number_text.
Qed.

Lemma number_toString_nonempty (z : Z) : Js.number_toString z <> EmptyString.
Proof.
  unfold Js.number_toString.
  destruct (Z.to_int z) as [d|d]; simpl; destruct d; discriminate.
Qed.

Lemma to_int_not_nil (z : Z) :
  Z.to_int z <> Decimal.Pos Decimal.Nil
  /\ Z.to_int z <> Decimal.Neg Decimal.Nil.
Proof.
  destruct z; simpl; split; try discriminate;
    intros H; injection H; apply Unsigned.to_uint_nonnil.
Qed.

Lemma number_toString_inj (a b : Z) :
  Js.number_toString a = Js.number_toString b -> a = b.
Proof.
  unfold Js.number_toString. intros H.
  apply DecimalZ.to_int_inj.
  destruct (to_int_not_nil a) as [Ha1 Ha2].
  destruct (to_int_not_nil b) as [Hb1 Hb2].
  pose proof (NilZero.isi _ Ha1 Ha2) as Ea.
  pose proof (NilZero.isi _ Hb1 Hb2) as Eb.
  rewrite H in Ea. congruence.
Qed.

Lemma rest_text_delimiter (parts : list string) :
  starts_with_delimiter (rest_text parts).
Proof.
  destruct parts; simpl; eexists _, _; split; reflexivity.
Qed.

(** Two number texts followed by delimiters: the first delimiter tells where
    the number ends. *)
Lemma number_text_split (p1 p2 t1 t2 : string) :
  number_text p1 = true -> number_text p2 = true ->
  starts_with_delimiter t1 -> starts_with_delimiter t2 ->
  p1 ++ t1 = p2 ++ t2 -> p1 = p2 /\ t1 = t2.
Proof.
  revert p2.
  induction p1 as [|c1 p1 IH]; intros [|c2 p2] N1 N2 D1 D2 E; simpl in *.
  - auto.
  - destruct D1 as (c & s & -> & Hc). injection E as -> _.
    apply andb_prop in N2 as [N2 _]. congruence.
  - destruct D2 as (c & s & -> & Hc). injection E as -> _.
    apply andb_prop in N1 as [N1 _]. congruence.
  - injection E as -> E.
    apply andb_prop in N1 as [_ N1]. apply andb_prop in N2 as [_ N2].
    destruct (IH p2 N1 N2 D1 D2 E) as [-> ->]. auto.
Qed.

Lemma rest_text_inj (l1 l2 : list string) :
  Forall (fun p => number_text p = true) l1 ->
  Forall (fun p => number_text p = true) l2 ->
  rest_text l1 = rest_text l2 -> l1 = l2.
Proof.
  intros F1. revert l2.
  induction F1 as [|p1 l1 N1 F1 IH]; intros l2 F2 E;
    destruct F2 as [|p2 l2 N2 F2]; simpl in E; try discriminate.
  - reflexivity.
  - injection E as E.
    destruct (number_text_split p1 p2 _ _ N1 N2
                (rest_text_delimiter l1) (rest_text_delimiter l2) E)
      as [-> E'].
    f_equal. now apply IH.
Qed.

Lemma append_assoc (a b c : string) : (a ++ b) ++ c = a ++ b ++ c.
Proof. induction a as [|x a IH]; simpl; [reflexivity | now rewrite IH]. Qed.

Lemma join_rest_text (p : string) (rest : list string) :
  Js.join "," (p :: rest) ++ "]" = p ++ rest_text rest.
Proof.
  revert p. induction rest as [|q rest IH]; intros p.
  - reflexivity.
  - change (Js.join "," (p :: q :: rest))
      with (p ++ "," ++ Js.join "," (q :: rest)).
    simpl rest_text. rewrite <- (IH q).
    now rewrite !append_assoc.
Qed.

Lemma JSON_stringify_numbers_inj (l1 l2 : list Z) :
  Js.JSON_stringify_numbers l1 = Js.JSON_stringify_numbers l2 -> l1 = l2.
Proof.
  unfold Js.JSON_stringify_numbers. intros E.
  injection E as E.
  assert (T : forall l, Forall (fun p => number_text p = true)
                               (map Js.number_toString l)).
  { intros l. apply Forall_forall. intros p Hp.
    apply in_map_iff in Hp as (z & <- & _). apply number_toString_text. }
  assert (first_is_number : forall z t,
             Js.number_toString z ++ t <> "]").
  { intros z t H.
    pose proof (number_toString_text z) as N.
    pose proof (number_toString_nonempty z) as NE.
    destruct (Js.number_toString z) as [|c s]; [congruence|].
    simpl in H, N. injection H as -> _. discriminate. }
  destruct l1 as [|a l1], l2 as [|b l2]; simpl map in E.
  - reflexivity.
  - rewrite join_rest_text in E. symmetry in E.
    now apply first_is_number in E.
  - rewrite join_rest_text in E. now apply first_is_number in E.
  - rewrite !join_rest_text in E.
    destruct (number_text_split _ _ _ _
                (number_toString_text a) (number_toString_text b)
                (rest_text_delimiter _) (rest_text_delimiter _) E)
      as [Eh Et].
    apply number_toString_inj in Eh as ->.
    apply rest_text_inj in Et; [|apply T|apply T].
    f_equal.
    clear -Et. revert l2 Et.
    induction l1 as [|x l1 IH]; intros [|y l2] Et; simpl in Et;
      try discriminate; [reflexivity|].
    injection Et as Ex Et. apply number_toString_inj in Ex as ->.
    f_equal. now apply IH.
Qed.

(** ** Duplicate detection: the signature *)

Lemma signature_of_permutation (a b : list Z) :
  Permutation a b -> generateDyeSignature a = generateDyeSignature b.
Proof.
  intros P. unfold generateDyeSignature, Js.sort.
  now rewrite (sort_ascending_perm a b P).
Qed.

Lemma signature_determines_multiset (a b : list Z) :
  generateDyeSignature a = generateDyeSignature b -> Permutation a b.
Proof.
  unfold generateDyeSignature, Js.sort. intros E.
  apply JSON_stringify_numbers_inj in E.
  eapply perm_trans; [apply Permutation_sym, (sort_perm numeric_ascending)|].
  rewrite E. apply sort_perm.
Qed.

(** C4, as the code has it: the signature of a dye list is the signature of
    each of its permutations; said with counts, two dye lists that hold every
    dye the same number of times, in any order, have the same signature. *)
Theorem C4_signature_order_independent (a b : list Z) :
  (Permutation a b -> generateDyeSignature a = generateDyeSignature b)
  /\ ((forall d, count_occ Z.eq_dec a d = count_occ Z.eq_dec b d) ->
      generateDyeSignature a = generateDyeSignature b).
Proof.
  split; [apply signature_of_permutation|].
  intros Hcount. apply signature_of_permutation.
  now apply (Permutation_count_occ Z.eq_dec).
Qed.

Lemma C4_signature_witness :
  generateDyeSignature [5; 3; 9] = generateDyeSignature [9; 5; 3].
Proof.
  apply (proj1 (C4_signature_order_independent [5; 3; 9] [9; 5; 3])).
  apply Permutation_sym.
  exact (Permutation_cons_append [5; 3] 9).
Defined.

(** C4, as the document words it, fails: [1,1,2] and [1,2] are equal as
    sets, both pass validation as far as dyes go, and their signatures
    differ. *)
Lemma C4_equal_sets_differ :
  same_set [1; 1; 2] [1; 2]
  /\ generateDyeSignature [1; 1; 2] <> generateDyeSignature [1; 2].
Proof.
  split.
  - intros x; simpl; tauto.
  - vm_compute. discriminate.
Qed.

(** ** Reading and updating rows *)

Lemma or_int_zero (x : Z) : Js.or_int x 0 = x.
Proof. unfold Js.or_int. destruct (Z.eqb_spec x 0); congruence. Qed.

Lemma field_or_stored (db : D1Database) (presetId : string) :
  Js.field_or (first_row db presetId) row_vote_count 0
  = stored_vote_count db presetId.
Proof.
  unfold Js.field_or, stored_vote_count.
  destruct (first_row db presetId); [apply or_int_zero | reflexivity].
Qed.

Lemma find_map_same_id (id : string) (f : PresetRow -> PresetRow)
  (rows : list PresetRow) :
  (forall row, row_id (f row) = row_id row) ->
  find (fun row => (row_id row =? id)%string) (map f rows)
  = option_map f (find (fun row => (row_id row =? id)%string) rows).
Proof.
  intros Hid. induction rows as [|r rows IH]; simpl; [reflexivity|].
  rewrite Hid. destruct (row_id r =? id)%string; [reflexivity | exact IH].
Qed.

Lemma set_status_id (id : string) (status : PresetStatus) (now : Z)
  (row : PresetRow) : row_id (set_status id status now row) = row_id row.
Proof. unfold set_status. now destruct (row_id row =? id)%string. Qed.

Lemma set_vote_count_id (id : string) (f : Z -> Z) (now : Z)
  (row : PresetRow) : row_id (set_vote_count id f now row) = row_id row.
Proof. unfold set_vote_count. now destruct (row_id row =? id)%string. Qed.

Lemma first_row_id (db : D1Database) (id : string) (row : PresetRow) :
  first_row db id = Some row -> row_id row = id.
Proof.
  unfold first_row. intros H. apply find_some in H as [_ H].
  now apply String.eqb_eq.
Qed.

(** ** Status update *)

(** C2, as the code has it: the status update checks no transition. For a
    preset with the given id, whatever its status, it writes the requested
    status and the update time and nothing else of the row, and returns the
    row read back; every other row stays as and where it is, no row is added
    or removed, and no vote is touched. *)
Theorem C2_status_update_unconditional (db : D1Database) (id : string)
  (status : PresetStatus) (now : Z) (row : PresetRow) :
  first_row db id = Some row ->
  let result := fst (updatePresetStatus db id status now) in
  let db' := snd (updatePresetStatus db id status now) in
  (exists row',
      first_row db' id = Some row'
      /\ result = Some (rowToPreset row')
      /\ row_status row' = status /\ row_updated_at row' = now
      /\ same_but_status row row')
  /\ List.length (presets db') = List.length (presets db)
  /\ (forall n r,
        nth_error (presets db) n = Some r ->
        exists r',
          nth_error (presets db') n = Some r'
          /\ (row_id r <> id -> r' = r)
          /\ (row_id r = id ->
              row_status r' = status /\ row_updated_at r' = now
              /\ same_but_status r r'))
  /\ votes db' = votes db.
Proof.
  intros Hrow. cbv zeta. unfold updatePresetStatus. cbn [fst snd presets votes].
  split; [|split; [|split]].
  - exists (set_status id status now row).
    unfold getPresetById, first_row in *. cbn [presets].
    rewrite find_map_same_id by apply set_status_id.
    rewrite Hrow. cbn [option_map].
    apply first_row_id in Hrow.
    unfold set_status. rewrite (proj2 (String.eqb_eq _ _) Hrow).
    repeat split.
  - apply length_map.
  - intros n r Hn. exists (set_status id status now r).
    split; [now rewrite nth_error_map, Hn|].
    unfold set_status. split.
    + intros Hid. apply String.eqb_neq in Hid. now rewrite Hid.
    + intros Hid. rewrite (proj2 (String.eqb_eq _ _) Hid). repeat split.
  - reflexivity.
Qed.

Lemma C2_status_update_witness :
  option_map preset_status
    (fst (updatePresetStatus db_approved "p1" flagged (noon + 1)))
  = Some flagged
  /\ option_map preset_updated_at
       (fst (updatePresetStatus db_approved "p1" flagged (noon + 1)))
     = Some (noon + 1).
Proof.
  destruct (C2_status_update_unconditional db_approved "p1" flagged (noon + 1)
              (sample_row "p1" "u1" [9; 5; 3] approved 1 noon) eq_refl)
    as ((row' & _ & -> & Hstatus & Hnow & _) & _).
  cbn [option_map rowToPreset preset_status preset_updated_at].
  now rewrite Hstatus, Hnow.
Defined.

(** C2, as the document words it, fails: the table has no transition out of
    rejected, yet the update turns a rejected preset into an approved one. *)
Lemma C2_rejected_is_not_terminal :
  option_map preset_status (getPresetById db_rejected "p1") = Some rejected
  /\ spec_transition rejected approved = false
  /\ option_map preset_status
       (fst (updatePresetStatus db_rejected "p1" approved noon))
     = Some approved.
Proof. repeat split. Qed.

(** ** Vote ledger *)

(** C3: a vote from a voter who already has a vote row on the preset writes
    nothing and answers with [already_voted] set, no error, and the count as
    stored. *)
Theorem C3_vote_idempotent (db : D1Database) (presetId userDiscordId : string)
  (now : Z) (batch_commits : bool) :
  existingVote db presetId userDiscordId = true ->
  addVote db presetId userDiscordId now batch_commits
  = ({| success := false;
        new_vote_count := stored_vote_count db presetId;
        already_voted := Some true;
        error := None |}, db).
Proof.
  intros H. unfold addVote. rewrite H. now rewrite field_or_stored.
Qed.

Lemma C3_vote_idempotent_witness :
  addVote db_approved "p1" "u1" noon true
  = ({| success := false;
        new_vote_count := 1;
        already_voted := Some true;
        error := None |}, db_approved).
Proof.
  apply (C3_vote_idempotent db_approved "p1" "u1" noon true).
  reflexivity.
Defined.

Lemma existsb_filter_negb {A} (f : A -> bool) (l : list A) :
  existsb f (filter (fun x => negb (f x)) l) = false.
Proof.
  induction l as [|x l IH]; simpl; [reflexivity|].
  destruct (f x) eqn:E; simpl; [exact IH | now rewrite E].
Qed.

Lemma set_vote_count_floor (id : string) (now : Z) (row : PresetRow) :
  0 <= row_vote_count row \/ row_id row = id ->
  0 <= row_vote_count
         (set_vote_count id (fun n => Z.max 0 (n - 1)) now row).
Proof.
  unfold set_vote_count.
  destruct (String.eqb_spec (row_id row) id); simpl; [lia|].
  intros [H|H]; [exact H | contradiction].
Qed.

Lemma removeVote_store (db : D1Database) (presetId userDiscordId : string)
  (now : Z) (batch_commits : bool) :
  snd (removeVote db presetId userDiscordId now batch_commits) = db
  \/ snd (removeVote db presetId userDiscordId now batch_commits)
     = {| presets :=
            map (set_vote_count presetId (fun n => Z.max 0 (n - 1)) now)
                (presets db);
          votes :=
            filter (fun v => negb (is_vote presetId userDiscordId v))
                   (votes db) |}.
Proof.
  unfold removeVote.
  destruct (existingVote db presetId userDiscordId), batch_commits; simpl; auto.
Qed.

(** C8: without a vote row, unvote writes nothing and answers with
    [already_voted] false, no error and the count as stored; with a
    vote row, once the store commits the batch, the row is gone, the votes of
    others stay, and the count is the old one less one, or zero if that
    would be negative; no unvote makes a count negative. *)
Theorem C8_unvote_mirrors_vote (db : D1Database)
  (presetId userDiscordId : string) (now : Z) (batch_commits : bool) :
  (existingVote db presetId userDiscordId = false ->
   removeVote db presetId userDiscordId now batch_commits
   = ({| success := false;
         new_vote_count := stored_vote_count db presetId;
         already_voted := Some false;
         error := None |}, db))
  /\ (existingVote db presetId userDiscordId = true ->
      batch_commits = true ->
      let r := fst (removeVote db presetId userDiscordId now batch_commits) in
      let db' := snd (removeVote db presetId userDiscordId now batch_commits) in
      success r = true /\ error r = None
      /\ existingVote db' presetId userDiscordId = false
      /\ (forall v, In v (votes db) ->
                    is_vote presetId userDiscordId v = false ->
                    In v (votes db'))
      /\ (forall row, first_row db presetId = Some row ->
                      stored_vote_count db' presetId
                      = Z.max 0 (row_vote_count row - 1))
      /\ new_vote_count r = stored_vote_count db' presetId)
  /\ (forall row,
        In row
          (presets
             (snd (removeVote db presetId userDiscordId now batch_commits))) ->
        In row (presets db) \/ 0 <= row_vote_count row)
  /\ (counts_nonnegative db ->
      counts_nonnegative
        (snd (removeVote db presetId userDiscordId now batch_commits))).
Proof.
  split; [|split; [|split]].
  - intros H. unfold removeVote. rewrite H. simpl.
    now rewrite field_or_stored.
  - intros H ->. unfold removeVote. rewrite H. simpl.
    repeat split.
    + unfold existingVote. simpl. apply existsb_filter_negb.
    + intros v Hin Hv. apply filter_In. split; [exact Hin | now rewrite Hv].
    + intros row Hrow. unfold stored_vote_count, first_row in *. simpl.
      rewrite find_map_same_id by (intros; apply set_vote_count_id).
      rewrite Hrow. simpl.
      apply first_row_id in Hrow.
      unfold set_vote_count.
      now rewrite (proj2 (String.eqb_eq _ _) Hrow).
    + apply field_or_stored.
  - intros row.
    destruct (removeVote_store db presetId userDiscordId now batch_commits)
      as [-> | ->]; [now left|].
    simpl. intros Hin. apply in_map_iff in Hin as (r0 & <- & Hin).
    unfold set_vote_count.
    destruct (row_id r0 =? presetId)%string; [right; simpl; lia | now left].
  - unfold counts_nonnegative. intros Hdb.
    destruct (removeVote_store db presetId userDiscordId now batch_commits)
      as [-> | ->]; [exact Hdb|].
    simpl. apply Forall_map.
    eapply Forall_impl; [|exact Hdb].
    intros row Hrow. apply set_vote_count_floor. now left.
Qed.

Lemma C8_unvote_witness :
  stored_vote_count (snd (removeVote db_approved "p1" "u1" noon true)) "p1" = 0
  /\ removeVote db_approved "p1" "u2" noon true
     = ({| success := false;
           new_vote_count := 1;
           already_voted := Some false;
           error := None |}, db_approved).
Proof.
  split.
  - destruct (C8_unvote_mirrors_vote db_approved "p1" "u1" noon true)
      as (_ & H & _).
    destruct (H eq_refl eq_refl) as (_ & _ & _ & _ & Hcount & _).
    exact (Hcount (sample_row "p1" "u1" [9; 5; 3] approved 1 noon) eq_refl).
  - destruct (C8_unvote_mirrors_vote db_approved "p1" "u2" noon true)
      as (H & _).
    exact (H eq_refl).
Defined.

(** ** Listings *)

Lemma firstn_In {A} (n : nat) (l : list A) (x : A) :
  In x (firstn n l) -> In x l.
Proof.
  revert l. induction n as [|n IH]; intros [|y l]; simpl; try tauto.
  intros [H|H]; [now left | right; now apply IH].
Qed.

Lemma skipn_In {A} (n : nat) (l : list A) (x : A) :
  In x (skipn n l) -> In x l.
Proof.
  revert l. induction n as [|n IH]; intros [|y l]; simpl; try tauto.
  intros H. right. now apply IH.
Qed.

Lemma limit_offset_In {A} (limit offset : Z) (rows : list A) (x : A) :
  In x (Sql.limit_offset limit offset rows) -> In x rows.
Proof.
  unfold Sql.limit_offset. destruct (limit <? 0); intros H.
  - now apply skipn_In in H.
  - now apply firstn_In, skipn_In in H.
Qed.

Lemma PresetStatus_eqb_eq (a b : PresetStatus) :
  PresetStatus_eqb a b = true <-> a = b.
Proof. destruct a, b; simpl; split; congruence. Qed.

Lemma selected_rows_status {cmp : PresetRow -> PresetRow -> Z}
  (keep : PresetRow -> bool) (limit offset : Z) (rows : list PresetRow)
  (status : PresetStatus) (p : CommunityPreset) :
  (forall row, keep row = true -> row_status row = status) ->
  In p (map rowToPreset
          (Sql.limit_offset limit offset
             (Sql.order_by cmp (filter keep rows)))) ->
  preset_status p = status.
Proof.
  intros Hkeep Hin.
  apply in_map_iff in Hin as (row & <- & Hin).
  apply limit_offset_In in Hin.
  unfold Sql.order_by in Hin. apply sort_In in Hin.
  apply filter_In in Hin as [_ Hk].
  simpl. now apply Hkeep.
Qed.

(** C10: a listing asked without a status filter, and the featured list,
    hold approved presets only. *)
Theorem C10_default_listing_approved_only (db : D1Database)
  (filters : PresetFilters) :
  (filter_status filters = None ->
   forall p, In p (list_presets (getPresets db filters)) ->
             preset_status p = approved)
  /\ (forall p, In p (getFeaturedPresets db) -> preset_status p = approved).
Proof.
  split.
  - intros Hnone p Hin. unfold getPresets in Hin. simpl in Hin.
    rewrite Hnone in Hin. simpl in Hin.
    eapply selected_rows_status; [|exact Hin].
    intros row Hrow. unfold where_clause in Hrow.
    repeat (apply andb_prop in Hrow as [Hrow _]).
    now apply PresetStatus_eqb_eq.
  - intros p Hin. unfold getFeaturedPresets in Hin.
    eapply selected_rows_status; [|exact Hin].
    intros row. apply PresetStatus_eqb_eq.
Qed.

Lemma C10_default_listing_witness :
  map preset_id (list_presets (getPresets db_mixed no_filters)) = ["p6"; "p1"]
  /\ Forall (fun p => preset_status p = approved)
            (list_presets (getPresets db_mixed no_filters)).
Proof.
  split; [reflexivity|].
  apply Forall_forall. intros p Hin.
  exact (proj1 (C10_default_listing_approved_only db_mixed no_filters)
               eq_refl p Hin).
Defined.

(** ** Rate limit *)

Lemma rate_limit_result (db : D1Database) (userDiscordId : string) (now : Z) :
  checkSubmissionRateLimit db userDiscordId now
  = {| allowed := submissionsToday db userDiscordId now <? 10;
       remaining := Z.max 0 (10 - submissionsToday db userDiscordId now);
       resetAt := getStartOfDayUTC now + 24 * 60 * 60 * 1000 |}.
Proof.
  unfold checkSubmissionRateLimit, submissionsToday, DAILY_SUBMISSION_LIMIT.
  now rewrite or_int_zero.
Qed.

(** With ten or more presets created today the limiter denies, with nothing
    remaining. *)
Lemma rate_limit_denies (db : D1Database) (userDiscordId : string) (now : Z) :
  10 <= submissionsToday db userDiscordId now ->
  allowed (checkSubmissionRateLimit db userDiscordId now) = false
  /\ remaining (checkSubmissionRateLimit db userDiscordId now) = 0.
Proof.
  intros H. rewrite rate_limit_result. cbn [allowed remaining].
  split; [apply Z.ltb_ge; exact H | lia].
Qed.

(** With nine the limiter allows, with one remaining. *)
Lemma rate_limit_nine (db : D1Database) (userDiscordId : string) (now : Z) :
  submissionsToday db userDiscordId now = 9 ->
  allowed (checkSubmissionRateLimit db userDiscordId now) = true
  /\ remaining (checkSubmissionRateLimit db userDiscordId now) = 1.
Proof. intros H. rewrite rate_limit_result, H. split; reflexivity. Qed.

(** [resetAt] is the start of the UTC day after [now]. *)
Lemma rate_limit_resetAt (db : D1Database) (userDiscordId : string) (now : Z) :
  let r := resetAt (checkSubmissionRateLimit db userDiscordId now) in
  now < r <= now + 24 * 60 * 60 * 1000
  /\ getStartOfDayUTC r = r
  /\ r = getStartOfDayUTC now + 24 * 60 * 60 * 1000.
Proof.
  rewrite rate_limit_result. cbv zeta. unfold resetAt, getStartOfDayUTC.
  change (24 * 60 * 60 * 1000) with 86400000.
  pose proof (Z.mul_div_le now 86400000 ltac:(lia)).
  pose proof (Z.mul_succ_div_gt now 86400000 ltac:(lia)).
  repeat split; try lia.
  replace (86400000 * (now / 86400000) + 86400000)
    with ((now / 86400000 + 1) * 86400000) by lia.
  rewrite Z.div_mul by lia. lia.
Qed.

(** ** The submission handler *)

(** C1 at a failing input: user u1 has ten presets created today, so the
    limiter denies an eleventh with nothing remaining until the next UTC
    midnight; the handler never asks the limiter, answers 201 and stores the
    eleventh. *)
Theorem C1_limit_not_enforced :
  submissionsToday db_ten "u1" (noon + 60000) = 10
  /\ checkSubmissionRateLimit db_ten "u1" (noon + 60000)
     = {| allowed := false; remaining := 0; resetAt := 1764633600000 |}
  /\ let '(response, db', _) :=
       presetsRouter_post ["badword"] env_unconfigured (runtime_with fetch_rejects)
         db_ten (request_from "u1" (submission_of [20; 21])) in
     status_code response = 201
     /\ submissionsToday db' "u1" (noon + 60000) = 11.
Proof. vm_compute. repeat split. Qed.

Section Handler.
Variable enProfanity : list string.

(** A request that passes authentication and validation and is no
    duplicate is moderated, stored with the status the verdict gives, and
    voted for by its author. *)
Lemma post_creates (env : Env) (rt : Runtime) (db : D1Database)
  (req : Request) (submission : PresetSubmission) (user : string) :
  isAuthenticated (auth req) = true ->
  userDiscordId (auth req) = Some user -> user <> EmptyString ->
  body req = Some submission ->
  validateSubmission submission = None ->
  findDuplicatePreset db (sub_dyes submission) = None ->
  let verdict :=
    moderateContent enProfanity (sub_name submission)
      (sub_description submission) env (fetch rt) in
  let status := if passed (fst verdict) then approved else pending in
  let created :=
    createPreset db submission user
      (Js.or_string (userName (auth req)) "Unknown User")
      status (randomUUID rt) (createdAt rt) in
  presetsRouter_post enProfanity env rt db req
  = (json_created (fst created) status,
     snd (addVote (snd created) (randomUUID rt) user (votedAt rt) (commits rt)),
     snd verdict).
Proof.
  intros Hauth Huser Hne Hbody Hvalid Hdup. cbv zeta.
  unfold presetsRouter_post, requireAuth, requireUserContext.
  rewrite Hauth, Huser, Hbody, Hvalid, Hdup. simpl.
  apply String.eqb_neq in Hne. rewrite Hne. simpl.
  destruct (moderateContent enProfanity (sub_name submission)
              (sub_description submission) env (fetch rt)) as [m sent].
  unfold createPreset. cbn [fst snd preset_id].
  now destruct (addVote _ _ _ _ _).
Qed.

(** The limiter has no say: such a request is answered 201 also when
    [checkSubmissionRateLimit] denies its author. *)
Lemma post_ignores_rate_limit (env : Env) (rt : Runtime) (db : D1Database)
  (req : Request) (submission : PresetSubmission) (user : string) :
  isAuthenticated (auth req) = true ->
  userDiscordId (auth req) = Some user -> user <> EmptyString ->
  body req = Some submission ->
  validateSubmission submission = None ->
  findDuplicatePreset db (sub_dyes submission) = None ->
  allowed (checkSubmissionRateLimit db user (createdAt rt)) = false ->
  status_code (fst (fst (presetsRouter_post enProfanity env rt db req))) = 201.
Proof.
  intros Hauth Huser Hne Hbody Hvalid Hdup _.
  now rewrite (post_creates env rt db req submission user).
Qed.

End Handler.

(** ** Moderation *)

Lemma checkWithPerspective_unavailable (text : string) (env : Env)
  (fetch : PerspectiveRequest -> FetchOutcome) :
  classifier_unavailable env fetch text ->
  fst (checkWithPerspective text env fetch) = None.
Proof.
  unfold classifier_unavailable, checkWithPerspective.
  intros [H | H].
  - now rewrite H.
  - destruct (Js.truthy (PERSPECTIVE_API_KEY env)); [|reflexivity].
    simpl in *.
    destruct H as [-> | [[b ->] | [-> | ->]]]; reflexivity.
Qed.

Lemma checkWithPerspective_scores (text : string) (env : Env)
  (fetch : PerspectiveRequest -> FetchOutcome) (a : AttributeScores) :
  Js.truthy (PERSPECTIVE_API_KEY env) = true ->
  fetch {| request_key := Js.or_string (PERSPECTIVE_API_KEY env) EmptyString;
           request_text := text |} = reply_scores a ->
  checkWithPerspective text env fetch
  = (match find at_threshold (scores_of a) with
     | Some entry =>
         Some {| passed := false;
                 flaggedField := Some field_content;
                 flaggedReason := Some (high_score_reason entry);
                 method := method_perspective;
                 scores := Some (scores_of a) |}
     | None =>
         Some {| passed := true;
                 flaggedField := None;
                 flaggedReason := None;
                 method := method_perspective;
                 scores := Some (scores_of a) |}
     end,
     [{| request_key := Js.or_string (PERSPECTIVE_API_KEY env) EmptyString;
         request_text := text |}]).
Proof.
  intros Hkey Hfetch. unfold checkWithPerspective.
  rewrite Hkey. simpl. rewrite Hfetch. reflexivity.
Qed.

(** A payload that has [attributeScores] but no score in it at or above the
    threshold is a passing verdict of the classifier, missing scores counting
    as zero. *)
Lemma checkWithPerspective_passes (text : string) (env : Env)
  (fetch : PerspectiveRequest -> FetchOutcome) (a : AttributeScores) :
  Js.truthy (PERSPECTIVE_API_KEY env) = true ->
  fetch {| request_key := Js.or_string (PERSPECTIVE_API_KEY env) EmptyString;
           request_text := text |} = reply_scores a ->
  find at_threshold (scores_of a) = None ->
  fst (checkWithPerspective text env fetch)
  = Some {| passed := true;
            flaggedField := None;
            flaggedReason := None;
            method := method_perspective;
            scores := Some (scores_of a) |}.
Proof.
  intros Hkey Hfetch Hnone.
  rewrite (checkWithPerspective_scores text env fetch a Hkey Hfetch).
  now rewrite Hnone.
Qed.

Section ModerationFacts.
Variable enProfanity : list string.


(** C5, as the code has it: when the local filter passes and the classifier
    gives no verdict (not configured, call failed, response not a success,
    payload not JSON or without [attributeScores]), the result is passed with
    method local, and a valid submission that is no duplicate is stored as
    approved; when the classifier ran and passed too, the result is passed
    with method all, and so it is for a success payload whose
    [attributeScores] hold no score, which the service reads as all zero. *)
Theorem C5_unavailable_classifier_never_blocks (name description : string)
  (env : Env) (classifier : PerspectiveRequest -> FetchOutcome) :
  checkLocalFilter enProfanity name description = None ->
  let result :=
    fst (moderateContent enProfanity name description env classifier) in
  (classifier_unavailable env classifier (name ++ " " ++ description) ->
   passed result = true /\ method_text (method result) = "local")
  /\ (forall r,
        fst (checkWithPerspective (name ++ " " ++ description) env classifier)
        = Some r ->
        passed r = true ->
        passed result = true /\ method_text (method result) = "all")
  /\ (Js.truthy (PERSPECTIVE_API_KEY env) = true ->
      classifier (request_for env name description) = reply_scores no_scores ->
      passed result = true /\ method_text (method result) = "all")
  /\ (forall rt db req submission user,
        classifier_unavailable env classifier (name ++ " " ++ description) ->
        isAuthenticated (auth req) = true ->
        userDiscordId (auth req) = Some user -> user <> EmptyString ->
        body req = Some submission ->
        validateSubmission submission = None ->
        findDuplicatePreset db (sub_dyes submission) = None ->
        sub_name submission = name ->
        sub_description submission = description ->
        fetch rt = classifier ->
        exists preset db' sent,
          presetsRouter_post enProfanity env rt db req
          = (json_created preset approved, db', sent)
          /\ preset_status preset = approved).
Proof.
  intros Hlocal. cbv zeta.
  assert (Hun :
    classifier_unavailable env classifier (name ++ " " ++ description) ->
    passed (fst (moderateContent enProfanity name description
                   env classifier)) = true
    /\ method_text (method (fst (moderateContent enProfanity name description
                                   env classifier))) = "local").
  { intros Hun. unfold moderateContent. rewrite Hlocal.
    apply checkWithPerspective_unavailable in Hun.
    destruct (checkWithPerspective _ env classifier) as [v sent].
    simpl in Hun. subst v. split; reflexivity. }
  assert (Hall : forall r,
    fst (checkWithPerspective (name ++ " " ++ description) env classifier)
    = Some r ->
    passed r = true ->
    passed (fst (moderateContent enProfanity name description
                   env classifier)) = true
    /\ method_text (method (fst (moderateContent enProfanity name description
                                   env classifier))) = "all").
  { intros r Hr Hpassed. unfold moderateContent. rewrite Hlocal.
    destruct (checkWithPerspective _ env classifier) as [v sent].
    simpl in Hr. subst v. rewrite Hpassed. split; reflexivity. }
  split; [exact Hun | split; [exact Hall | split]].
  - intros Hkey Hreply.
    assert (Hnone : find at_threshold (scores_of no_scores) = None)
      by (vm_compute; reflexivity).
    exact (Hall _ (checkWithPerspective_passes _ env classifier no_scores
                     Hkey Hreply Hnone) eq_refl).
  - intros rt db req submission user Hu Hauth Huser Hne Hbody Hvalid Hdup
           Hname Hdesc Hfetch.
    rewrite (post_creates enProfanity env rt db req submission user)
      by assumption.
    rewrite Hname, Hdesc, Hfetch.
    destruct (Hun Hu) as [-> _].
    eexists _, _, _. split; reflexivity.
Qed.

End ModerationFacts.

Lemma C5_unavailable_classifier_witness :
  let result :=
    fst (moderateContent ["badword"] "Evening Tide" "Cool blues for the coast"
           env_configured (fun _ => fetch_rejects)) in
  passed result = true /\ method_text (method result) = "local".
Proof.
  apply (C5_unavailable_classifier_never_blocks ["badword"]
           "Evening Tide" "Cool blues for the coast"
           env_configured (fun _ => fetch_rejects)).
  - reflexivity.
  - right. left. reflexivity.
Defined.

(** C5, as the document words it, fails: a success response whose payload is
    [{attributeScores: {}}] is malformed, the local filter passed, and the
    result has method all, not local: the malformed payload was read as a
    passing verdict of the classifier. *)
Lemma C5_scoreless_payload_is_a_verdict :
  let result :=
    fst (moderateContent ["badword"] "Evening Tide" "Cool blues for the coast"
           env_configured (fun _ => reply_scores no_scores)) in
  checkLocalFilter ["badword"] "Evening Tide" "Cool blues for the coast" = None
  /\ passed result = true
  /\ method_text (method result) = "all"
  /\ method_text (method result) <> "local".
Proof. vm_compute. repeat split. discriminate. Qed.

(** ** What a vote leaves of the store *)

Lemma addVote_store (db : D1Database) (presetId userDiscordId : string)
  (now : Z) (batch_commits : bool) :
  snd (addVote db presetId userDiscordId now batch_commits) = db
  \/ snd (addVote db presetId userDiscordId now batch_commits)
     = {| presets :=
            map (set_vote_count presetId (fun n => n + 1) now) (presets db);
          votes :=
            (votes db ++ [{| vote_preset_id := presetId;
                             vote_user_discord_id := userDiscordId;
                             vote_created_at := now |}])%list |}.
Proof.
  unfold addVote.
  destruct (existingVote db presetId userDiscordId), batch_commits; simpl; auto.
Qed.

Lemma set_vote_count_status (id : string) (f : Z -> Z) (now : Z)
  (row : PresetRow) :
  row_status (set_vote_count id f now row) = row_status row.
Proof. unfold set_vote_count. now destruct (row_id row =? id)%string. Qed.

Lemma addVote_keeps_row (db : D1Database) (presetId userDiscordId : string)
  (now : Z) (batch_commits : bool) (row : PresetRow) :
  In row (presets db) ->
  exists row',
    In row'
      (presets (snd (addVote db presetId userDiscordId now batch_commits)))
    /\ row_id row' = row_id row /\ row_status row' = row_status row.
Proof.
  intros Hin.
  destruct (addVote_store db presetId userDiscordId now batch_commits)
    as [-> | ->].
  - now exists row.
  - exists (set_vote_count presetId (fun n => n + 1) now row). simpl.
    split; [now apply in_map|].
    split; [apply set_vote_count_id | apply set_vote_count_status].
Qed.

Lemma addVote_row_count (db : D1Database) (presetId userDiscordId : string)
  (now : Z) (batch_commits : bool) :
  List.length
    (presets (snd (addVote db presetId userDiscordId now batch_commits)))
  = List.length (presets db).
Proof.
  destruct (addVote_store db presetId userDiscordId now batch_commits)
    as [-> | ->]; [reflexivity | apply length_map].
Qed.

Lemma is_vote_refl (presetId userDiscordId : string) (now : Z) :
  is_vote presetId userDiscordId
    {| vote_preset_id := presetId;
       vote_user_discord_id := userDiscordId;
       vote_created_at := now |} = true.
Proof. unfold is_vote. simpl. now rewrite !String.eqb_refl. Qed.

Lemma addVote_voted (db : D1Database) (presetId userDiscordId : string)
  (now : Z) :
  existingVote (snd (addVote db presetId userDiscordId now true))
    presetId userDiscordId = true.
Proof.
  unfold addVote.
  destruct (existingVote db presetId userDiscordId) eqn:E; simpl.
  - exact E.
  - unfold existingVote. simpl. rewrite existsb_app. simpl.
    rewrite is_vote_refl. now rewrite orb_true_r.
Qed.

(** A second vote right after a committed first one writes nothing and
    answers [already_voted]. *)
Lemma second_vote_is_noop (db : D1Database) (presetId userDiscordId : string)
  (now later : Z) (batch_commits : bool) :
  let db1 := snd (addVote db presetId userDiscordId now true) in
  addVote db1 presetId userDiscordId later batch_commits
  = ({| success := false;
        new_vote_count := stored_vote_count db1 presetId;
        already_voted := Some true;
        error := None |}, db1).
Proof.
  intros db1.
  pose proof (addVote_voted db presetId userDiscordId now) as Hv.
  fold db1 in Hv.
  unfold addVote at 1. rewrite Hv. now rewrite field_or_stored.
Qed.

Lemma addVote_vote_added (db : D1Database) (presetId userDiscordId : string)
  (now : Z) (batch_commits : bool) :
  let r := fst (addVote db presetId userDiscordId now batch_commits) in
  success r && negb (default (already_voted r) false)
  = batch_commits && negb (existingVote db presetId userDiscordId).
Proof.
  unfold addVote.
  destruct (existingVote db presetId userDiscordId), batch_commits;
    reflexivity.
Qed.

Section SubmissionFacts.
Variable enProfanity : list string.

(** C6, as the code has it: when the local filter passes, the classifier
    answers with scores and one of them is at or above the threshold, the
    result is not passed, with the method tag of the classifier, which the
    service writes perspective, on the field [content], with a reason that
    names the first such attribute and its rounded percentage, and carries
    the scores; the submission is then answered 201 and stored as pending. *)
Theorem C6_flagged_by_classifier (env : Env) (rt : Runtime) (db : D1Database)
  (req : Request) (submission : PresetSubmission) (user : string)
  (a : AttributeScores) :
  isAuthenticated (auth req) = true ->
  userDiscordId (auth req) = Some user -> user <> EmptyString ->
  body req = Some submission ->
  validateSubmission submission = None ->
  findDuplicatePreset db (sub_dyes submission) = None ->
  checkLocalFilter enProfanity (sub_name submission)
    (sub_description submission) = None ->
  Js.truthy (PERSPECTIVE_API_KEY env) = true ->
  fetch rt (request_for env (sub_name submission) (sub_description submission))
  = reply_scores a ->
  (exists entry, In entry (scores_of a) /\ at_threshold entry = true) ->
  exists entry preset db',
    In entry (scores_of a) /\ at_threshold entry = true
    /\ fst (moderateContent enProfanity (sub_name submission)
              (sub_description submission) env (fetch rt))
       = {| passed := false;
            flaggedField := Some field_content;
            flaggedReason :=
              Some ("High " ++ fst entry ++ " score detected ("
                    ++ Js.Math_round_toString (snd entry * 100)%float ++ "%)");
            method := method_perspective;
            scores := Some (scores_of a) |}
    /\ method_text
         (method (fst (moderateContent enProfanity (sub_name submission)
                         (sub_description submission) env (fetch rt))))
       = "perspective"
    /\ presetsRouter_post enProfanity env rt db req
       = (json_created preset pending, db',
          [request_for env (sub_name submission) (sub_description submission)])
    /\ status_code (json_created preset pending) = 201
    /\ preset_id preset = randomUUID rt
    /\ preset_status preset = pending
    /\ exists row,
         In row (presets db') /\ row_id row = randomUUID rt
         /\ row_status row = pending.
Proof.
  intros Hauth Huser Hne Hbody Hvalid Hdup Hlocal Hkey Hfetch
         (e0 & Hin0 & Hat0).
  destruct (find at_threshold (scores_of a)) as [entry|] eqn:Hfind.
  2:{ eapply find_none in Hfind; [|exact Hin0]. congruence. }
  pose proof (find_some _ _ Hfind) as [Hin Hat].
  assert (Hmod :
    moderateContent enProfanity (sub_name submission)
      (sub_description submission) env (fetch rt)
    = ({| passed := false;
          flaggedField := Some field_content;
          flaggedReason := Some (high_score_reason entry);
          method := method_perspective;
          scores := Some (scores_of a) |},
       [request_for env (sub_name submission) (sub_description submission)])).
  { unfold moderateContent. rewrite Hlocal.
    rewrite (checkWithPerspective_scores _ env (fetch rt) a Hkey Hfetch).
    rewrite Hfind. reflexivity. }
  rewrite (post_creates enProfanity env rt db req submission user)
    by assumption.
  rewrite Hmod. cbn [fst snd passed].
  eexists entry, _, _.
  repeat split; try eassumption; try reflexivity.
  match goal with
  | |- context [addVote ?d ?p ?u ?n ?c] =>
      destruct (addVote_keeps_row d p u n c
                  {| row_id := randomUUID rt;
                     row_name := sub_name submission;
                     row_description := sub_description submission;
                     row_category_id := sub_category_id submission;
                     row_dyes := sub_dyes submission;
                     row_tags := sub_tags submission;
                     row_author_discord_id := Some user;
                     row_author_name :=
                       Some (Js.or_string (userName (auth req)) "Unknown User");
                     row_vote_count := 0;
                     row_status := pending;
                     row_is_curated := 0;
                     row_created_at := createdAt rt;
                     row_updated_at := createdAt rt;
                     row_dye_signature :=
                       Some (generateDyeSignature (sub_dyes submission)) |})
        as (row' & Hin' & Hid' & Hst')
  end.
  - simpl. apply in_or_app. right. now left.
  - exists row'. auto.
Qed.

End SubmissionFacts.

Lemma C6_flagged_by_classifier_witness :
  let '(response, db', sent) :=
    presetsRouter_post ["badword"] env_configured
      (runtime_with (reply_scores scores_toxic)) db_approved
      (request_from "u2" (submission_of [20; 21])) in
  status_code response = 201
  /\ map row_status (presets db') = [approved; pending]
  /\ sent = [request_for env_configured "Evening Tide"
               "Cool blues for the coast"]
  /\ flaggedReason
       (fst (moderateContent ["badword"] "Evening Tide"
               "Cool blues for the coast" env_configured
               (fun _ => reply_scores scores_toxic)))
     = Some "High toxicity score detected (85%)".
Proof.
  destruct (C6_flagged_by_classifier ["badword"] env_configured
              (runtime_with (reply_scores scores_toxic)) db_approved
              (request_from "u2" (submission_of [20; 21]))
              (submission_of [20; 21]) "u2" scores_toxic)
    as (entry & preset & db' & Hin & Hat & Hmod & _ & Hpost & _);
    try reflexivity.
  - discriminate.
  - exists ("toxicity", 0x1.b333333333333p-1%float).
    split; [left; reflexivity | reflexivity].
  - repeat split.
Defined.

(** C6, as the document words it, fails: for a toxicity score of 0.85 the
    verdict carries the method tag perspective; no verdict of the service
    carries a tag external. *)
Lemma C6_method_is_perspective :
  let result :=
    fst (moderateContent ["badword"] "Evening Tide" "Cool blues for the coast"
           env_configured (fun _ => reply_scores scores_toxic)) in
  at_threshold ("toxicity", 0x1.b333333333333p-1%float) = true
  /\ passed result = false
  /\ flaggedField result = Some field_content
  /\ method_text (method result) = "perspective"
  /\ method_text (method result) <> "external"
  /\ forall m, method_text m <> "external".
Proof.
  vm_compute. repeat split; try discriminate.
  intros []; discriminate.
Qed.

(** ** Duplicates *)

Lemma findDuplicatePreset_some (db : D1Database) (dyes : list Z)
  (dup : CommunityPreset) :
  findDuplicatePreset db dyes = Some dup ->
  exists row,
    In row (presets db) /\ dup = rowToPreset row
    /\ row_dye_signature row = Some (generateDyeSignature dyes)
    /\ duplicate_target (row_status row) = true.
Proof.
  unfold findDuplicatePreset. cbv zeta.
  destruct (find _ (presets db)) as [row|] eqn:E; [|discriminate].
  intros [= <-]. apply find_some in E as [Hin Hrow].
  apply andb_prop in Hrow as [Hsig Hst].
  exists row. repeat split; try assumption.
  unfold signature_is in Hsig.
  destruct (row_dye_signature row); [|discriminate].
  apply String.eqb_eq in Hsig. now subst.
Qed.

Lemma findDuplicatePreset_found (db : D1Database) (dyes : list Z)
  (existing : PresetRow) :
  In existing (presets db) ->
  row_dye_signature existing = Some (generateDyeSignature dyes) ->
  duplicate_target (row_status existing) = true ->
  exists dup, findDuplicatePreset db dyes = Some dup.
Proof.
  intros Hin Hsig Hst. unfold findDuplicatePreset. cbv zeta.
  destruct (find _ (presets db)) as [row|] eqn:E.
  - now eexists.
  - eapply find_none in E; [|exact Hin]. simpl in E.
    unfold signature_is in E.
    rewrite Hsig, String.eqb_refl, Hst in E. discriminate.
Qed.

Lemma findDuplicatePreset_none (db : D1Database) (dyes : list Z) :
  (forall row, In row (presets db) ->
               row_dye_signature row = Some (generateDyeSignature dyes) ->
               duplicate_target (row_status row) = false) ->
  findDuplicatePreset db dyes = None.
Proof.
  intros H.
  destruct (findDuplicatePreset db dyes) as [dup|] eqn:E; [|reflexivity].
  apply findDuplicatePreset_some in E as (row & Hin & _ & Hsig & Hst).
  rewrite (H row Hin Hsig) in Hst. discriminate.
Qed.

(** The row [createPreset] stores carries the signature of its dyes. *)
Lemma createPreset_stores_signature (db : D1Database)
  (submission : PresetSubmission) (authorDiscordId authorName : string)
  (status : PresetStatus) (id : string) (now : Z) :
  exists row,
    presets (snd (createPreset db submission authorDiscordId authorName
                    status id now))
    = (presets db ++ [row])%list
    /\ row_id row = id /\ row_status row = status
    /\ row_vote_count row = 0
    /\ row_dye_signature row = Some (generateDyeSignature (row_dyes row)).
Proof. eexists. simpl. repeat split. Qed.

Section DuplicateFacts.
Variable enProfanity : list string.

Lemma post_duplicate (env : Env) (rt : Runtime) (db : D1Database)
  (req : Request) (submission : PresetSubmission) (user : string)
  (dup : CommunityPreset) :
  isAuthenticated (auth req) = true ->
  userDiscordId (auth req) = Some user -> user <> EmptyString ->
  body req = Some submission ->
  validateSubmission submission = None ->
  findDuplicatePreset db (sub_dyes submission) = Some dup ->
  presetsRouter_post enProfanity env rt db req
  = (json_duplicate dup
       (commits rt && negb (existingVote db (preset_id dup) user)),
     snd (addVote db (preset_id dup) user (votedAt rt) (commits rt)),
     []).
Proof.
  intros Hauth Huser Hne Hbody Hvalid Hdup.
  unfold presetsRouter_post, requireAuth, requireUserContext.
  rewrite Hauth, Huser, Hbody, Hvalid, Hdup. simpl.
  apply String.eqb_neq in Hne. rewrite Hne. simpl.
  rewrite <- (addVote_vote_added db (preset_id dup) user (votedAt rt)
                (commits rt)).
  now destruct (addVote _ _ _ _ _).
Qed.

(** C7, as the code has it. For a request that passes authentication and
    validation:
    - if some approved or pending preset stores the signature of its dyes
      and the submitted dyes are a permutation of them, the answer carries an
      approved or pending preset with the signature of the submitted dyes,
      which is that very preset when no other approved or pending preset
      stores the signature, and no preset row is added; once the store
      commits the vote batch the submitter has a vote on the preset returned,
      reported as added unless they had one already, and when the store
      refuses the batch nothing is written;
    - a preset returned as a duplicate is approved or pending, never
      rejected, flagged or hidden;
    - if every preset with the signature of the submitted dyes is rejected,
      flagged or hidden, a new preset row is created. *)
Theorem C7_duplicate_collapses (env : Env) (rt : Runtime) (db : D1Database)
  (req : Request) (submission : PresetSubmission) (user : string) :
  isAuthenticated (auth req) = true ->
  userDiscordId (auth req) = Some user -> user <> EmptyString ->
  body req = Some submission ->
  validateSubmission submission = None ->
  (forall existing,
      In existing (presets db) ->
      duplicate_target (row_status existing) = true ->
      row_dye_signature existing
      = Some (generateDyeSignature (row_dyes existing)) ->
      Permutation (sub_dyes submission) (row_dyes existing) ->
      exists target db',
        In target (presets db)
        /\ row_dye_signature target
           = Some (generateDyeSignature (sub_dyes submission))
        /\ (row_status target = approved \/ row_status target = pending)
        /\ ((forall other,
               In other (presets db) ->
               row_dye_signature other
               = Some (generateDyeSignature (sub_dyes submission)) ->
               duplicate_target (row_status other) = true ->
               other = existing) ->
            target = existing)
        /\ presetsRouter_post enProfanity env rt db req
           = (json_duplicate (rowToPreset target)
                (commits rt && negb (existingVote db (row_id target) user)),
              db', [])
        /\ List.length (presets db') = List.length (presets db)
        /\ (commits rt = true ->
            existingVote db' (row_id target) user = true)
        /\ (commits rt = false -> db' = db))
  /\ (forall dyes dup,
        findDuplicatePreset db dyes = Some dup ->
        preset_status dup = approved \/ preset_status dup = pending)
  /\ ((forall row,
          In row (presets db) ->
          row_dye_signature row
          = Some (generateDyeSignature (sub_dyes submission)) ->
          duplicate_target (row_status row) = false) ->
      exists preset status db' sent,
        presetsRouter_post enProfanity env rt db req
        = (json_created preset status, db', sent)
        /\ preset_dyes preset = sub_dyes submission
        /\ List.length (presets db') = S (List.length (presets db))).
Proof.
  intros Hauth Huser Hne Hbody Hvalid.
  assert (Hst : forall s, duplicate_target s = true ->
                          s = approved \/ s = pending).
  { intros []; simpl; auto; discriminate. }
  split; [|split].
  - intros existing Hin Htarget Hsig Hperm.
    rewrite <- (signature_of_permutation _ _ Hperm) in Hsig.
    destruct (findDuplicatePreset_found db _ existing Hin Hsig Htarget)
      as [dup Hdup].
    destruct (findDuplicatePreset_some db _ dup Hdup)
      as (target & Hin' & -> & Hsig' & Htarget').
    exists target, (snd (addVote db (row_id target) user (votedAt rt)
                           (commits rt))).
    split; [exact Hin'|]. split; [exact Hsig'|]. split; [auto|].
    split; [intros Honly; now apply Honly|].
    split; [|split; [|split]].
    + apply (post_duplicate env rt db req submission user _
               Hauth Huser Hne Hbody Hvalid Hdup).
    + apply addVote_row_count.
    + intros ->. apply addVote_voted.
    + intros ->. unfold addVote.
      now destruct (existingVote db (row_id target) user).
  - intros dyes dup Hdup.
    apply findDuplicatePreset_some in Hdup as (row & _ & -> & _ & Ht).
    simpl. auto.
  - intros Hnone. apply findDuplicatePreset_none in Hnone.
    rewrite (post_creates enProfanity env rt db req submission user)
      by assumption.
    eexists _, _, _, _. split; [reflexivity|]. split; [reflexivity|].
    rewrite addVote_row_count. simpl. rewrite length_app. simpl. lia.
Qed.

End DuplicateFacts.

Lemma C7_duplicate_collapses_witness :
  let '(response, db', _) :=
    presetsRouter_post ["badword"] env_unconfigured (runtime_with fetch_rejects)
      db_approved (request_from "u2" (submission_of [5; 3; 9])) in
  response = json_duplicate
               (rowToPreset (sample_row "p1" "u1" [9; 5; 3] approved 1 noon))
               true
  /\ List.length (presets db') = 1%nat
  /\ existingVote db' "p1" "u2" = true.
Proof.
  destruct (C7_duplicate_collapses ["badword"] env_unconfigured
              (runtime_with fetch_rejects) db_approved
              (request_from "u2" (submission_of [5; 3; 9]))
              (submission_of [5; 3; 9]) "u2"
              eq_refl eq_refl ltac:(discriminate) eq_refl eq_refl)
    as (H & _).
  destruct (H (sample_row "p1" "u1" [9; 5; 3] approved 1 noon))
    as (target & db' & [Ht|[]] & _ & _ & _ & Hpost & Hlen & Hvote & _).
  - now left.
  - reflexivity.
  - reflexivity.
  - apply Permutation_sym.
    exact (Permutation_cons_append [5; 3] 9).
  - subst target. rewrite Hpost.
    repeat split; [exact Hlen | exact (Hvote eq_refl)].
Defined.

(** C7, as the document words it, fails in four ways.
    - [1,1,2] is equal as a set to the dyes [1,2] of an approved preset, yet
      the submission is not answered as a duplicate; it is stored as a
      second preset.
    - The lookup goes by the stored signature: an approved preset with dyes
      [9,5,3] whose signature column is NULL is no duplicate of [9,5,3].
    - Of two presets with the same dyes, one approved and one pending, the
      first is returned, not the second.
    - The vote is not always added: not when the store refuses the batch,
      and not when the submitter has a vote already. *)
Lemma C7_as_worded_fails :
  (same_set [1; 1; 2] [1; 2]
   /\ map row_status (presets db_one_two) = [approved]
   /\ map row_dyes (presets db_one_two) = [[1; 2]]
   /\ findDuplicatePreset db_one_two [1; 1; 2] = None
   /\ let '(response, db', _) :=
        presetsRouter_post ["badword"] env_unconfigured
          (runtime_with fetch_rejects)
          db_one_two (request_from "u2" (submission_of [1; 1; 2])) in
      status_code response = 201
      /\ map row_dyes (presets db') = [[1; 2]; [1; 1; 2]])
  /\ (map row_status (presets db_unsigned) = [approved]
      /\ map row_dyes (presets db_unsigned) = [[9; 5; 3]]
      /\ let '(response, db', _) :=
           presetsRouter_post ["badword"] env_unconfigured
             (runtime_with fetch_rejects)
             db_unsigned (request_from "u2" (submission_of [9; 5; 3])) in
         status_code response = 201
         /\ map row_dyes (presets db') = [[9; 5; 3]; [9; 5; 3]])
  /\ (map row_id (presets db_twins) = ["p1"; "p2"]
      /\ map row_status (presets db_twins) = [approved; pending]
      /\ option_map preset_id (findDuplicatePreset db_twins [3; 5; 9])
         = Some "p1")
  /\ (let '(response, db', _) :=
        presetsRouter_post ["badword"] env_unconfigured
          (runtime_refusing fetch_rejects)
          db_approved (request_from "u2" (submission_of [5; 3; 9])) in
      response = json_duplicate
                   (rowToPreset
                      (sample_row "p1" "u1" [9; 5; 3] approved 1 noon))
                   false
      /\ existingVote db' "p1" "u2" = false)
  /\ (let '(response, db', _) :=
        presetsRouter_post ["badword"] env_unconfigured
          (runtime_with fetch_rejects)
          db_approved (request_from "u1" (submission_of [5; 3; 9])) in
      response = json_duplicate
                   (rowToPreset
                      (sample_row "p1" "u1" [9; 5; 3] approved 1 noon))
                   false
      /\ votes db' = votes db_approved).
Proof.
  split; [split; [intros x; simpl; tauto|]|]; vm_compute; repeat split.
Qed.

(** ** The word-boundary patterns *)

Lemma last_unit_app (prev : option ascii) (a b : string) :
  last_unit prev (a ++ b) = last_unit (last_unit prev a) b.
Proof.
  revert prev. induction a as [|c a IH]; intros prev; simpl;
    [reflexivity | apply IH].
Qed.

Lemma canonical_empty (s : string) :
  canonical s = EmptyString -> s = EmptyString.
Proof. destruct s; [reflexivity | discriminate]. Qed.

















(** ** Where a word occurs: in the name or in the description

    The filter tests the name, a space and the description in one text. A
    word without a space occurs in that text exactly when it occurs in the
    name or in the description. *)





Lemma is_word_head_space (f rest : string) :
  Js.is_word (Js.head (f ++ " " ++ rest)) = Js.is_word (Js.head f).
Proof. now destruct f. Qed.

Lemma is_word_head_mid (mid f rest : string) :
  Js.is_word (Js.head (mid ++ f ++ " " ++ rest))
  = Js.is_word (Js.head (mid ++ f)).
Proof. destruct mid; [apply is_word_head_space | reflexivity]. Qed.

Lemma is_word_last_space (prev : option ascii) (a e : string) :
  Js.is_word (last_unit prev (a ++ " " ++ e))
  = Js.is_word (last_unit None e).
Proof. rewrite last_unit_app. simpl. now destruct e. Qed.

Lemma word_boundary_ext (a a' b b' : option ascii) :
  Js.is_word a = Js.is_word a' -> Js.is_word b = Js.is_word b' ->
  Js.word_boundary a b = Js.word_boundary a' b'.
Proof. unfold Js.word_boundary. now intros -> ->. Qed.


Lemma occurs_in_name (w name description : string) :
  occurs_as_word w name ->
  occurs_as_word w (name ++ " " ++ description).
Proof.
  intros (pre & mid & post & -> & Hc & Hb1 & Hb2).
  exists pre, mid, (post ++ " " ++ description).
  split; [now rewrite !append_assoc|].
  split; [exact Hc|].
  split.
  - erewrite word_boundary_ext;
      [exact Hb1 | reflexivity | apply is_word_head_mid].
  - erewrite word_boundary_ext;
      [exact Hb2 | reflexivity | apply is_word_head_space].
Qed.

Lemma occurs_in_description (w name description : string) :
  occurs_as_word w description ->
  occurs_as_word w (name ++ " " ++ description).
Proof.
  intros (pre & mid & post & -> & Hc & Hb1 & Hb2).
  exists (name ++ " " ++ pre), mid, post.
  split; [now rewrite !append_assoc|].
  split; [exact Hc|].
  split.
  - erewrite word_boundary_ext;
      [exact Hb1 | apply is_word_last_space | reflexivity].
  - replace ((name ++ " " ++ pre) ++ mid) with (name ++ " " ++ (pre ++ mid))
      by (now rewrite !append_assoc).
    erewrite word_boundary_ext;
      [exact Hb2 | apply is_word_last_space | reflexivity].
Qed.


Section LocalFilterFacts.
Variable enProfanity : list string.


End LocalFilterFacts.



(* ================================================================== *)
(** * Further properties of the preset service *)
(* ================================================================== *)

Lemma find_app_last {A} (f : A -> bool) (l : list A) (x : A) :
  find f (l ++ [x])%list
  = match find f l with
    | Some y => Some y
    | None => if f x then Some x else None
    end.
Proof.
  induction l as [|y l IH]; simpl; [reflexivity|].
  destruct (f y); [reflexivity | exact IH].
Qed.

Lemma signature_kept (dyes : list Z) :
  signature_or_undefined (Some (generateDyeSignature dyes))
  = Some (generateDyeSignature dyes).
Proof. reflexivity. Qed.



(** X2: once a preset is created as approved or pending, a search for a
    duplicate of any permutation of its dyes finds an approved or pending
    preset with its signature. *)
Theorem X2_created_is_found_as_duplicate (db : D1Database)
  (submission : PresetSubmission) (authorDiscordId authorName : string)
  (status : PresetStatus) (id : string) (now : Z) (dyes : list Z) :
  duplicate_target status = true ->
  Permutation dyes (sub_dyes submission) ->
  exists dup,
    findDuplicatePreset
      (snd (createPreset db submission authorDiscordId authorName status
              id now)) dyes = Some dup
    /\ preset_dye_signature dup
       = Some (generateDyeSignature (sub_dyes submission))
    /\ duplicate_target (preset_status dup) = true.
Proof.
  intros Hst Hperm.
  set (db' := snd (createPreset db submission authorDiscordId authorName
                     status id now)).
  assert (Hrow : exists row,
             In row (presets db')
             /\ row_dye_signature row
                = Some (generateDyeSignature (sub_dyes submission))
             /\ row_status row = status).
  { eexists. split; [apply in_or_app; right; left; reflexivity|].
    split; reflexivity. }
  destruct Hrow as (row & Hin & Hsig & Hrst).
  rewrite <- (signature_of_permutation _ _ Hperm) in Hsig.
  rewrite <- Hrst in Hst.
  destruct (findDuplicatePreset_found db' dyes row Hin Hsig Hst) as [dup Hdup].
  exists dup. split; [exact Hdup|].
  apply findDuplicatePreset_some in Hdup as (r & _ & -> & Hsig' & Ht).
  simpl. rewrite Hsig', (signature_of_permutation _ _ Hperm).
  split; [apply signature_kept | exact Ht].
Qed.

Lemma X2_created_is_found_as_duplicate_witness :
  exists dup,
    findDuplicatePreset
      (snd (createPreset db_approved (submission_of [20; 21]) "u2" "Two"
              pending "new" noon)) [21; 20] = Some dup
    /\ preset_dye_signature dup = Some "[20,21]"
    /\ duplicate_target (preset_status dup) = true.
Proof.
  apply (X2_created_is_found_as_duplicate db_approved
           (submission_of [20; 21]) "u2" "Two" pending "new" noon [21; 20]).
  - reflexivity.
  - apply perm_swap.
Defined.

(** X3: a status update under an id that no preset has returns null and
    leaves every row and vote as it was. *)
Theorem X3_status_update_unknown_id (db : D1Database) (id : string)
  (status : PresetStatus) (now : Z) :
  first_row db id = None ->
  updatePresetStatus db id status now = (None, db).
Proof.
  intros Hnone. unfold updatePresetStatus.
  assert (Hrows : map (set_status id status now) (presets db) = presets db).
  { rewrite <- (map_id (presets db)) at 2.
    apply map_ext_in. intros row Hin.
    unfold first_row in Hnone.
    pose proof (find_none _ _ Hnone row Hin) as Hid. simpl in Hid.
    unfold set_status. now rewrite Hid. }
  rewrite Hrows.
  replace {| presets := presets db; votes := votes db |} with db
    by now destruct db.
  unfold getPresetById. now rewrite Hnone.
Qed.

Lemma X3_status_update_unknown_id_witness :
  updatePresetStatus db_approved "nobody" rejected noon = (None, db_approved).
Proof.
  apply (X3_status_update_unknown_id db_approved "nobody" rejected noon).
  reflexivity.
Defined.

(** ** Order of the listings *)

Section StableSorted.
Context {A : Type} (cmp : A -> A -> Z).
Hypothesis cmp_total : forall x y, 0 < cmp x y -> cmp y x <= 0.
Hypothesis cmp_trans :
  forall x y z, cmp x y <= 0 -> cmp y z <= 0 -> cmp x z <= 0.

Lemma insert_sorted (x : A) (l : list A) :
  StronglySorted (fun a b => cmp a b <= 0) l ->
  StronglySorted (fun a b => cmp a b <= 0) (Stable.insert cmp x l).
Proof.
  induction 1 as [|y l Hs IH Hy]; simpl.
  - repeat constructor.
  - destruct (Z.leb_spec (cmp x y) 0) as [Hle|Hgt].
    + constructor; [now constructor|].
      constructor; [exact Hle|].
      eapply Forall_impl; [|exact Hy].
      intros z Hz. now apply (cmp_trans x y z).
    + constructor; [exact IH|].
      eapply Permutation_Forall;
        [apply Permutation_sym, insert_perm|].
      constructor; [now apply cmp_total | exact Hy].
Qed.

Lemma sort_sorted (l : list A) :
  StronglySorted (fun a b => cmp a b <= 0) (Stable.sort cmp l).
Proof.
  induction l; simpl; [constructor | now apply insert_sorted].
Qed.

End StableSorted.

Lemma StronglySorted_skipn {A} (R : A -> A -> Prop) (n : nat) (l : list A) :
  StronglySorted R l -> StronglySorted R (skipn n l).
Proof.
  revert l. induction n as [|n IH]; intros l H; [exact H|].
  destruct H; simpl; [constructor | now apply IH].
Qed.

Lemma StronglySorted_firstn {A} (R : A -> A -> Prop) (n : nat) (l : list A) :
  StronglySorted R l -> StronglySorted R (firstn n l).
Proof.
  revert l. induction n as [|n IH]; intros l H; [constructor|].
  destruct H as [|x l Hs Hx]; simpl; [constructor|].
  constructor; [now apply IH|].
  apply Forall_forall. intros y Hy. apply firstn_In in Hy.
  now apply (proj1 (Forall_forall _ _) Hx).
Qed.

Lemma StronglySorted_limit_offset {A} (R : A -> A -> Prop)
  (limit offset : Z) (l : list A) :
  StronglySorted R l -> StronglySorted R (Sql.limit_offset limit offset l).
Proof.
  intros H. unfold Sql.limit_offset. destruct (limit <? 0).
  - now apply StronglySorted_skipn.
  - now apply StronglySorted_firstn, StronglySorted_skipn.
Qed.

Lemma StronglySorted_map {A B} (R : A -> A -> Prop) (R' : B -> B -> Prop)
  (f : A -> B) (l : list A) :
  (forall a b, R a b -> R' (f a) (f b)) ->
  StronglySorted R l -> StronglySorted R' (map f l).
Proof.
  intros HR. induction 1 as [|x l Hs IH Hx]; simpl; constructor;
    [exact IH|].
  apply Forall_map. eapply Forall_impl; [|exact Hx]. intros; now apply HR.
Qed.

Lemma cmp_int_le (a b : Z) : Sql.cmp_int a b <= 0 <-> a <= b.
Proof. unfold Sql.cmp_int. destruct (Z.compare_spec a b); lia. Qed.

Lemma cmp_int_zero (a b : Z) : Sql.cmp_int a b = 0 <-> a = b.
Proof. unfold Sql.cmp_int. destruct (Z.compare_spec a b); lia. Qed.

Lemma by_votes_then_recent_le (a b : PresetRow) :
  by_votes_then_recent a b <= 0
  <-> row_vote_count b < row_vote_count a
      \/ (row_vote_count b = row_vote_count a
          /\ row_created_at b <= row_created_at a).
Proof.
  unfold by_votes_then_recent, Sql.then_by, Sql.cmp_int.
  destruct (Z.compare_spec (row_vote_count b) (row_vote_count a));
    destruct (Z.compare_spec (row_created_at b) (row_created_at a));
    simpl; lia.
Qed.

Lemma popular_rows_sorted (rows : list PresetRow) (limit offset : Z) :
  StronglySorted popular_before
    (map rowToPreset
       (Sql.limit_offset limit offset
          (Sql.order_by by_votes_then_recent rows))).
Proof.
  eapply StronglySorted_map;
    [|apply StronglySorted_limit_offset, (sort_sorted by_votes_then_recent)].
  - intros a b H. apply by_votes_then_recent_le in H. exact H.
  - intros x y H. apply by_votes_then_recent_le.
    assert (~ by_votes_then_recent x y <= 0) as Hn by lia.
    rewrite by_votes_then_recent_le in Hn. lia.
  - intros x y z Hxy Hyz.
    apply by_votes_then_recent_le in Hxy, Hyz.
    apply by_votes_then_recent_le. lia.
Qed.

Lemma string_compare_trans (a b c : string) :
  String.compare a b <> Gt -> String.compare b c <> Gt ->
  String.compare a c <> Gt.
Proof.
  revert b c.
  induction a as [|x a IH]; intros [|y b] [|z c]; simpl; try congruence.
  unfold Ascii.compare.
  destruct (N.compare_spec (N_of_ascii x) (N_of_ascii y)),
           (N.compare_spec (N_of_ascii y) (N_of_ascii z)),
           (N.compare_spec (N_of_ascii x) (N_of_ascii z));
    try congruence; try lia.
  apply IH.
Qed.

Lemma cmp_text_le (a b : string) :
  Sql.cmp_text a b <= 0 <-> String.compare a b <> Gt.
Proof.
  unfold Sql.cmp_text. destruct (String.compare a b); split;
    try lia; try congruence.
Qed.

Lemma cmp_text_total (a b : string) :
  0 < Sql.cmp_text a b -> Sql.cmp_text b a <= 0.
Proof.
  unfold Sql.cmp_text. rewrite (String.compare_antisym a b).
  destruct (String.compare b a); simpl; lia.
Qed.

(** ** Listings: filters, pages and order *)

Lemma listed_rows {cmp : PresetRow -> PresetRow -> Z}
  (keep : PresetRow -> bool) (limit offset : Z) (rows : list PresetRow)
  (p : CommunityPreset) :
  In p (map rowToPreset
          (Sql.limit_offset limit offset
             (Sql.order_by cmp (filter keep rows)))) ->
  exists row, p = rowToPreset row /\ In row rows /\ keep row = true.
Proof.
  intros Hin. apply in_map_iff in Hin as (row & <- & Hin).
  apply limit_offset_In in Hin.
  unfold Sql.order_by in Hin. apply sort_In in Hin.
  apply filter_In in Hin as [Hin Hk]. now exists row.
Qed.

(** X4: every preset a listing returns has the status asked for (approved
    when none is), the category asked for when one is given, and the curated
    flag asked for when one is given. *)
Theorem X4_listing_respects_filters (db : D1Database)
  (filters : PresetFilters) (p : CommunityPreset) :
  In p (list_presets (getPresets db filters)) ->
  preset_status p = default (filter_status filters) approved
  /\ (forall c, filter_category filters = Some c -> c <> EmptyString ->
                preset_category_id p = c)
  /\ (forall b, filter_is_curated filters = Some b -> preset_is_curated p = b).
Proof.
  intros Hin. unfold getPresets in Hin. simpl in Hin.
  apply listed_rows in Hin as (row & -> & _ & Hk).
  unfold where_clause in Hk.
  apply andb_prop in Hk as [Hk Hcur].
  apply andb_prop in Hk as [Hk _].
  apply andb_prop in Hk as [Hst Hcat].
  simpl. split; [now apply PresetStatus_eqb_eq|]. split.
  - intros c Hc Hne. rewrite Hc in Hcat.
    apply String.eqb_neq in Hne. rewrite Hne in Hcat.
    now apply String.eqb_eq.
  - intros b Hb. rewrite Hb in Hcur. apply Z.eqb_eq in Hcur.
    rewrite Hcur. now destruct b.
Qed.

Lemma X4_listing_respects_filters_witness :
  Forall (fun p => preset_status p = approved)
         (list_presets (getPresets db_mixed (page_of 1 1))).
Proof.
  apply Forall_forall. intros p Hin.
  exact (proj1 (X4_listing_respects_filters db_mixed (page_of 1 1) p Hin)).
Defined.

(** X5: a listing reports as total the number of rows that match the
    filters, returns at most [limit] of them, and, for a page and a limit of
    at least one, says there is more exactly when the total exceeds
    [page * limit]. *)
Theorem X5_listing_pages (db : D1Database) (filters : PresetFilters) :
  let r := getPresets db filters in
  let status := default (filter_status filters) approved in
  list_total r
  = Z.of_nat (List.length (filter (where_clause status filters) (presets db)))
  /\ Z.of_nat (List.length (list_presets r)) <= list_total r
  /\ (0 <= list_limit r ->
      Z.of_nat (List.length (list_presets r)) <= list_limit r)
  /\ (1 <= list_page r -> 1 <= list_limit r ->
      list_has_more r = (list_page r * list_limit r <? list_total r)).
Proof.
  cbv zeta. unfold getPresets. cbn [list_total list_presets list_limit
                                    list_page list_has_more].
  set (matching := filter _ (presets db)).
  set (page := default (filter_page filters) 1).
  set (limit := default (filter_limit filters) 20).
  rewrite or_int_zero, length_map.
  unfold Sql.limit_offset, Sql.order_by.
  pose proof (sort_length (orderBy (default (filter_sort filters) popular))
                matching) as Hlen.
  repeat split.
  - destruct (limit <? 0);
      rewrite ?length_firstn, length_skipn, Hlen; lia.
  - intros Hlimit. destruct (Z.ltb_spec limit 0); [lia|].
    rewrite length_firstn. lia.
  - intros Hpage Hlimit. destruct (Z.ltb_spec limit 0); [lia|].
    rewrite length_firstn, length_skipn, Hlen.
    replace (page * limit) with ((page - 1) * limit + limit) by ring.
    assert (0 <= (page - 1) * limit) by nia.
    destruct (Z.ltb_spec ((page - 1) * limit + limit)
                (Z.of_nat (List.length matching)));
      [apply Z.ltb_lt | apply Z.ltb_ge]; lia.
Qed.

Lemma X5_listing_pages_witness :
  list_has_more (getPresets db_mixed (page_of 1 1)) = true
  /\ list_has_more (getPresets db_mixed (page_of 2 1)) = false.
Proof.
  split.
  - destruct (X5_listing_pages db_mixed (page_of 1 1)) as (_ & _ & _ & H).
    rewrite H; [reflexivity | simpl; lia | simpl; lia].
  - destruct (X5_listing_pages db_mixed (page_of 2 1)) as (_ & _ & _ & H).
    rewrite H; [reflexivity | simpl; lia | simpl; lia].
Defined.

(** X6: a listing comes in the order asked for: by votes, most first, and
    among equal votes newest first (the default); or newest first; or by
    name ascending in the order of the code units. *)
Theorem X6_listing_order (db : D1Database) (filters : PresetFilters) :
  let listed := list_presets (getPresets db filters) in
  match default (filter_sort filters) popular with
  | popular => StronglySorted popular_before listed
  | recent =>
      StronglySorted
        (fun p q => preset_created_at q <= preset_created_at p) listed
  | by_name =>
      StronglySorted
        (fun p q => String.compare (preset_name p) (preset_name q) <> Gt)
        listed
  end.
Proof.
  cbv zeta. unfold getPresets. cbn [list_presets].
  destruct (default (filter_sort filters) popular).
  - apply popular_rows_sorted.
  - eapply StronglySorted_map;
      [|apply StronglySorted_limit_offset, (sort_sorted (orderBy recent))].
    + intros a b H. cbn [orderBy] in H. apply (proj1 (cmp_int_le _ _)) in H. exact H.
    + intros x y H. cbn [orderBy] in *. apply cmp_int_le.
      assert (~ Sql.cmp_int (row_created_at y) (row_created_at x) <= 0)
        as Hn by lia.
      rewrite cmp_int_le in Hn. lia.
    + intros x y z Hxy Hyz. cbn [orderBy] in *.
      apply (proj1 (cmp_int_le _ _)) in Hxy, Hyz. apply cmp_int_le. lia.
  - eapply StronglySorted_map;
      [|apply StronglySorted_limit_offset, (sort_sorted (orderBy by_name))].
    + intros a b H. cbn [orderBy] in H. apply (proj1 (cmp_text_le _ _)) in H. exact H.
    + intros x y. cbn [orderBy]. apply cmp_text_total.
    + intros x y z Hxy Hyz. cbn [orderBy] in *.
      apply (proj1 (cmp_text_le _ _)) in Hxy, Hyz. apply cmp_text_le.
      now apply (string_compare_trans _ (row_name y)).
Qed.

(** ** Search *)

Lemma like_percent_unfold (p s : string) :
  Sql.like (String "%" p) s
  = Sql.like p s
    || match s with
       | String _ s' => Sql.like (String "%" p) s'
       | EmptyString => false
       end.
Proof. destruct s; reflexivity. Qed.

Lemma like_percent_skip (p pre s : string) :
  Sql.like (String "%" p) s = true ->
  Sql.like (String "%" p) (pre ++ s) = true.
Proof.
  intros H. induction pre as [|c pre IH]; [exact H|].
  change (String c pre ++ s) with (String c (pre ++ s)).
  rewrite like_percent_unfold. cbv iota. rewrite IH. apply orb_true_r.
Qed.

Lemma like_percent_all (s : string) : Sql.like "%" s = true.
Proof.
  induction s as [|c s IH]; [reflexivity|].
  rewrite like_percent_unfold. now rewrite IH, orb_true_r.
Qed.

Lemma like_unit_unfold (c : ascii) (p : string) (d : ascii) (s : string) :
  (c =? "%")%char = false ->
  Sql.like (String c p) (String d s)
  = if (c =? "_")%char then Sql.like p s
    else (Js.char_toUpperCase c =? Js.char_toUpperCase d)%char
         && Sql.like p s.
Proof.
  intros H. cbn [Sql.like]. rewrite H. now destruct (c =? "_")%char.
Qed.

(** A pattern matches a text that spells it out, case ignored, whatever
    wildcards the pattern has. *)
Lemma like_spelled_out (q mid r post : string) :
  canonical mid = canonical q ->
  Sql.like r post = true ->
  Sql.like (q ++ r) (mid ++ post) = true.
Proof.
  revert mid. induction q as [|c q IH]; intros mid Hc Hr.
  - apply canonical_empty in Hc. now subst.
  - destruct mid as [|d mid]; [discriminate|].
    simpl in Hc. injection Hc as Hd Hc.
    specialize (IH mid Hc Hr).
    change (String c q ++ r) with (String c (q ++ r)).
    change (String d mid ++ post) with (String d (mid ++ post)).
    destruct (c =? "%")%char eqn:Hp.
    + apply Ascii.eqb_eq in Hp. subst c.
      rewrite like_percent_unfold. apply orb_true_intro. right.
      rewrite like_percent_unfold. now rewrite IH.
    + rewrite (like_unit_unfold _ _ _ _ Hp).
      destruct (c =? "_")%char; [exact IH|].
      rewrite Hd, Ascii.eqb_refl. exact IH.
Qed.

Lemma like_holds_text (q s : string) :
  holds_text q s -> Sql.like ("%" ++ q ++ "%") s = true.
Proof.
  intros (pre & mid & post & -> & Hc).
  change ("%" ++ q ++ "%") with (String "%" (q ++ "%")).
  apply like_percent_skip.
  rewrite like_percent_unfold. apply orb_true_intro. left.
  apply like_spelled_out; [exact Hc | apply like_percent_all].
Qed.

(** X7: a search for a text that the name or the description of an approved
    preset holds, case ignored, matches that preset: with no more than twenty
    matches in all, the preset is on the first page. *)
Theorem X7_search_finds_text (db : D1Database) (q : string)
  (row : PresetRow) :
  q <> EmptyString ->
  In row (presets db) ->
  row_status row = approved ->
  holds_text q (row_name row) \/ holds_text q (row_description row) ->
  where_clause approved (only_search q) row = true
  /\ (list_total (getPresets db (only_search q)) <= 20 ->
      In (rowToPreset row) (list_presets (getPresets db (only_search q)))).
Proof.
  intros Hq Hin Hst Hholds.
  assert (Hw : where_clause approved (only_search q) row = true).
  { unfold where_clause.
    cbn [only_search filter_category filter_search filter_is_curated].
    apply String.eqb_neq in Hq. rewrite Hq, Hst. cbv zeta.
    destruct Hholds as [H|H]; apply like_holds_text in H; rewrite H;
      rewrite ?orb_true_r; reflexivity. }
  split; [exact Hw|].
  unfold getPresets. cbn [list_total list_presets].
  cbn [default only_search filter_status filter_sort filter_page filter_limit].
  rewrite or_int_zero. intros Htotal.
  apply in_map. unfold Sql.limit_offset.
  change ((1 - 1) * 20) with 0. change (20 <? 0) with false.
  change (Z.to_nat 0) with 0%nat. cbn [skipn].
  rewrite firstn_all2.
  - unfold Sql.order_by. apply sort_In. apply filter_In. now split.
  - unfold Sql.order_by. rewrite sort_length. lia.
Qed.

Lemma X7_search_finds_text_witness :
  In (rowToPreset (sample_row "p1" "u1" [9; 5; 3] approved 4 noon))
     (list_presets (getPresets db_mixed (only_search "SUNSET"))).
Proof.
  apply (X7_search_finds_text db_mixed "SUNSET"
           (sample_row "p1" "u1" [9; 5; 3] approved 4 noon)).
  - discriminate.
  - now left.
  - reflexivity.
  - left. exists EmptyString, "Sunset", " Bloom". split; reflexivity.
  - vm_compute. discriminate.
Defined.

(** X8: the moderation queue holds pending presets only, oldest first. *)
Theorem X8_pending_queue (db : D1Database) :
  Forall (fun p => preset_status p = pending) (getPendingPresets db)
  /\ StronglySorted
       (fun p q => preset_created_at p <= preset_created_at q)
       (getPendingPresets db).
Proof.
  unfold getPendingPresets. cbv zeta. split.
  - apply Forall_forall. intros p Hin.
    apply in_map_iff in Hin as (row & <- & Hin).
    unfold Sql.order_by in Hin. apply sort_In in Hin.
    apply filter_In in Hin as [_ Hk]. simpl. now apply PresetStatus_eqb_eq.
  - eapply StronglySorted_map; [|apply sort_sorted].
    + intros a b H. apply (proj1 (cmp_int_le _ _)) in H. exact H.
    + intros x y H. apply cmp_int_le.
      assert (~ Sql.cmp_int (row_created_at x) (row_created_at y) <= 0)
        as Hn by lia.
      rewrite cmp_int_le in Hn. lia.
    + intros x y z Hxy Hyz.
      apply (proj1 (cmp_int_le _ _)) in Hxy, Hyz. apply cmp_int_le. lia.
Qed.

(** X9: the featured list holds at most ten presets, most voted first and
    among equal votes newest first. *)
Theorem X9_featured_top_ten (db : D1Database) :
  (List.length (getFeaturedPresets db) <= 10)%nat
  /\ StronglySorted popular_before (getFeaturedPresets db).
Proof.
  unfold getFeaturedPresets. cbv zeta. split.
  - rewrite length_map. unfold Sql.limit_offset.
    change (10 <? 0) with false. cbv iota.
    apply (firstn_le_length 10).
  - apply popular_rows_sorted.
Qed.

(* ================================================================== *)
(** * Further properties of the vote ledger *)
(* ================================================================== *)

Lemma first_row_after_count (db : D1Database) (presetId : string)
  (f : Z -> Z) (now : Z) (vs : list VoteRow) (id : string) :
  first_row {| presets := map (set_vote_count presetId f now) (presets db);
               votes := vs |} id
  = option_map (set_vote_count presetId f now) (first_row db id).
Proof.
  unfold first_row. simpl. apply find_map_same_id.
  intros. apply set_vote_count_id.
Qed.

Lemma set_vote_count_count (presetId : string) (f : Z -> Z) (now : Z)
  (row : PresetRow) :
  row_vote_count (set_vote_count presetId f now row)
  = if (row_id row =? presetId)%string then f (row_vote_count row)
    else row_vote_count row.
Proof. unfold set_vote_count. now destruct (row_id row =? presetId)%string. Qed.

Lemma stored_after_count (db : D1Database) (presetId : string)
  (f : Z -> Z) (now : Z) (vs : list VoteRow) (id : string) :
  stored_vote_count
    {| presets := map (set_vote_count presetId f now) (presets db);
       votes := vs |} id
  = match first_row db id with
    | Some row =>
        if (id =? presetId)%string then f (row_vote_count row)
        else row_vote_count row
    | None => 0
    end.
Proof.
  unfold stored_vote_count. rewrite first_row_after_count.
  destruct (first_row db id) as [row|] eqn:E; [|reflexivity].
  simpl. rewrite set_vote_count_count.
  now rewrite (first_row_id _ _ _ E).
Qed.

Lemma addVote_fresh (db : D1Database) (presetId userDiscordId : string)
  (now : Z) :
  existingVote db presetId userDiscordId = false ->
  addVote db presetId userDiscordId now true
  = (let db' :=
       {| presets :=
            map (set_vote_count presetId (fun n => n + 1) now) (presets db);
          votes :=
            (votes db ++ [{| vote_preset_id := presetId;
                             vote_user_discord_id := userDiscordId;
                             vote_created_at := now |}])%list |} in
     ({| success := true;
         new_vote_count :=
           Js.field_or (first_row db' presetId) row_vote_count 1;
         already_voted := None;
         error := None |}, db')).
Proof. intros H. unfold addVote. now rewrite H. Qed.

(** X10: the first vote of a voter on an existing preset with a
    non-negative count, once the store commits, succeeds, reports and stores
    the count plus one, leaves the voter with a vote row, and changes the
    count of no other preset. *)
Theorem X10_first_vote_counts (db : D1Database)
  (presetId userDiscordId : string) (now : Z) (row : PresetRow) :
  existingVote db presetId userDiscordId = false ->
  first_row db presetId = Some row ->
  0 <= row_vote_count row ->
  let r := fst (addVote db presetId userDiscordId now true) in
  let db' := snd (addVote db presetId userDiscordId now true) in
  success r = true /\ already_voted r = None /\ error r = None
  /\ new_vote_count r = row_vote_count row + 1
  /\ stored_vote_count db' presetId = row_vote_count row + 1
  /\ existingVote db' presetId userDiscordId = true
  /\ (forall other, other <> presetId ->
        stored_vote_count db' other = stored_vote_count db other).
Proof.
  intros Hnew Hrow Hcount. cbv zeta.
  pose proof (addVote_voted db presetId userDiscordId now) as Hvoted.
  rewrite (addVote_fresh _ _ _ _ Hnew) in *. cbv zeta in *.
  cbn [fst snd success already_voted error new_vote_count] in *.
  assert (Hstored :
    stored_vote_count
      {| presets :=
           map (set_vote_count presetId (fun n => n + 1) now) (presets db);
         votes :=
           (votes db ++ [{| vote_preset_id := presetId;
                            vote_user_discord_id := userDiscordId;
                            vote_created_at := now |}])%list |} presetId
    = row_vote_count row + 1).
  { rewrite stored_after_count, Hrow. now rewrite String.eqb_refl. }
  repeat split; try assumption.
  - rewrite first_row_after_count, Hrow. simpl.
    rewrite set_vote_count_count, (first_row_id _ _ _ Hrow), String.eqb_refl.
    unfold Js.or_int. destruct (Z.eqb_spec (row_vote_count row + 1) 0); lia.
  - intros other Hother. rewrite stored_after_count.
    apply String.eqb_neq in Hother. rewrite Hother.
    unfold stored_vote_count. now destruct (first_row db other).
Qed.

Lemma X10_first_vote_counts_witness :
  new_vote_count (fst (addVote db_approved "p1" "u2" noon true)) = 2
  /\ stored_vote_count (snd (addVote db_approved "p1" "u2" noon true)) "p1"
     = 2.
Proof.
  destruct (X10_first_vote_counts db_approved "p1" "u2" noon
              (sample_row "p1" "u1" [9; 5; 3] approved 1 noon)
              eq_refl eq_refl ltac:(simpl; lia))
    as (_ & _ & _ & H1 & H2 & _).
  split; [exact H1 | exact H2].
Defined.

Lemma filter_negb_false {A} (f : A -> bool) (l : list A) :
  existsb f l = false -> filter (fun x => negb (f x)) l = l.
Proof.
  induction l as [|x l IH]; simpl; [reflexivity|].
  intros H. apply orb_false_elim in H as [Hx Hl].
  rewrite Hx. simpl. now rewrite IH.
Qed.

Lemma filter_none {A} (f : A -> bool) (l : list A) :
  existsb f l = false -> filter f l = [].
Proof.
  induction l as [|x l IH]; simpl; [reflexivity|].
  intros H. apply orb_false_elim in H as [Hx Hl].
  rewrite Hx. now apply IH.
Qed.

(** X11: a vote by a voter without one followed by that voter's unvote,
    both committed, leaves the vote rows exactly as they were and every
    non-negative stored count as it was. *)
Theorem X11_vote_then_unvote (db : D1Database)
  (presetId userDiscordId : string) (now later : Z) :
  existingVote db presetId userDiscordId = false ->
  let db1 := snd (addVote db presetId userDiscordId now true) in
  let r := fst (removeVote db1 presetId userDiscordId later true) in
  let db2 := snd (removeVote db1 presetId userDiscordId later true) in
  success r = true
  /\ votes db2 = votes db
  /\ (forall id, 0 <= stored_vote_count db id ->
        stored_vote_count db2 id = stored_vote_count db id).
Proof.
  intros Hnew. cbv zeta.
  pose proof (addVote_voted db presetId userDiscordId now) as Hvoted.
  rewrite (addVote_fresh _ _ _ _ Hnew) in *. cbv zeta in *.
  cbn [fst snd] in *.
  unfold removeVote. rewrite Hvoted. cbn [negb fst snd success votes presets].
  repeat split.
  - rewrite filter_app. simpl. rewrite is_vote_refl. simpl.
    rewrite List.app_nil_r. now apply filter_negb_false.
  - intros id Hid.
    match goal with
    | |- stored_vote_count {| presets := map ?g (map ?f ?rows);
                              votes := ?vs |} id = _ =>
        change (stored_vote_count
                  {| presets :=
                       map g (presets {| presets := map f rows;
                                         votes := votes db |});
                     votes := vs |} id = stored_vote_count db id)
    end.
    rewrite stored_after_count, first_row_after_count.
    unfold stored_vote_count in *.
    destruct (first_row db id) as [row|] eqn:E; [|reflexivity].
    simpl. rewrite set_vote_count_count, (first_row_id _ _ _ E).
    destruct (id =? presetId)%string; [lia | reflexivity].
Qed.

Lemma X11_vote_then_unvote_witness :
  votes (snd (removeVote (snd (addVote db_approved "p1" "u2" noon true))
                "p1" "u2" (noon + 1) true))
  = votes db_approved.
Proof.
  destruct (X11_vote_then_unvote db_approved "p1" "u2" noon (noon + 1)
              eq_refl) as (_ & H & _).
  exact H.
Defined.

(** ** The count is the number of vote rows *)

Lemma filter_filter_implied {A} (f g : A -> bool) (l : list A) :
  (forall x, f x = true -> g x = true) ->
  filter f (filter g l) = filter f l.
Proof.
  intros H. induction l as [|x l IH]; simpl; [reflexivity|].
  destruct (g x) eqn:Eg; simpl.
  - now rewrite IH.
  - destruct (f x) eqn:Ef; [|exact IH].
    rewrite (H x Ef) in Eg. discriminate.
Qed.

Lemma filter_filter_length {A} (f g : A -> bool) (l : list A) :
  (List.length (filter f (filter g l)) <= List.length (filter f l))%nat.
Proof.
  induction l as [|x l IH]; simpl; [lia|].
  destruct (g x) eqn:Eg, (f x) eqn:Ef; simpl; rewrite ?Ef; simpl; lia.
Qed.

Lemma filter_split_length {A} (f g : A -> bool) (l : list A) :
  (forall x, g x = true -> f x = true) ->
  List.length (filter f l)
  = (List.length (filter f (filter (fun x => negb (g x)) l))
     + List.length (filter g l))%nat.
Proof.
  intros H. induction l as [|x l IH]; simpl; [reflexivity|].
  destruct (g x) eqn:Eg; simpl.
  - rewrite (H x Eg). simpl. lia.
  - destruct (f x); simpl; lia.
Qed.

Lemma existsb_filter_length {A} (f : A -> bool) (l : list A) :
  existsb f l = true -> (1 <= List.length (filter f l))%nat.
Proof.
  induction l as [|x l IH]; simpl; [discriminate|].
  destruct (f x); simpl; [lia | exact IH].
Qed.

Lemma is_vote_preset (presetId userDiscordId : string) (v : VoteRow) :
  is_vote presetId userDiscordId v = true ->
  (vote_preset_id v =? presetId)%string = true.
Proof. unfold is_vote. intros H. now apply andb_prop in H as [H _]. Qed.

Lemma addVote_keeps_ledger (db : D1Database)
  (presetId userDiscordId : string) (now : Z) (batch_commits : bool) :
  ledger_consistent db -> votes_unique db ->
  ledger_consistent (snd (addVote db presetId userDiscordId now batch_commits))
  /\ votes_unique (snd (addVote db presetId userDiscordId now batch_commits)).
Proof.
  intros Hc Hu. unfold addVote.
  destruct (existingVote db presetId userDiscordId) eqn:E; [now split|].
  destruct batch_commits; [|now split].
  cbn [snd]. split.
  - unfold ledger_consistent in *. cbn [presets].
    apply Forall_map. eapply Forall_impl; [|exact Hc].
    intros row Hrow. cbv beta in *.
    rewrite set_vote_count_count, set_vote_count_id.
    unfold votes_for in *. cbn [votes].
    rewrite filter_app, length_app. simpl.
    rewrite (String.eqb_sym presetId).
    destruct (row_id row =? presetId)%string; simpl; lia.
  - intros p u. cbn [votes]. rewrite filter_app, length_app. simpl.
    destruct (is_vote p u _) eqn:Ev; simpl; [|specialize (Hu p u); lia].
    unfold is_vote in Ev. simpl in Ev.
    apply andb_prop in Ev as [Ep Eu].
    apply String.eqb_eq in Ep, Eu. subst p u.
    unfold existingVote in E. rewrite (filter_none _ _ E). simpl. lia.
Qed.

Lemma removeVote_keeps_ledger (db : D1Database)
  (presetId userDiscordId : string) (now : Z) (batch_commits : bool) :
  ledger_consistent db -> votes_unique db ->
  ledger_consistent
    (snd (removeVote db presetId userDiscordId now batch_commits))
  /\ votes_unique
       (snd (removeVote db presetId userDiscordId now batch_commits)).
Proof.
  intros Hc Hu. unfold removeVote.
  destruct (existingVote db presetId userDiscordId) eqn:E; [|now split].
  destruct batch_commits; [|now split].
  cbn [negb snd]. split.
  - unfold ledger_consistent in *. cbn [presets].
    apply Forall_map. eapply Forall_impl; [|exact Hc].
    intros row Hrow. cbv beta in *.
    rewrite set_vote_count_count, set_vote_count_id.
    unfold votes_for in *. cbn [votes].
    destruct (String.eqb_spec (row_id row) presetId) as [Hid|Hid].
    + rewrite Hrow, Hid.
      pose proof (filter_split_length
                    (fun v => (vote_preset_id v =? presetId)%string)
                    (is_vote presetId userDiscordId) (votes db)
                    (is_vote_preset presetId userDiscordId)) as Hsplit.
      pose proof (existsb_filter_length _ _ E) as Hone.
      specialize (Hu presetId userDiscordId).
      lia.
    + rewrite filter_filter_implied; [exact Hrow|].
      intros v Hv. unfold is_vote.
      apply String.eqb_eq in Hv. rewrite Hv.
      apply String.eqb_neq in Hid. now rewrite Hid.
  - intros p u. cbn [votes].
    pose proof (filter_filter_length (is_vote p u)
                  (fun v => negb (is_vote presetId userDiscordId v))
                  (votes db)).
    specialize (Hu p u). lia.
Qed.

(** X12: if every stored count is the number of vote rows of its preset and
    no voter has two rows on one preset, the same holds after a vote and
    after an unvote, whether the voter had a vote or not and whether the
    store commits or not. *)
Theorem X12_ledger_invariant (db : D1Database)
  (presetId userDiscordId : string) (now : Z) (batch_commits : bool) :
  ledger_consistent db -> votes_unique db ->
  (ledger_consistent
     (snd (addVote db presetId userDiscordId now batch_commits))
   /\ votes_unique
        (snd (addVote db presetId userDiscordId now batch_commits)))
  /\ (ledger_consistent
        (snd (removeVote db presetId userDiscordId now batch_commits))
      /\ votes_unique
           (snd (removeVote db presetId userDiscordId now batch_commits))).
Proof.
  intros Hc Hu. split.
  - now apply addVote_keeps_ledger.
  - now apply removeVote_keeps_ledger.
Qed.

Lemma X12_ledger_invariant_witness :
  ledger_consistent (snd (addVote db_approved "p1" "u2" noon true))
  /\ votes_unique (snd (removeVote db_approved "p1" "u1" noon true)).
Proof.
  assert (Hc : ledger_consistent db_approved).
  { repeat constructor. }
  assert (Hu : votes_unique db_approved).
  { intros p u. simpl. destruct (is_vote p u _); simpl; lia. }
  split.
  - exact (proj1 (proj1 (X12_ledger_invariant db_approved "p1" "u2" noon
                           true Hc Hu))).
  - exact (proj2 (proj2 (X12_ledger_invariant db_approved "p1" "u1" noon
                           true Hc Hu))).
Defined.

(* ================================================================== *)
(** * Properties of the vote routes *)
(* ================================================================== *)

Lemma addVote_keeps_presence (db : D1Database)
  (presetId userDiscordId : string) (now : Z) (batch_commits : bool)
  (id : string) :
  first_row (snd (addVote db presetId userDiscordId now batch_commits)) id
  = None <-> first_row db id = None.
Proof.
  destruct (addVote_store db presetId userDiscordId now batch_commits)
    as [-> | ->]; [reflexivity|].
  rewrite first_row_after_count.
  destruct (first_row db id); simpl; split; congruence.
Qed.

Lemma removeVote_keeps_presence (db : D1Database)
  (presetId userDiscordId : string) (now : Z) (batch_commits : bool)
  (id : string) :
  first_row (snd (removeVote db presetId userDiscordId now batch_commits)) id
  = None <-> first_row db id = None.
Proof.
  destruct (removeVote_store db presetId userDiscordId now batch_commits)
    as [-> | ->]; [reflexivity|].
  rewrite first_row_after_count.
  destruct (first_row db id); simpl; split; congruence.
Qed.

(** X13: a vote or unvote request answered with anything but 200 (no
    authentication, no user id, unknown preset, vote already cast) writes
    nothing; and a request from an authenticated user for a preset that does
    not exist is answered 404. *)
Theorem X13_refused_vote_writes_nothing (db : D1Database) (a : AuthContext)
  (presetId : string) (now : Z) (batch_commits : bool) :
  (vote_status_code (fst (votesRouter_post db a presetId now batch_commits))
   <> 200 ->
   snd (votesRouter_post db a presetId now batch_commits) = db)
  /\ (vote_status_code
        (fst (votesRouter_delete db a presetId now batch_commits)) <> 200 ->
      snd (votesRouter_delete db a presetId now batch_commits) = db)
  /\ (isAuthenticated a = true -> Js.truthy (userDiscordId a) = true ->
      first_row db presetId = None ->
      votesRouter_post db a presetId now batch_commits
      = (vote_refused preset_not_found, db)
      /\ votesRouter_delete db a presetId now batch_commits
         = (vote_refused preset_not_found, db)).
Proof.
  split; [|split].
  - unfold votesRouter_post.
    destruct (requireAuth a); [reflexivity|].
    destruct (requireUserContext a); [reflexivity|].
    destruct (first_row db presetId); [|reflexivity].
    unfold addVote.
    destruct (existingVote db presetId _); [reflexivity|].
    destruct batch_commits; simpl; congruence.
  - unfold votesRouter_delete.
    destruct (requireAuth a); [reflexivity|].
    destruct (requireUserContext a); [reflexivity|].
    destruct (first_row db presetId); [|reflexivity].
    destruct (removeVote db presetId _ now batch_commits). simpl. congruence.
  - intros Hauth Huser Hnone.
    unfold votesRouter_post, votesRouter_delete, requireAuth,
      requireUserContext.
    now rewrite Hauth, Huser, Hnone.
Qed.

Lemma X13_refused_vote_witness :
  votesRouter_post db_approved (context_of "u2") "nobody" noon true
  = (vote_refused preset_not_found, db_approved)
  /\ snd (votesRouter_post db_approved (context_of "u1") "p1" noon true)
     = db_approved.
Proof.
  destruct (X13_refused_vote_writes_nothing db_approved (context_of "u2")
              "nobody" noon true) as (_ & _ & H).
  destruct (X13_refused_vote_writes_nothing db_approved (context_of "u1")
              "p1" noon true) as (H' & _).
  split.
  - exact (proj1 (H eq_refl eq_refl eq_refl)).
  - apply H'. vm_compute. discriminate.
Defined.

Lemma context_of_passes (user : string) :
  user <> EmptyString ->
  requireAuth (context_of user) = None
  /\ requireUserContext (context_of user) = None
  /\ Js.or_string (userDiscordId (context_of user)) EmptyString = user.
Proof.
  intros Hne. apply String.eqb_neq in Hne.
  unfold requireAuth, requireUserContext, context_of, Js.truthy, Js.or_string.
  cbn [isAuthenticated userDiscordId negb]. now rewrite Hne.
Qed.

(** X14: for an authenticated user and an existing preset, with the store
    committing: after a vote request the check answers that the user has
    voted, a second vote request is answered 409 and writes nothing, and
    after an unvote request the check answers that the user has not
    voted. *)
Theorem X14_vote_routes_compose (db : D1Database) (user presetId : string)
  (t1 t2 t3 : Z) :
  user <> EmptyString ->
  first_row db presetId <> None ->
  let a := context_of user in
  let db1 := snd (votesRouter_post db a presetId t1 true) in
  let db2 := snd (votesRouter_delete db1 a presetId t3 true) in
  votesRouter_check db1 a presetId = vote_has_voted true
  /\ vote_status_code (fst (votesRouter_post db1 a presetId t2 true)) = 409
  /\ snd (votesRouter_post db1 a presetId t2 true) = db1
  /\ votesRouter_check db2 a presetId = vote_has_voted false.
Proof.
  intros Hne Hrow. cbv zeta.
  destruct (context_of_passes user Hne) as (Hauth & Huser & Hid).
  assert (Hpost : forall d t,
    first_row d presetId <> None ->
    votesRouter_post d (context_of user) presetId t true
    = (if default (already_voted (fst (addVote d presetId user t true))) false
       then vote_json 409 (fst (addVote d presetId user t true))
       else vote_json 200 (fst (addVote d presetId user t true)),
       snd (addVote d presetId user t true))).
  { intros d t Hd. unfold votesRouter_post. rewrite Hauth, Huser, Hid.
    destruct (first_row d presetId); [|congruence].
    destruct (addVote d presetId user t true) as [r d'].
    cbn [fst snd]. now destruct (default (already_voted r) false). }
  assert (Hcheck : forall d,
    votesRouter_check d (context_of user) presetId
    = vote_has_voted (existingVote d presetId user)).
  { intros d. unfold votesRouter_check. now rewrite Hauth, Huser, Hid. }
  rewrite (Hpost db t1 Hrow). cbn [snd].
  set (db1 := snd (addVote db presetId user t1 true)).
  assert (Hvoted : existingVote db1 presetId user = true)
    by apply addVote_voted.
  assert (Hrow1 : first_row db1 presetId <> None).
  { intros H. apply addVote_keeps_presence in H. contradiction. }
  rewrite (Hpost db1 t2 Hrow1), !Hcheck.
  assert (Hsecond :
    addVote db1 presetId user t2 true
    = ({| success := false;
          new_vote_count := stored_vote_count db1 presetId;
          already_voted := Some true;
          error := None |}, db1)).
  { unfold addVote. rewrite Hvoted. now rewrite field_or_stored. }
  rewrite Hsecond. cbn [fst snd already_voted default vote_status_code].
  repeat split; try (now rewrite Hvoted).
  unfold votesRouter_delete. rewrite Hauth, Huser, Hid.
  destruct (first_row db1 presetId); [|congruence].
  unfold removeVote. rewrite Hvoted. cbn [negb snd].
  unfold existingVote. cbn [votes]. now rewrite existsb_filter_negb.
Qed.

Lemma X14_vote_routes_compose_witness :
  votesRouter_check
    (snd (votesRouter_post db_approved (context_of "u2") "p1" noon true))
    (context_of "u2") "p1"
  = vote_has_voted true.
Proof.
  apply (X14_vote_routes_compose db_approved "u2" "p1" noon noon noon).
  - discriminate.
  - discriminate.
Defined.

(* ================================================================== *)
(** * Further properties of the submission handler *)
(* ================================================================== *)

Lemma validateSubmission_ok (submission : PresetSubmission) :
  validateSubmission submission = None
  <-> (2 <= String.length (sub_name submission) <= 50)%nat
      /\ (10 <= String.length (sub_description submission) <= 200)%nat
      /\ In (sub_category_id submission) validCategories
      /\ (2 <= List.length (sub_dyes submission) <= 5)%nat
      /\ Forall (fun id => 0 < id) (sub_dyes submission)
      /\ (List.length (sub_tags submission) <= 10)%nat
      /\ Forall (fun tag => (String.length tag <= 30)%nat)
                (sub_tags submission).
Proof.
  unfold validateSubmission, between.
  destruct (Nat.leb_spec 2 (String.length (sub_name submission)));
    destruct (Nat.leb_spec (String.length (sub_name submission)) 50);
    cbn [negb andb]; try (split; [discriminate | lia]).
  destruct (Nat.leb_spec 10 (String.length (sub_description submission)));
    destruct (Nat.leb_spec (String.length (sub_description submission)) 200);
    cbn [negb andb]; try (split; [discriminate | lia]).
  destruct (existsb (String.eqb (sub_category_id submission)) validCategories)
    eqn:Ecat; cbn [negb andb].
  2:{ split; [discriminate|]. intros (_ & _ & Hin & _).
      assert (existsb (String.eqb (sub_category_id submission))
                validCategories = true) as Hex.
      { apply existsb_exists. eexists. split; [exact Hin|].
        apply String.eqb_refl. }
      congruence. }
  apply existsb_exists in Ecat as (c & Hc & Heq).
  apply String.eqb_eq in Heq. subst c.
  destruct (Nat.leb_spec 2 (List.length (sub_dyes submission)));
    destruct (Nat.leb_spec (List.length (sub_dyes submission)) 5);
    cbn [negb andb]; try (split; [discriminate | lia]).
  destruct (forallb (fun id => 0 <? id) (sub_dyes submission)) eqn:Edyes;
    cbn [negb andb].
  2:{ split; [discriminate|]. intros (_ & _ & _ & _ & Hd & _).
      assert (forallb (fun id => 0 <? id) (sub_dyes submission) = true)
        as Hall.
      { apply forallb_forall. intros x Hx. apply Z.ltb_lt.
        now apply (proj1 (Forall_forall _ _) Hd). }
      congruence. }
  assert (Hdyes : Forall (fun id => 0 < id) (sub_dyes submission)).
  { apply Forall_forall. intros x Hx. apply Z.ltb_lt.
    now apply (proj1 (forallb_forall _ _) Edyes). }
  destruct (Nat.ltb_spec 10 (List.length (sub_tags submission)));
    cbn [negb andb]; try (split; [discriminate | lia]).
  destruct (existsb (fun tag => (30 <? String.length tag)%nat)
              (sub_tags submission)) eqn:Etags; cbn [negb andb].
  - split; [discriminate|]. intros (_ & _ & _ & _ & _ & _ & Ht).
    apply existsb_exists in Etags as (tag & Hin & Hlong).
    apply Nat.ltb_lt in Hlong.
    pose proof (proj1 (Forall_forall _ _) Ht tag Hin). simpl in *. lia.
  - split; [|reflexivity]. intros _.
    repeat split; try lia; try assumption.
    apply Forall_forall. intros tag Hin.
    destruct (Nat.ltb_spec 30 (String.length tag)) as [Hlong|]; [|lia].
    exfalso.
    assert (existsb (fun tag => (30 <? String.length tag)%nat)
              (sub_tags submission) = true) as Hex.
    { apply existsb_exists. exists tag. split; [exact Hin|].
      now apply Nat.ltb_lt. }
    congruence.
Qed.

Section HandlerFacts.
Variable enProfanity : list string.

(** The three ways a submission request ends. *)
Lemma post_outcomes (env : Env) (rt : Runtime) (db : D1Database)
  (req : Request) :
  (exists code error message,
      (code = 400 \/ code = 401)
      /\ presetsRouter_post enProfanity env rt db req
         = (json_error code error message, db, []))
  \/ (exists submission dup added user,
        body req = Some submission
        /\ findDuplicatePreset db (sub_dyes submission) = Some dup
        /\ presetsRouter_post enProfanity env rt db req
           = (json_duplicate dup added,
              snd (addVote db (preset_id dup) user (votedAt rt) (commits rt)),
              []))
  \/ (exists submission user,
        body req = Some submission
        /\ validateSubmission submission = None
        /\ isAuthenticated (auth req) = true
        /\ userDiscordId (auth req) = Some user /\ user <> EmptyString
        /\ findDuplicatePreset db (sub_dyes submission) = None).
Proof.
  unfold presetsRouter_post, requireAuth, requireUserContext.
  destruct (isAuthenticated (auth req)) eqn:Hauth; simpl;
    [|left; eexists _, _, _; split; [|reflexivity]; auto].
  destruct (userDiscordId (auth req)) as [user|] eqn:Huser; simpl;
    [|left; eexists _, _, _; split; [|reflexivity]; auto].
  destruct (String.eqb_spec user EmptyString) as [Hu|Hu]; simpl;
    [left; eexists _, _, _; split; [|reflexivity]; auto|].
  destruct (body req) as [submission|]; [|left; eexists _, _, _; split; [|reflexivity]; auto].
  destruct (validateSubmission submission) eqn:Hvalid;
    [left; eexists _, _, _; split; [|reflexivity]; auto|].
  destruct (findDuplicatePreset db (sub_dyes submission)) as [dup|] eqn:Hdup.
  - right. left.
    destruct (addVote db (preset_id dup) user (votedAt rt) (commits rt))
      as [v db'] eqn:E.
    exists submission, dup, (success v && negb (default (already_voted v) false)),
      user.
    rewrite E. now repeat split.
  - right. right. exists submission, user. now repeat split.
Qed.

(** X15: a submission request answered 400 or 401 has written nothing and
    sent nothing to the classifier; one answered 200, as a duplicate, has
    added no preset row and sent nothing to the classifier; one answered 201
    has added exactly one preset row. *)
Theorem X15_post_writes (env : Env) (rt : Runtime) (db : D1Database)
  (req : Request) :
  let response := fst (fst (presetsRouter_post enProfanity env rt db req)) in
  let db' := snd (fst (presetsRouter_post enProfanity env rt db req)) in
  let sent := snd (presetsRouter_post enProfanity env rt db req) in
  (status_code response = 400 \/ status_code response = 401 ->
   db' = db /\ sent = [])
  /\ (status_code response = 200 ->
      List.length (presets db') = List.length (presets db) /\ sent = [])
  /\ (status_code response = 201 ->
      List.length (presets db') = S (List.length (presets db))).
Proof.
  cbv zeta.
  destruct (post_outcomes env rt db req)
    as [(code & e & m & Hcode & ->)
       | [(submission & dup & added & user & _ & _ & ->)
         | (submission & user & Hbody & Hvalid & Hauth & Huser & Hne & Hdup)]];
    cbn [fst snd status_code].
  - repeat split; try reflexivity; lia.
  - split; [intros [Hc | Hc]; discriminate Hc|].
    split; [intros _; split; [apply addVote_row_count | reflexivity]|].
    intros Hc; discriminate Hc.
  - rewrite (post_creates enProfanity env rt db req submission user)
      by assumption.
    cbn [fst snd status_code].
    split; [intros [Hc | Hc]; discriminate Hc|].
    split; [intros Hc; discriminate Hc|].
    intros _.
    rewrite addVote_row_count. simpl. rewrite length_app. simpl. lia.
Qed.

Lemma find_map_kept {A} (P : A -> bool) (g : A -> A) (l : list A) :
  (forall x, P (g x) = P x) ->
  find P (map g l) = option_map g (find P l).
Proof.
  intros H. induction l as [|x l IH]; simpl; [reflexivity|].
  rewrite H. destruct (P x); [reflexivity | exact IH].
Qed.

End HandlerFacts.

Lemma X15_post_writes_witness :
  snd (fst (presetsRouter_post ["badword"] env_unconfigured
              (runtime_with fetch_rejects) db_approved
              (request_from "u2" (submission_of [7]))))
  = db_approved.
Proof.
  destruct (X15_post_writes ["badword"] env_unconfigured
              (runtime_with fetch_rejects) db_approved
              (request_from "u2" (submission_of [7]))) as (H & _).
  apply H. left. reflexivity.
Defined.

Lemma created_row_is_first (db : D1Database)
  (submission : PresetSubmission) (authorDiscordId authorName : string)
  (status : PresetStatus) (id : string) (now : Z) :
  first_row db id = None ->
  let created :=
    createPreset db submission authorDiscordId authorName status id now in
  first_row (snd created) id
  = Some {| row_id := id;
            row_name := sub_name submission;
            row_description := sub_description submission;
            row_category_id := sub_category_id submission;
            row_dyes := sub_dyes submission;
            row_tags := sub_tags submission;
            row_author_discord_id := Some authorDiscordId;
            row_author_name := Some authorName;
            row_vote_count := 0;
            row_status := status;
            row_is_curated := 0;
            row_created_at := now;
            row_updated_at := now;
            row_dye_signature :=
              Some (generateDyeSignature (sub_dyes submission)) |}
  /\ votes (snd created) = votes db.
Proof.
  intros Hfresh. cbv zeta. unfold first_row in *. simpl.
  rewrite find_app_last, Hfresh. simpl. now rewrite String.eqb_refl.
Qed.

Section HandlerFacts2.
Variable enProfanity : list string.

(** X16: when a request creates a preset under a fresh id and the store
    commits the vote batch, the preset is stored with a count of one and a
    vote row of its author, as approved or pending, while the preset in the
    response still shows a count of zero. *)
Theorem X16_created_preset_has_author_vote (env : Env) (rt : Runtime)
  (db : D1Database) (req : Request) (submission : PresetSubmission)
  (user : string) :
  isAuthenticated (auth req) = true ->
  userDiscordId (auth req) = Some user -> user <> EmptyString ->
  body req = Some submission ->
  validateSubmission submission = None ->
  findDuplicatePreset db (sub_dyes submission) = None ->
  first_row db (randomUUID rt) = None ->
  existingVote db (randomUUID rt) user = false ->
  commits rt = true ->
  let response := fst (fst (presetsRouter_post enProfanity env rt db req)) in
  let db' := snd (fst (presetsRouter_post enProfanity env rt db req)) in
  exists preset status,
    response = json_created preset status
    /\ (status = approved \/ status = pending)
    /\ preset_status preset = status
    /\ preset_vote_count preset = 0
    /\ stored_vote_count db' (randomUUID rt) = 1
    /\ existingVote db' (randomUUID rt) user = true
    /\ option_map preset_status (getPresetById db' (randomUUID rt))
       = Some status.
Proof.
  intros Hauth Huser Hne Hbody Hvalid Hdup Hfresh Hnovote Hcommits.
  cbv zeta.
  rewrite (post_creates enProfanity env rt db req submission user)
    by assumption.
  cbn [fst snd]. rewrite Hcommits.
  set (status := if passed _ then approved else pending).
  set (created := createPreset db submission user _ status _ _).
  destruct (created_row_is_first db submission user
              (Js.or_string (userName (auth req)) "Unknown User")
              status (randomUUID rt) (createdAt rt) Hfresh) as [Hget Hvotes].
  fold created in Hget, Hvotes.
  assert (Hnovote1 : existingVote (snd created) (randomUUID rt) user = false).
  { unfold existingVote. now rewrite Hvotes. }
  exists (fst created), status.
  split; [reflexivity|].
  split; [subst status; destruct (passed _); auto|].
  split; [reflexivity|]. split; [reflexivity|].
  rewrite (addVote_fresh _ _ _ _ Hnovote1). cbv zeta. cbn [snd].
  split; [|split].
  - rewrite stored_after_count, Hget. now rewrite String.eqb_refl.
  - unfold existingVote. cbn [votes]. rewrite existsb_app. simpl.
    rewrite is_vote_refl. now rewrite orb_true_r.
  - unfold getPresetById. rewrite first_row_after_count, Hget.
    simpl. now rewrite set_vote_count_status.
Qed.

End HandlerFacts2.

Lemma findDuplicatePreset_none_find (db : D1Database) (dyes : list Z) :
  findDuplicatePreset db dyes = None ->
  find (fun row => signature_is (generateDyeSignature dyes) row
                   && duplicate_target (row_status row)) (presets db) = None.
Proof.
  unfold findDuplicatePreset. cbv zeta.
  now destruct (find _ (presets db)).
Qed.

Lemma set_vote_count_signature (id : string) (f : Z -> Z) (now : Z)
  (row : PresetRow) :
  row_dye_signature (set_vote_count id f now row) = row_dye_signature row.
Proof. unfold set_vote_count. now destruct (row_id row =? id)%string. Qed.

Section HandlerFacts3.
Variable enProfanity : list string.

(** X17: for a body of the declared type whose name, description and tags
    are ASCII text, a preset that the submission request creates carries the
    name, description, category, dyes and tags of the body, and has a name of
    2 to 50 units, a description of 10 to 200, a known category, 2 to 5
    positive dyes, at most 10 tags of at most 30 units each, the signature
    of its dyes, the requesting user as author, and status approved or
    pending. *)
Theorem X17_created_preset_is_valid (env : Env) (rt : Runtime)
  (db : D1Database) (req : Request) (submission : PresetSubmission)
  (preset : CommunityPreset) (status : PresetStatus) :
  body req = Some submission ->
  Js.ascii_text (sub_name submission) = true ->
  Js.ascii_text (sub_description submission) = true ->
  forallb Js.ascii_text (sub_tags submission) = true ->
  fst (fst (presetsRouter_post enProfanity env rt db req))
  = json_created preset status ->
  (preset_name preset = sub_name submission
   /\ preset_description preset = sub_description submission
   /\ preset_category_id preset = sub_category_id submission
   /\ preset_dyes preset = sub_dyes submission
   /\ preset_tags preset = sub_tags submission)
  /\ (2 <= String.length (preset_name preset) <= 50)%nat
  /\ (10 <= String.length (preset_description preset) <= 200)%nat
  /\ In (preset_category_id preset) validCategories
  /\ (2 <= List.length (preset_dyes preset) <= 5)%nat
  /\ Forall (fun id => 0 < id) (preset_dyes preset)
  /\ (List.length (preset_tags preset) <= 10)%nat
  /\ Forall (fun tag => (String.length tag <= 30)%nat) (preset_tags preset)
  /\ preset_dye_signature preset
     = Some (generateDyeSignature (preset_dyes preset))
  /\ preset_author_discord_id preset = userDiscordId (auth req)
  /\ preset_status preset = status
  /\ (status = approved \/ status = pending).
Proof.
  intros Hsubmitted _ _ _ Hresp.
  destruct (post_outcomes enProfanity env rt db req)
    as [(code & e & m & _ & H)
       | [(submission' & dup & added & user & _ & _ & H)
         | (submission' & user & Hbody & Hvalid & Hauth & Huser & Hne & Hdup)]].
  - rewrite H in Hresp. discriminate.
  - rewrite H in Hresp. discriminate.
  - assert (submission' = submission) as -> by congruence.
    rewrite (post_creates enProfanity env rt db req submission user)
      in Hresp by assumption.
    cbn [fst] in Hresp. injection Hresp as <- <-.
    apply validateSubmission_ok in Hvalid
      as (Hn & Hd & Hc & Hdy & Hpos & Ht & Htl).
    cbn [createPreset fst preset_name preset_description preset_category_id
         preset_dyes preset_tags preset_dye_signature
         preset_author_discord_id preset_status].
    repeat split; try assumption; try lia; try (now rewrite Huser).
    destruct (passed _); auto.
Qed.

(** X18: after a request has created a preset, with the vote batch
    committed, a request of the same user with a permutation of the same
    dyes is answered as a duplicate of that preset with no vote added, and
    leaves the store as it is. *)
Theorem X18_resubmission_changes_nothing (env env2 : Env) (rt rt2 : Runtime)
  (db : D1Database) (req req2 : Request)
  (submission submission2 : PresetSubmission) (user : string) :
  isAuthenticated (auth req) = true ->
  userDiscordId (auth req) = Some user -> user <> EmptyString ->
  body req = Some submission ->
  validateSubmission submission = None ->
  findDuplicatePreset db (sub_dyes submission) = None ->
  commits rt = true ->
  isAuthenticated (auth req2) = true ->
  userDiscordId (auth req2) = Some user ->
  body req2 = Some submission2 ->
  validateSubmission submission2 = None ->
  Permutation (sub_dyes submission2) (sub_dyes submission) ->
  let db1 := snd (fst (presetsRouter_post enProfanity env rt db req)) in
  exists dup,
    presetsRouter_post enProfanity env2 rt2 db1 req2
    = (json_duplicate dup false, db1, [])
    /\ preset_id dup = randomUUID rt.
Proof.
  intros Hauth Huser Hne Hbody Hvalid Hdup Hcommits
         Hauth2 Huser2 Hbody2 Hvalid2 Hperm.
  cbv zeta.
  rewrite (post_creates enProfanity env rt db req submission user)
    by assumption.
  cbn [fst snd]. rewrite Hcommits.
  set (status := if passed _ then approved else pending).
  set (name := Js.or_string (userName (auth req)) "Unknown User").
  set (created := createPreset db submission user name status
                    (randomUUID rt) (createdAt rt)).
  set (db1 := snd (addVote (snd created) (randomUUID rt) user (votedAt rt)
                     true)).
  assert (Hvoted : existingVote db1 (randomUUID rt) user = true)
    by apply addVote_voted.
  assert (Htarget : duplicate_target status = true).
  { subst status. now destruct (passed _). }
  pose proof (signature_of_permutation _ _ Hperm) as Hsig.
  apply findDuplicatePreset_none_find in Hdup.
  assert (Hfound : exists dup,
             findDuplicatePreset db1 (sub_dyes submission2) = Some dup
             /\ preset_id dup = randomUUID rt).
  { unfold findDuplicatePreset. cbv zeta. rewrite Hsig.
    destruct (addVote_store (snd created) (randomUUID rt) user (votedAt rt)
                true) as [E | E]; fold db1 in E; rewrite E.
    - subst created. cbn [createPreset snd presets].
      rewrite find_app_last, Hdup. unfold signature_is.
      cbn [row_dye_signature row_status]. rewrite String.eqb_refl, Htarget.
      eexists. split; reflexivity.
    - cbn [presets]. rewrite find_map_kept.
      + subst created. cbn [createPreset snd presets].
        rewrite find_app_last, Hdup. unfold signature_is.
        cbn [row_dye_signature row_status]. rewrite String.eqb_refl, Htarget.
        eexists. split; [reflexivity|].
        cbn [option_map rowToPreset preset_id]. apply set_vote_count_id.
      + intros row. unfold signature_is.
        now rewrite set_vote_count_signature, set_vote_count_status. }
  destruct Hfound as (dup & Hfound & Hid).
  exists dup. split; [|exact Hid].
  rewrite (post_duplicate enProfanity env2 rt2 db1 req2 submission2 user dup)
    by assumption.
  rewrite Hid, Hvoted. cbn [negb]. rewrite andb_false_r.
  unfold addVote. rewrite Hvoted. reflexivity.
Qed.

End HandlerFacts3.

Lemma X16_created_preset_witness :
  stored_vote_count
    (snd (fst (presetsRouter_post ["badword"] env_unconfigured
                 (runtime_with fetch_rejects) db_approved
                 (request_from "u2" (submission_of [20; 21]))))) "new" = 1.
Proof.
  destruct (X16_created_preset_has_author_vote ["badword"] env_unconfigured
              (runtime_with fetch_rejects) db_approved
              (request_from "u2" (submission_of [20; 21]))
              (submission_of [20; 21]) "u2"
              eq_refl eq_refl ltac:(discriminate) eq_refl eq_refl eq_refl
              eq_refl eq_refl eq_refl)
    as (preset & status & _ & _ & _ & _ & H & _).
  exact H.
Defined.

Lemma X17_created_preset_witness :
  exists preset status,
    fst (fst (presetsRouter_post ["badword"] env_unconfigured
                (runtime_with fetch_rejects) db_approved
                (request_from "u2" (submission_of [20; 21]))))
    = json_created preset status
    /\ (2 <= List.length (preset_dyes preset) <= 5)%nat.
Proof.
  eexists _, _. split; [reflexivity|].
  eapply (X17_created_preset_is_valid ["badword"] env_unconfigured
            (runtime_with fetch_rejects) db_approved
            (request_from "u2" (submission_of [20; 21]))
            (submission_of [20; 21]));
    reflexivity.
Defined.

Lemma X18_resubmission_witness :
  let db1 :=
    snd (fst (presetsRouter_post ["badword"] env_unconfigured
                (runtime_with fetch_rejects) db_approved
                (request_from "u2" (submission_of [20; 21])))) in
  snd (fst (presetsRouter_post ["badword"] env_unconfigured
              (runtime_with fetch_rejects) db1
              (request_from "u2" (submission_of [21; 20]))))
  = db1.
Proof.
  destruct (X18_resubmission_changes_nothing ["badword"]
              env_unconfigured env_unconfigured
              (runtime_with fetch_rejects) (runtime_with fetch_rejects)
              db_approved
              (request_from "u2" (submission_of [20; 21]))
              (request_from "u2" (submission_of [21; 20]))
              (submission_of [20; 21]) (submission_of [21; 20]) "u2"
              eq_refl eq_refl ltac:(discriminate) eq_refl eq_refl eq_refl
              eq_refl eq_refl eq_refl eq_refl eq_refl (perm_swap 20 21 []))
    as (dup & H & _).
  cbv zeta. now rewrite H.
Defined.

(* ================================================================== *)
(** * Further properties of the rate limit *)
(* ================================================================== *)

(** X19: the limiter's answer is coherent: the remaining number lies between
    0 and 10, submissions are allowed exactly when some remain, as long as
    the user is under the limit the count and the remaining number add up to
    10, and [getRemainingSubmissions] gives the same remaining number and
    reset time. *)
Theorem X19_limiter_is_coherent (db : D1Database) (userDiscordId : string)
  (now : Z) :
  let r := checkSubmissionRateLimit db userDiscordId now in
  0 <= remaining r <= 10
  /\ (allowed r = true <-> 0 < remaining r)
  /\ (submissionsToday db userDiscordId now <= 10 ->
      submissionsToday db userDiscordId now + remaining r = 10)
  /\ getRemainingSubmissions db userDiscordId now = (remaining r, resetAt r).
Proof.
  cbv zeta. unfold getRemainingSubmissions.
  rewrite rate_limit_result. cbn [allowed remaining resetAt].
  assert (0 <= submissionsToday db userDiscordId now).
  { unfold submissionsToday. cbv zeta. lia. }
  repeat split; lia.
Qed.

Lemma submitted_between_count (userDiscordId : string) (from to : Z)
  (f : Z -> Z) (id : string) (now : Z) (row : PresetRow) :
  submitted_between userDiscordId from to (set_vote_count id f now row)
  = submitted_between userDiscordId from to row.
Proof.
  unfold submitted_between, set_vote_count.
  now destruct (row_id row =? id)%string.
Qed.

Lemma filter_map_kept {A} (P : A -> bool) (g : A -> A) (l : list A) :
  (forall x, P (g x) = P x) ->
  List.length (filter P (map g l)) = List.length (filter P l).
Proof.
  intros H. induction l as [|x l IH]; simpl; [reflexivity|].
  rewrite H. destruct (P x); simpl; now rewrite IH.
Qed.

(** X20: a preset created within the current UTC day counts once against
    its author and against nobody else; votes and unvotes change nobody's
    count. *)
Theorem X20_only_creation_counts (db : D1Database)
  (submission : PresetSubmission) (author authorName : string)
  (status : PresetStatus) (id : string) (created now : Z) :
  getStartOfDayUTC now <= created
  < getStartOfDayUTC now + 24 * 60 * 60 * 1000 ->
  let db' :=
    snd (createPreset db submission author authorName status id created) in
  submissionsToday db' author now = submissionsToday db author now + 1
  /\ (forall other, other <> author ->
        submissionsToday db' other now = submissionsToday db other now)
  /\ (forall user presetId voter t commits,
        submissionsToday (snd (addVote db presetId voter t commits)) user now
        = submissionsToday db user now
        /\ submissionsToday (snd (removeVote db presetId voter t commits))
             user now
           = submissionsToday db user now).
Proof.
  intros Hday. cbv zeta. unfold submissionsToday. cbv zeta.
  cbn [createPreset snd presets].
  split; [|split].
  - rewrite filter_app, length_app. unfold submitted_between at 2.
    cbn [filter row_author_discord_id row_created_at].
    rewrite String.eqb_refl.
    destruct (Z.leb_spec (getStartOfDayUTC now) created); [|lia].
    destruct (Z.ltb_spec created
                (getStartOfDayUTC now + 24 * 60 * 60 * 1000)); [|lia].
    simpl. lia.
  - intros other Hother. rewrite filter_app, length_app.
    unfold submitted_between at 2.
    cbn [filter row_author_discord_id row_created_at].
    apply not_eq_sym in Hother. apply String.eqb_neq in Hother.
    rewrite Hother. simpl. lia.
  - intros user presetId voter t commits. split.
    + destruct (addVote_store db presetId voter t commits) as [-> | ->];
        [reflexivity|].
      cbn [presets]. rewrite filter_map_kept; [reflexivity|].
      intros row. apply submitted_between_count.
    + destruct (removeVote_store db presetId voter t commits) as [-> | ->];
        [reflexivity|].
      cbn [presets]. rewrite filter_map_kept; [reflexivity|].
      intros row. apply submitted_between_count.
Qed.

Lemma X20_only_creation_counts_witness :
  submissionsToday
    (snd (createPreset db_ten (submission_of [20; 21]) "u1" "One" approved
            "new" (noon + 60000))) "u1" noon = 11.
Proof.
  destruct (X20_only_creation_counts db_ten (submission_of [20; 21]) "u1"
              "One" approved "new" (noon + 60000) noon) as (H & _).
  - vm_compute. split; [discriminate | reflexivity].
  - rewrite H. reflexivity.
Defined.

(** X21: at the reset time the limiter gives a user whose presets were all
    created before it the full allowance again. *)
Theorem X21_limit_resets (db : D1Database) (userDiscordId : string)
  (now : Z) :
  let reset := resetAt (checkSubmissionRateLimit db userDiscordId now) in
  (forall row, In row (presets db) ->
               row_author_discord_id row = Some userDiscordId ->
               row_created_at row < reset) ->
  allowed (checkSubmissionRateLimit db userDiscordId reset) = true
  /\ remaining (checkSubmissionRateLimit db userDiscordId reset) = 10.
Proof.
  cbv zeta. intros Hold.
  destruct (rate_limit_resetAt db userDiscordId now) as (_ & Hstart & _).
  cbv zeta in Hstart.
  set (reset := resetAt (checkSubmissionRateLimit db userDiscordId now)) in *.
  assert (Hzero : submissionsToday db userDiscordId reset = 0).
  { unfold submissionsToday. cbv zeta. rewrite Hstart.
    rewrite filter_none; [reflexivity|].
    apply not_true_is_false. intros Hex.
    apply existsb_exists in Hex as (row & Hin & Hrow).
    unfold submitted_between in Hrow.
    apply andb_prop in Hrow as [Hrow _].
    apply andb_prop in Hrow as [Hauthor Hfrom].
    destruct (row_author_discord_id row) as [a|] eqn:Ea; [|discriminate].
    apply String.eqb_eq in Hauthor. subst a.
    apply Z.leb_le in Hfrom.
    specialize (Hold row Hin Ea). lia. }
  rewrite rate_limit_result, Hzero. split; reflexivity.
Qed.

Lemma X21_limit_resets_witness :
  remaining (checkSubmissionRateLimit db_ten "u1" 1764633600000) = 10.
Proof.
  destruct (X21_limit_resets db_ten "u1" noon) as [_ H].
  - intros row Hin _.
    repeat (destruct Hin as [<- | Hin]; [vm_compute; reflexivity|]).
    destruct Hin.
  - exact H.
Defined.

(* ================================================================== *)
(** * Further properties of the moderation service *)
(* ================================================================== *)

Lemma checkWithPerspective_shape (text : string) (env : Env)
  (fetch : PerspectiveRequest -> FetchOutcome) :
  fst (checkWithPerspective text env fetch) = None
  \/ (exists sc reason,
        fst (checkWithPerspective text env fetch)
        = Some {| passed := false;
                  flaggedField := Some field_content;
                  flaggedReason := Some reason;
                  method := method_perspective;
                  scores := Some sc |})
  \/ (exists sc,
        fst (checkWithPerspective text env fetch)
        = Some {| passed := true;
                  flaggedField := None;
                  flaggedReason := None;
                  method := method_perspective;
                  scores := Some sc |}).
Proof.
  unfold checkWithPerspective.
  destruct (Js.truthy (PERSPECTIVE_API_KEY env)); cbn [negb fst];
    [|now left].
  destruct (fetch _) as [|[|] [|[a|]]]; try (now left).
  destruct (find at_threshold (scores_of a)).
  - right. left. now eexists _, _.
  - right. right. now eexists.
Qed.

Lemma checkWithPerspective_sent (text : string) (env : Env)
  (fetch : PerspectiveRequest -> FetchOutcome) :
  snd (checkWithPerspective text env fetch)
  = if Js.truthy (PERSPECTIVE_API_KEY env)
    then [{| request_key :=
               Js.or_string (PERSPECTIVE_API_KEY env) EmptyString;
             request_text := text |}]
    else [].
Proof.
  unfold checkWithPerspective.
  now destruct (Js.truthy (PERSPECTIVE_API_KEY env)).
Qed.

Section ModerationFacts2.
Variable enProfanity : list string.


(** X23: a verdict that did not pass names a field and a reason and comes
    from the local filter, without scores, or from the classifier, with
    scores; a verdict that passed names neither and has method local,
    without scores, or all, with scores. *)
Theorem X23_verdict_shape (name description : string) (env : Env)
  (classifier : PerspectiveRequest -> FetchOutcome) :
  let r := fst (moderateContent enProfanity name description env classifier) in
  (passed r = false ->
   flaggedField r <> None /\ flaggedReason r <> None
   /\ (method r = method_local /\ scores r = None
       \/ method r = method_perspective /\ scores r <> None))
  /\ (passed r = true ->
      flaggedField r = None /\ flaggedReason r = None
      /\ (method r = method_local /\ scores r = None
          \/ method r = method_all /\ scores r <> None)).
Proof.
  cbv zeta. unfold moderateContent, checkLocalFilter.
  destruct (find _ (compiledProfanityPatterns enProfanity)).
  - cbn [fst passed flaggedField flaggedReason method scores].
    split; [|intros H; discriminate H]. intros _.
    repeat split; try discriminate. left. now split.
  - destruct (checkWithPerspective_shape (name ++ " " ++ description) env
                classifier) as [E | [(sc & reason & E) | (sc & E)]];
      destruct (checkWithPerspective _ env classifier) as [v sent];
      cbn [fst] in E; subst v;
      cbn [negb fst passed flaggedField flaggedReason method scores].
    + split; [intros H; discriminate H|]. intros _.
      repeat split. left. now split.
    + split; [|intros H; discriminate H]. intros _.
      repeat split; try discriminate.
      right. split; [reflexivity|discriminate].
    + split; [intros H; discriminate H|]. intros _.
      repeat split. right. split; [reflexivity|discriminate].
Qed.

(** X24: moderation sends the classifier at most one request: none when the
    local filter flags the text or no key is configured, otherwise exactly
    the one carrying the key and the name and description joined by a
    space, whatever the classifier answers. *)
Theorem X24_one_classifier_request (name description : string) (env : Env)
  (classifier : PerspectiveRequest -> FetchOutcome) :
  let sent := snd (moderateContent enProfanity name description env
                     classifier) in
  (checkLocalFilter enProfanity name description <> None -> sent = [])
  /\ (Js.truthy (PERSPECTIVE_API_KEY env) = false -> sent = [])
  /\ (checkLocalFilter enProfanity name description = None ->
      Js.truthy (PERSPECTIVE_API_KEY env) = true ->
      sent = [request_for env name description])
  /\ (List.length sent <= 1)%nat.
Proof.
  cbv zeta. unfold moderateContent.
  destruct (checkLocalFilter enProfanity name description) as [local|].
  - repeat split; try reflexivity; try congruence. simpl. lia.
  - pose proof (checkWithPerspective_sent (name ++ " " ++ description) env
                  classifier) as Hsent.
    destruct (checkWithPerspective _ env classifier) as [[v|] sent];
      cbn [snd] in Hsent; subst sent;
      destruct (Js.truthy (PERSPECTIVE_API_KEY env));
      try destruct (negb (passed v));
      cbn [snd]; repeat split; try congruence; simpl; lia.
Qed.

(** X25: when the local filter passes and the classifier answers with
    scores, the verdict fails exactly when some attribute, an absent one
    counting as zero, is at or above the threshold. *)
Theorem X25_classifier_flags_at_threshold (name description : string)
  (env : Env) (classifier : PerspectiveRequest -> FetchOutcome)
  (a : AttributeScores) :
  checkLocalFilter enProfanity name description = None ->
  Js.truthy (PERSPECTIVE_API_KEY env) = true ->
  classifier (request_for env name description) = reply_scores a ->
  passed (fst (moderateContent enProfanity name description env classifier))
  = false
  <-> exists entry, In entry (scores_of a) /\ at_threshold entry = true.
Proof.
  intros Hlocal Hkey Hreply. unfold moderateContent. rewrite Hlocal.
  rewrite (checkWithPerspective_scores _ env classifier a Hkey Hreply).
  destruct (find at_threshold (scores_of a)) as [entry|] eqn:E; simpl.
  - split; [|reflexivity]. intros _.
    apply find_some in E. now exists entry.
  - split; [discriminate|]. intros (entry & Hin & Hat).
    pose proof (find_none _ _ E entry Hin). congruence.
Qed.

End ModerationFacts2.


Lemma X23_verdict_shape_witness :
  flaggedReason
    (fst (moderateContent ["badword"] "My BadWord set"
            "A palette with a rude name" env_unconfigured
            (fun _ => fetch_rejects))) <> None.
Proof.
  apply (X23_verdict_shape ["badword"] "My BadWord set"
           "A palette with a rude name" env_unconfigured
           (fun _ => fetch_rejects)).
  reflexivity.
Defined.

Lemma X24_one_classifier_request_witness :
  snd (moderateContent ["badword"] "Evening Tide" "Cool blues for the coast"
         env_configured (fun _ => fetch_rejects))
  = [request_for env_configured "Evening Tide" "Cool blues for the coast"].
Proof.
  apply (X24_one_classifier_request ["badword"] "Evening Tide"
           "Cool blues for the coast" env_configured
           (fun _ => fetch_rejects)); reflexivity.
Defined.

Lemma X25_classifier_flags_witness :
  passed (fst (moderateContent ["badword"] "Evening Tide"
                 "Cool blues for the coast" env_configured
                 (fun _ => reply_scores scores_toxic))) = false.
Proof.
  apply (X25_classifier_flags_at_threshold ["badword"] "Evening Tide"
           "Cool blues for the coast" env_configured
           (fun _ => reply_scores scores_toxic) scores_toxic);
    try reflexivity.
  exists ("toxicity", 0x1.b333333333333p-1%float).
  split; [left; reflexivity | reflexivity].
Defined.

(* ================================================================== *)
(** * Properties of the authentication middleware *)
(* ================================================================== *)

Lemma startsWith_slice (p s : string) :
  JsText.startsWith p s = true ->
  s = p ++ JsText.slice (String.length p) s.
Proof.
  revert s. induction p as [|a p IH]; intros s H; [reflexivity|].
  destruct s as [|c s]; [discriminate|].
  simpl in H. apply andb_prop in H as [Hc H].
  apply Ascii.eqb_eq in Hc. subst c. simpl. f_equal. now apply IH.
Qed.

Lemma startsWith_app (p r : string) : JsText.startsWith p (p ++ r) = true.
Proof.
  induction p as [|a p IH]; [reflexivity|].
  simpl. now rewrite Ascii.eqb_refl.
Qed.

Lemma slice_app (p r : string) : JsText.slice (String.length p) (p ++ r) = r.
Proof. induction p as [|a p IH]; [reflexivity | exact IH]. Qed.

Lemma includes_In (l : list string) (x : string) :
  JsText.includes l x = true <-> In x l.
Proof.
  unfold JsText.includes. rewrite existsb_exists. split.
  - intros (y & Hin & Heq). apply String.eqb_eq in Heq. now subst.
  - intros Hin. exists x. split; [exact Hin | apply String.eqb_refl].
Qed.

Lemma bearer_token (authHeader secret : string) :
  JsText.startsWith "Bearer " authHeader = true
  /\ (JsText.slice 7 authHeader =? secret)%string = true
  <-> authHeader = "Bearer " ++ secret.
Proof.
  split.
  - intros [Hp Ht]. apply String.eqb_eq in Ht.
    apply startsWith_slice in Hp. change (String.length "Bearer ") with 7%nat
      in Hp. now rewrite Ht in Hp.
  - intros ->. split.
    + apply (startsWith_app "Bearer " secret).
    + apply String.eqb_eq. exact (slice_app "Bearer " secret).
Qed.

(** X26: with a list of moderator ids that is ASCII text, the middleware
    authenticates a request exactly when its Authorization header is
    "Bearer " followed by the bot secret; otherwise the context carries no
    identity at all. It marks a moderator exactly when, in addition, the user
    id header is non-empty and equals one of the comma-separated moderator
    ids after trimming; and [requireModerator] lets exactly the moderators
    through. *)
Theorem X26_authentication (env : AuthEnv) (headers : AuthHeaders) :
  (forall ids, MODERATOR_IDS env = Some ids -> Js.ascii_text ids = true) ->
  let a := authMiddleware env headers in
  (isAuthenticated a = true
   <-> Authorization headers = Some ("Bearer " ++ BOT_API_SECRET env))
  /\ (isAuthenticated a = false -> a = unauthenticated)
  /\ (isModerator a = true
      <-> isAuthenticated a = true
          /\ exists id ids,
               X_User_Discord_ID headers = Some id /\ id <> EmptyString
               /\ MODERATOR_IDS env = Some ids /\ ids <> EmptyString
               /\ In id (map JsText.trim (JsText.split "," ids)))
  /\ (requireModerator a = None <-> isModerator a = true).
Proof.
  intros _. cbv zeta. unfold authMiddleware.
  destruct (Authorization headers) as [authHeader|] eqn:Hh.
  2:{ cbn [isAuthenticated isModerator unauthenticated requireModerator negb].
      repeat split; try discriminate; try reflexivity.
      intros [H _]. discriminate. }
  pose proof (bearer_token authHeader (BOT_API_SECRET env)) as Hb.
  destruct (JsText.startsWith "Bearer " authHeader) eqn:Hp.
  2:{ cbn [isAuthenticated isModerator unauthenticated requireModerator negb].
      repeat split; try discriminate; try reflexivity.
      - intros [= ->]. destruct Hb as [_ Hb].
        destruct (Hb eq_refl). discriminate.
      - intros [H _]. discriminate. }
  cbv zeta.
  destruct (JsText.slice 7 authHeader =? BOT_API_SECRET env)%string eqn:Ht.
  2:{ cbn [isAuthenticated isModerator unauthenticated requireModerator negb].
      repeat split; try discriminate; try reflexivity.
      - intros [= ->]. destruct Hb as [_ Hb].
        destruct (Hb eq_refl). discriminate.
      - intros [H _]. discriminate. }
  cbn [isAuthenticated isModerator requireModerator negb].
  assert (Hhead : authHeader = "Bearer " ++ BOT_API_SECRET env)
    by (apply Hb; now split).
  set (m := match X_User_Discord_ID headers, MODERATOR_IDS env with
            | Some userDiscordId, Some ids =>
                if Js.truthy (Some userDiscordId) && Js.truthy (Some ids)
                then JsText.includes (map JsText.trim (JsText.split "," ids))
                       userDiscordId
                else false
            | _, _ => false
            end).
  split; [split; [intros _; now rewrite Hhead | reflexivity]|].
  split; [discriminate|].
  assert (Hmod :
    m = true
    <-> exists id ids,
          X_User_Discord_ID headers = Some id /\ id <> EmptyString
          /\ MODERATOR_IDS env = Some ids /\ ids <> EmptyString
          /\ In id (map JsText.trim (JsText.split "," ids))).
  { subst m.
    destruct (X_User_Discord_ID headers) as [id|].
    2:{ split; [discriminate|]. intros (i & s0 & H & _). discriminate. }
    destruct (MODERATOR_IDS env) as [ids|].
    2:{ split; [discriminate|]. intros (i & s0 & _ & _ & H & _).
        discriminate. }
    unfold Js.truthy.
    destruct (String.eqb_spec id EmptyString) as [Hid|Hid]; cbn [negb andb].
    { split; [discriminate|]. intros (i & s0 & [= <-] & Hne & _).
      contradiction. }
    destruct (String.eqb_spec ids EmptyString) as [Hids|Hids]; cbn [negb].
    { split; [discriminate|]. intros (i & s0 & _ & _ & [= <-] & Hne & _).
      contradiction. }
    rewrite includes_In. split.
    - intros Hin. now exists id, ids.
    - intros (i & s0 & [= <-] & _ & [= <-] & _ & Hin). exact Hin. }
  split.
  - rewrite Hmod. split; [intros H; now split | now intros [_ H]].
  - destruct m; cbn [negb]; split; congruence.
Qed.

Lemma X26_authentication_witness :
  isModerator (authMiddleware sample_auth_env (sample_headers "secret" "222"))
  = true
  /\ authMiddleware sample_auth_env (sample_headers "guess" "222")
     = unauthenticated.
Proof.
  assert (Hascii : forall ids,
             MODERATOR_IDS sample_auth_env = Some ids ->
             Js.ascii_text ids = true)
    by (intros ids [= <-]; reflexivity).
  destruct (X26_authentication sample_auth_env
              (sample_headers "secret" "222") Hascii) as (_ & _ & Hmod & _).
  destruct (X26_authentication sample_auth_env
              (sample_headers "guess" "222") Hascii) as (_ & Hno & _).
  split.
  - apply Hmod. split; [reflexivity|].
    exists "222", "111, 222 ,333".
    repeat split; try discriminate. right. left. reflexivity.
  - apply Hno. reflexivity.
Defined.

(* ================================================================== *)
(** * Properties of the notifier *)
(* ================================================================== *)

Lemma substring_length (n : nat) (s : string) :
  (String.length (String.substring 0 n s) <= n)%nat.
Proof.
  revert s. induction n as [|n IH]; intros [|c s]; simpl; try lia.
  specialize (IH s). lia.
Qed.

(** X27: the notifier sends nothing when neither a webhook nor an owner with
    a bot token is configured, at most three requests otherwise, a message to
    the owner only when the channel was opened with a success response whose
    body is JSON, and in every embed a description of at most 200 units. *)
Theorem X27_notifier_requests (alert : ModerationAlert) (env : NotifyEnv)
  (now : Z) (dm : DmChannelOutcome) :
  let sent := notifyModerators alert env now dm in
  (Js.truthy (MODERATION_WEBHOOK_URL env) = false ->
   Js.truthy (OWNER_DISCORD_ID env) && Js.truthy (DISCORD_BOT_TOKEN env)
   = false ->
   sent = [])
  /\ (List.length sent <= 3)%nat
  /\ (existsb is_dm_message sent = true ->
      exists id, dm = dm_response true (dm_json id))
  /\ (forall n embed f,
        In n sent -> embed_of n = Some embed -> In f (embed_fields embed) ->
        embed_field_name f = "Description" ->
        (String.length (embed_field_value f) <= 200)%nat).
Proof.
  cbv zeta. unfold notifyModerators. cbv zeta.
  set (embed := moderation_embed alert now).
  assert (Hembed : forall f, In f (embed_fields embed) ->
                             embed_field_name f = "Description" ->
                             (String.length (embed_field_value f) <= 200)%nat).
  { intros f Hin Hname. subst embed. cbn [moderation_embed embed_fields] in Hin.
    repeat (destruct Hin as [<- | Hin]; [try discriminate Hname|]).
    - cbn [embed_field_value]. apply substring_length.
    - destruct Hin. }
  destruct (MODERATION_WEBHOOK_URL env) as [url|];
    destruct (OWNER_DISCORD_ID env) as [owner|];
    destruct (DISCORD_BOT_TOKEN env) as [token|];
    cbn [Js.truthy andb];
    try destruct (negb (url =? EmptyString)%string);
    try destruct (negb (owner =? EmptyString)%string);
    try destruct (negb (token =? EmptyString)%string);
    cbn [andb app];
    try destruct dm as [|[|] [|id]];
    cbn [app existsb is_dm_message orb List.length];
    (split; [try reflexivity; intros; discriminate
            |split; [lia
                    |split; [intros H; try discriminate H; now eexists|]]]);
    intros n e f Hn He Hf Hname;
    repeat (destruct Hn as [<- | Hn];
            [cbn [embed_of] in He; try discriminate He;
             injection He as <-; now apply Hembed|]);
    destruct Hn.
Qed.

Lemma X27_notifier_requests_witness :
  notifyModerators sample_alert
    {| MODERATION_WEBHOOK_URL := None;
       OWNER_DISCORD_ID := Some "owner";
       DISCORD_BOT_TOKEN := None |}
    noon dm_rejects = [].
Proof.
  apply (X27_notifier_requests sample_alert
           {| MODERATION_WEBHOOK_URL := None;
              OWNER_DISCORD_ID := Some "owner";
              DISCORD_BOT_TOKEN := None |} noon dm_rejects);
    reflexivity.
Defined.

(* ================================================================== *)
(** * Duplicates found by signature *)
(* ================================================================== *)

Lemma signature_nonempty (dyes : list Z) :
  signature_or_undefined (Some (generateDyeSignature dyes))
  = Some (generateDyeSignature dyes).
Proof. reflexivity. Qed.

(** X28: for dye ids that JavaScript holds exactly (positive and at most
    [MAX_SAFE_INTEGER]), two dye lists with the same signature hold the same
    dyes the same number of times; so a preset found as a duplicate, if it
    stores the signature of its own dyes, has the submitted dyes up to
    order, and is approved or pending. *)
Theorem X28_duplicate_has_same_dyes (db : D1Database) (dyes : list Z)
  (dup : CommunityPreset) :
  Forall (fun d => 0 < d <= Js.MAX_SAFE_INTEGER) dyes ->
  Forall (fun d => 0 < d <= Js.MAX_SAFE_INTEGER) (preset_dyes dup) ->
  (forall other,
      Forall (fun d => 0 < d <= Js.MAX_SAFE_INTEGER) other ->
      generateDyeSignature dyes = generateDyeSignature other ->
      Permutation dyes other)
  /\ (findDuplicatePreset db dyes = Some dup ->
      preset_dye_signature dup
      = Some (generateDyeSignature (preset_dyes dup)) ->
      Permutation dyes (preset_dyes dup)
      /\ (preset_status dup = approved \/ preset_status dup = pending)).
Proof.
  intros _ _. split.
  - intros other _. apply signature_determines_multiset.
  - intros Hdup Hown.
    apply findDuplicatePreset_some in Hdup as (row & _ & -> & Hsig & Ht).
    cbn [rowToPreset preset_dye_signature preset_dyes preset_status] in *.
    rewrite Hsig, signature_nonempty in Hown.
    assert (E : generateDyeSignature dyes
                = generateDyeSignature (row_dyes row)) by congruence.
    split; [exact (signature_determines_multiset _ _ E)|].
    destruct (row_status row); auto; discriminate.
Qed.

Lemma X28_duplicate_witness :
  Permutation [5; 3; 9] [9; 5; 3].
Proof.
  apply (X28_duplicate_has_same_dyes db_approved [5; 3; 9]
           (rowToPreset (sample_row "p1" "u1" [9; 5; 3] approved 1 noon))).
  - repeat (constructor; [unfold Js.MAX_SAFE_INTEGER; lia|]). constructor.
  - repeat (constructor; [unfold Js.MAX_SAFE_INTEGER; lia|]). constructor.
  - reflexivity.
  - reflexivity.
Defined.
